(** * AdGen Studio dashboard: a shallow embedding of [src/pages/Index.tsx]

    The page component keeps its data in React state cells and talks to three
    outside parties: the Supabase data API, the Supabase object storage and
    the n8n webhooks.  Every handler of the component is written here as an
    action of a small monad that threads the component state, reads the
    answers of the outside parties from a [World], and records every
    observable interaction (toast, dialog, backend call, webhook request) in
    an event log.  [console.log]/[console.warn]/[console.error] lines are
    diagnostics only and are not recorded. *)

From Stdlib Require Import String Ascii NArith List Bool.
From stdpp Require Import base option list sorting strings pretty gmap.

Local Open Scope string_scope.
Local Open Scope list_scope.

(** ** JavaScript strings *)

Module Js.

(** The character U+0022, used inside the messages of the program. *)
Definition dquote : string := String (ascii_of_nat 34) EmptyString.

(** [!!s] for a string: only the empty string is falsy. *)
Definition truthy (s : string) : bool :=
  match s with
  | EmptyString => false
  | String _ _ => true
  end.

(** [a || b] on strings. *)
Definition or (a b : string) : string := if truthy a then a else b.

(** [!!o] for [string | null]. *)
Definition truthy_opt (o : option string) : bool :=
  match o with
  | Some s => truthy s
  | None => false
  end.

(** [s || null]. *)
Definition or_null (s : string) : option string :=
  if truthy s then Some s else None.

(** [s.startsWith(p)]. *)
Fixpoint startsWith (p s : string) : bool :=
  match p, s with
  | EmptyString, _ => true
  | String a p', String b s' => if Ascii.eqb a b then startsWith p' s' else false
  | String _ _, EmptyString => false
  end.

(** [s.includes(p)]. *)
Fixpoint includes (p s : string) : bool :=
  startsWith p s ||
  match s with
  | EmptyString => false
  | String _ s' => includes p s'
  end.

(** [s.split('.').pop()]: the text after the last dot, the whole string
    when it has no dot. *)
Fixpoint split_pop (sep : ascii) (s : string) : string :=
  match s with
  | EmptyString => EmptyString
  | String c s' =>
      if Ascii.eqb c sep then split_pop sep s'
      else if includes (String sep EmptyString) s' then split_pop sep s'
      else s
  end.

(** Strings hold the UTF-8 bytes of the JavaScript string.  [trim] removes
    the white space and the line terminators of ECMAScript.  Those of one
    byte: TAB, LF, VT, FF, CR and the space. *)
Definition is_space (c : ascii) : bool :=
  let n := nat_of_ascii c in
  (n =? 32)%nat || ((9 <=? n)%nat && (n <=? 13)%nat).

(** Of two bytes: U+00A0, the no-break space. *)
Definition is_space2 (c d : ascii) : bool :=
  (nat_of_ascii c =? 194)%nat && (nat_of_ascii d =? 160)%nat.

(** Of three bytes: U+1680; U+2000 to U+200A, U+2028, U+2029 and U+202F;
    U+205F; U+3000; U+FEFF. *)
Definition is_space3 (c d e : ascii) : bool :=
  let c := nat_of_ascii c in
  let d := nat_of_ascii d in
  let e := nat_of_ascii e in
  ((c =? 225) && (d =? 154) && (e =? 128))%nat
  || ((c =? 226) && (d =? 128)
      && (((128 <=? e) && (e <=? 138)) || (e =? 168) || (e =? 169) || (e =? 175)))%nat
  || ((c =? 226) && (d =? 129) && (e =? 159))%nat
  || ((c =? 227) && (d =? 128) && (e =? 128))%nat
  || ((c =? 239) && (d =? 187) && (e =? 191))%nat.

(** [s] without its first character, when that character is white space. *)
Definition skip_space (s : string) : option string :=
  match s with
  | EmptyString => None
  | String c r =>
      if is_space c then Some r
      else
        match r with
        | EmptyString => None
        | String d r' =>
            if is_space2 c d then Some r'
            else
              match r' with
              | EmptyString => None
              | String e r'' => if is_space3 c d e then Some r'' else None
              end
        end
  end.

(** [s.trimStart()]. *)
Fixpoint trimStart (s : string) : string :=
  match s with
  | EmptyString => EmptyString
  | String c r =>
      if is_space c then trimStart r
      else
        match r with
        | EmptyString => s
        | String d r' =>
            if is_space2 c d then trimStart r'
            else
              match r' with
              | EmptyString => s
              | String e r'' => if is_space3 c d e then trimStart r'' else s
              end
        end
  end.

(** Every character of [s] is white space. *)
Fixpoint all_space (s : string) : bool :=
  match s with
  | EmptyString => true
  | String c r =>
      if is_space c then all_space r
      else
        match r with
        | EmptyString => false
        | String d r' =>
            if is_space2 c d then all_space r'
            else
              match r' with
              | EmptyString => false
              | String e r'' => is_space3 c d e && all_space r''
              end
        end
  end.

(** [s.trimEnd()]: the string is cut where only white space follows. *)
Fixpoint trimEnd (s : string) : string :=
  match s with
  | EmptyString => EmptyString
  | String c r => if all_space s then EmptyString else String c (trimEnd r)
  end.

(** [s.trim()]. *)
Definition trim (s : string) : string := trimEnd (trimStart s).

End Js.

(** [s] occurs inside [m]. *)
Definition occurs_in (s m : string) : Prop :=
  exists pre post, m = pre +:+ s +:+ post.

(** ** Data model *)

Inductive View := dashboard | create | settings_view.
Inductive TabType := reels | product | ugc.
Inductive AspectRatio := Portrait | Landscape.

(** [interface VideoPost]; the identifier is kept opaque, its order is the
    one of the backend's [id] column ([id_leb] of the [World] below). *)
Record VideoPost := {
  id : string;
  video_url : option string;
  post_title : string;
  caption : string;
  hashtag : option string;
  youtube_post_status : string;
  instagram_post_status : string;
  facebook_post_status : string
}.

Record AppSettings := {
  supabaseUrl : string;
  supabaseKey : string;
  n8nGenerateWebhook : string;
  n8nPostWebhook : string;
  tableName : string
}.

(** The two editable columns, ['post_title' | 'caption']. *)
Inductive Field := f_post_title | f_caption.

(** [v[field]]. *)
Definition get_field (f : Field) (v : VideoPost) : string :=
  match f with
  | f_post_title => post_title v
  | f_caption => caption v
  end.

(** [{ ...v, [field]: value }]. *)
Definition set_field (f : Field) (value : string) (v : VideoPost) : VideoPost :=
  match f with
  | f_post_title =>
      {| id := id v; video_url := video_url v; post_title := value;
         caption := caption v; hashtag := hashtag v;
         youtube_post_status := youtube_post_status v;
         instagram_post_status := instagram_post_status v;
         facebook_post_status := facebook_post_status v |}
  | f_caption =>
      {| id := id v; video_url := video_url v; post_title := post_title v;
         caption := value; hashtag := hashtag v;
         youtube_post_status := youtube_post_status v;
         instagram_post_status := instagram_post_status v;
         facebook_post_status := facebook_post_status v |}
  end.

Definition tab_name (t : TabType) : string :=
  match t with
  | reels => "reels"
  | product => "product"
  | ugc => "ugc"
  end.

Definition ratio_name (r : AspectRatio) : string :=
  match r with
  | Portrait => "Portrait"
  | Landscape => "Landscape"
  end.

(** A browser [File]: only its name and MIME type are read. *)
Module File.
Record t := { name : string; type : string }.
End File.

(** The edit buffer of one row, [{post_title, caption}]; a field the user
    has not typed into is [undefined]. *)
Module Edit.
Record t := { post_title : option string; caption : option string }.

Definition empty : t := {| post_title := None; caption := None |}.

Definition get (f : Field) (e : t) : option string :=
  match f with
  | f_post_title => post_title e
  | f_caption => caption e
  end.

Definition set (f : Field) (value : string) (e : t) : t :=
  match f with
  | f_post_title => {| post_title := Some value; caption := caption e |}
  | f_caption => {| post_title := post_title e; caption := Some value |}
  end.
End Edit.

(** The body posted to the generate webhook by the upload variant. *)
Module Payload.
Record t := {
  type : string;
  post_title : string;
  caption : string;
  prompt_text : string;
  product_name : option string;
  product_description : option string;
  aspect_ratio : string;
  file_url : option string;
  file_base64 : option string;
  file_name : string;
  file_type : string;
  timestamp : string;
  source : string
}.
End Payload.

(** The body posted by the URL-only variant; optional members are absent
    keys of the object. *)
Module UrlPayload.
Record t := {
  type : string;
  prompt : string;
  aspect_ratio : string;
  image_url : option string;
  product_name : option string;
  product_description : option string;
  product_image_url : option string
}.
End UrlPayload.

Inductive Body :=
| VideoBody (v : VideoPost)
| AdBody (p : Payload.t)
| UrlAdBody (p : UrlPayload.t).

(** The draft kept under the key ['createAdFormData']. *)
Record FormData := {
  fd_prompt : string;
  fd_productName : string;
  fd_productDescription : string;
  fd_aspectRatio : AspectRatio;
  fd_filePreview : option string
}.

(** ** The outside world *)

(** The handle made by [createClient(url, key)]. *)
Record SupabaseClient := { client_url : string; client_key : string }.

(** What an awaited promise does. *)
Inductive Reply (A : Type) :=
| Resolved (a : A)
| Rejected (message : string).
Arguments Resolved {A} a.
Arguments Rejected {A} message.

(** The [{ data, error }] pair of the data API and of the storage API; an
    error object is read through its [message] only. *)
Record Response (A : Type) := { data : option A; error : option string }.
Arguments data {A} r.
Arguments error {A} r.

(** [.order(column, { ascending })]. *)
Record OrderClause := { column : string; ascending : bool }.

(** [.from(table).select('*').order(...)]. *)
Record SelectQuery := { q_table : string; q_order : option OrderClause }.

(** The [Response] of [fetch]: its status, the body read by
    [response.text()], and what [response.json()] does.  [ok] is derived
    from the status as the Fetch standard defines it. *)
Record HttpResponse := {
  status : N;
  text : string;
  json : Reply unit
}.

Definition ok (r : HttpResponse) : bool :=
  (200 <=? status r)%N && (status r <=? 299)%N.

Record World := {
  (** the message of the error that [createClient(url, key)] of the client
      library throws, if it throws: the library refuses a URL that does not
      parse or is not an HTTP or HTTPS URL *)
  createClient_error : string -> string -> option string;
  (** rows of a table that the caller may read, in storage order *)
  table_rows : SupabaseClient -> string -> list VideoPost;
  (** the order of the [id] column *)
  id_leb : string -> string -> bool;
  (** failure of a select, if any *)
  select_fault : SupabaseClient -> string -> Reply (option string);
  update_reply : SupabaseClient -> string -> Field -> string -> string -> Reply (Response unit);
  delete_reply : SupabaseClient -> string -> string -> Reply (Response unit);
  upload_reply : SupabaseClient -> string -> string -> File.t -> Reply (Response unit);
  publicUrl : SupabaseClient -> string -> string -> string;
  (** [fetch] of a [data:] URL, giving the MIME type of the blob *)
  dataurl_reply : string -> Reply string;
  post_reply : string -> Body -> Reply HttpResponse;
  confirm_answer : string -> bool;
  (** [Date.now()] and [new Date().toISOString()] *)
  now : N;
  now_iso : string
}.

(** *** The data API *)

(** The data API is an external service.  What the program relies on is
    written out here: a select answers with the readable rows of the named
    table, arranged as the order clause of the query asks, or with an
    error. *)

(** Order of two rows under an [.order('id', { ascending })] clause. *)
Definition row_le (w : World) (asc : bool) (a b : VideoPost) : Prop :=
  Is_true (if asc then id_leb w (id a) (id b) else id_leb w (id b) (id a)).

#[global] Instance row_le_dec w asc a b : Decision (row_le w asc a b).
Proof. unfold row_le. apply _. Defined.

(** The backend applies the order clause of a query; the program orders by
    the [id] column only, a clause on another column is left unapplied. *)
Definition apply_order (w : World) (o : option OrderClause) (rows : list VideoPost)
  : list VideoPost :=
  match o with
  | Some c =>
      if String.eqb (column c) "id" then merge_sort (row_le w (ascending c)) rows
      else rows
  | None => rows
  end.

(** [await supabase.from(t).select('*').order(...)]. *)
Definition run_select (w : World) (c : SupabaseClient) (q : SelectQuery)
  : Reply (Response (list VideoPost)) :=
  match select_fault w c (q_table q) with
  | Rejected m => Rejected m
  | Resolved (Some m) => Resolved {| data := None; error := Some m |}
  | Resolved None =>
      Resolved {| data := Some (apply_order w (q_order q) (table_rows w c (q_table q)));
                  error := None |}
  end.

(** ** Component state *)

Record State := {
  activeView : View;
  videos : list VideoPost;
  loading : bool;
  settings : AppSettings;
  (** DashboardView *)
  editingFields : gmap string Edit.t;
  (** CreateVideoView *)
  activeTab : TabType;
  prompt : string;
  file : option File.t;
  filePreview : option string;
  productName : string;
  productDescription : string;
  aspectRatio : AspectRatio;
  imageUrl : string;
  productImageUrl : string;
  (** localStorage *)
  ls_appSettings : option AppSettings;
  ls_createAdFormData : option FormData
}.

(** *** Views declared inside the page component *)

(** [DashboardView], [CreateVideoView] and [SettingsView] are functions
    declared in the body of [Index] and rendered as elements.  Every render
    of [Index] declares them anew, so after each change of a cell of
    [Index] the view on screen is unmounted and mounted again: its cells
    start from their initial values and its mount effects run.  A setter of
    a view called later by a handler that was started before the re-mount
    addresses the unmounted view and shows nowhere. *)

(** The cells of CreateVideoView at their initial values. *)
Definition resetCreateView (s : State) : State :=
  {| activeView := activeView s; videos := videos s; loading := loading s;
     settings := settings s; editingFields := editingFields s;
     activeTab := reels; prompt := EmptyString; file := None;
     filePreview := None; productName := EmptyString;
     productDescription := EmptyString; aspectRatio := Portrait;
     imageUrl := imageUrl s; productImageUrl := productImageUrl s;
     ls_appSettings := ls_appSettings s;
     ls_createAdFormData := ls_createAdFormData s |}.

(** The setters called by the load effect of CreateVideoView; the preview
    is set only when the saved one is truthy. *)
Definition restoreDraft (d : FormData) (s : State) : State :=
  {| activeView := activeView s; videos := videos s; loading := loading s;
     settings := settings s; editingFields := editingFields s;
     activeTab := activeTab s;
     prompt := Js.or (fd_prompt d) EmptyString;
     file := file s;
     filePreview := if Js.truthy_opt (fd_filePreview d) then fd_filePreview d
                    else filePreview s;
     productName := Js.or (fd_productName d) EmptyString;
     productDescription := Js.or (fd_productDescription d) EmptyString;
     aspectRatio := fd_aspectRatio d;
     imageUrl := imageUrl s; productImageUrl := productImageUrl s;
     ls_appSettings := ls_appSettings s;
     ls_createAdFormData := ls_createAdFormData s |}.

(** The views after a render of [Index]: the edit buffer of DashboardView
    is empty again; the form of CreateVideoView is blank, on its first tab
    and without a [File], and then holds what its load effect reads from the
    stored draft.  The two URL inputs of the URL-only variant are members of
    the draft that variant stores, which holds their current value, so they
    come back as they were. *)
Definition remount (s : State) : State :=
  let d := ls_createAdFormData s in
  {| activeView := activeView s; videos := videos s; loading := loading s;
     settings := settings s; editingFields := ∅;
     activeTab := reels;
     prompt := match d with Some d => Js.or (fd_prompt d) EmptyString | None => EmptyString end;
     file := None;
     filePreview :=
       match d with
       | Some d => if Js.truthy_opt (fd_filePreview d) then fd_filePreview d else None
       | None => None
       end;
     productName :=
       match d with Some d => Js.or (fd_productName d) EmptyString | None => EmptyString end;
     productDescription :=
       match d with
       | Some d => Js.or (fd_productDescription d) EmptyString
       | None => EmptyString
       end;
     aspectRatio := match d with Some d => fd_aspectRatio d | None => Portrait end;
     imageUrl := imageUrl s; productImageUrl := productImageUrl s;
     ls_appSettings := ls_appSettings s;
     ls_createAdFormData := ls_createAdFormData s |}.

(** *** Cells of the page component *)

(** Each setter of [Index] is followed by a render of [Index]. *)
Definition setVideos (f : list VideoPost -> list VideoPost) (s : State) : State :=
  remount
    {| activeView := activeView s; videos := f (videos s); loading := loading s;
       settings := settings s; editingFields := editingFields s;
       activeTab := activeTab s; prompt := prompt s; file := file s;
       filePreview := filePreview s; productName := productName s;
       productDescription := productDescription s; aspectRatio := aspectRatio s;
       imageUrl := imageUrl s; productImageUrl := productImageUrl s;
       ls_appSettings := ls_appSettings s;
       ls_createAdFormData := ls_createAdFormData s |}.

Definition setLoading (b : bool) (s : State) : State :=
  remount
    {| activeView := activeView s; videos := videos s; loading := b;
       settings := settings s; editingFields := editingFields s;
       activeTab := activeTab s; prompt := prompt s; file := file s;
       filePreview := filePreview s; productName := productName s;
       productDescription := productDescription s; aspectRatio := aspectRatio s;
       imageUrl := imageUrl s; productImageUrl := productImageUrl s;
       ls_appSettings := ls_appSettings s;
       ls_createAdFormData := ls_createAdFormData s |}.

(** [setActiveView]. *)
Definition setActiveView (v : View) (s : State) : State :=
  remount
    {| activeView := v; videos := videos s; loading := loading s;
       settings := settings s; editingFields := editingFields s;
       activeTab := activeTab s; prompt := prompt s; file := file s;
       filePreview := filePreview s; productName := productName s;
       productDescription := productDescription s; aspectRatio := aspectRatio s;
       imageUrl := imageUrl s; productImageUrl := productImageUrl s;
       ls_appSettings := ls_appSettings s;
       ls_createAdFormData := ls_createAdFormData s |}.

(** *** Cells of DashboardView *)

Definition setEditingFields (f : gmap string Edit.t -> gmap string Edit.t) (s : State)
  : State :=
  {| activeView := activeView s; videos := videos s; loading := loading s;
     settings := settings s; editingFields := f (editingFields s);
     activeTab := activeTab s; prompt := prompt s; file := file s;
     filePreview := filePreview s; productName := productName s;
     productDescription := productDescription s; aspectRatio := aspectRatio s;
     imageUrl := imageUrl s; productImageUrl := productImageUrl s;
     ls_appSettings := ls_appSettings s;
     ls_createAdFormData := ls_createAdFormData s |}.

(** *** Cells of CreateVideoView *)

(** The "Clear form" block of [handleSubmit]: the setters called after a
    successful dispatch, and [localStorage.removeItem].  The setters belong
    to the view that started the submission; the [setLoading(false)] that
    follows renders [Index] again, and the form then on screen is a fresh
    one, mounted with no stored draft. *)
Definition clearForm (s : State) : State :=
  {| activeView := activeView s; videos := videos s; loading := loading s;
     settings := settings s; editingFields := editingFields s;
     activeTab := activeTab s; prompt := EmptyString; file := None;
     filePreview := None; productName := EmptyString;
     productDescription := EmptyString; aspectRatio := aspectRatio s;
     imageUrl := imageUrl s; productImageUrl := productImageUrl s;
     ls_appSettings := ls_appSettings s;
     ls_createAdFormData := None |}.

(** The same block in the URL-only variant, which also resets the two URL
    inputs. *)
Definition clearFormUrl (s : State) : State :=
  {| activeView := activeView s; videos := videos s; loading := loading s;
     settings := settings s; editingFields := editingFields s;
     activeTab := activeTab s; prompt := EmptyString; file := None;
     filePreview := None; productName := EmptyString;
     productDescription := EmptyString; aspectRatio := aspectRatio s;
     imageUrl := EmptyString; productImageUrl := EmptyString;
     ls_appSettings := ls_appSettings s;
     ls_createAdFormData := None |}.

(** ** Observable interactions *)

Inductive NotificationType := success | error_toast.

(** What the callback given to [setTimeout] in [handleSubmit] does. *)
Inductive TimerCallback := SwitchToDashboardAndFetch.

Inductive Event :=
| Toast (kind : NotificationType) (message : string)
| ConfirmDialog (message : string)
| DbSelect (c : SupabaseClient) (q : SelectQuery)
| DbUpdate (c : SupabaseClient) (table : string) (f : Field) (value : string) (eq_id : string)
| DbDelete (c : SupabaseClient) (table : string) (eq_id : string)
| DataUrlFetch (url : string)
| StorageUpload (c : SupabaseClient) (bucket path : string) (f : File.t)
| HttpPost (url : string) (body : Body)
| SetTimeout (ms : N) (cb : TimerCallback).

(** Requests that leave the browser. *)
Definition is_network_call (e : Event) : bool :=
  match e with
  | DbSelect _ _ | DbUpdate _ _ _ _ _ | DbDelete _ _ _
  | StorageUpload _ _ _ _ | HttpPost _ _ => true
  | Toast _ _ | ConfirmDialog _ | DataUrlFetch _ | SetTimeout _ _ => false
  end.

Definition is_error_toast (e : Event) : bool :=
  match e with
  | Toast error_toast _ => true
  | _ => false
  end.

Definition is_delete_call (e : Event) : bool :=
  match e with
  | DbDelete _ _ _ => true
  | _ => false
  end.

Definition is_webhook_post (e : Event) : bool :=
  match e with
  | HttpPost _ _ => true
  | _ => false
  end.

(** ** The action monad *)

(** How a block of statements ends: normally, or by a [throw] whose error
    carries [message]. *)
Inductive Completion (A : Type) :=
| Normal (a : A)
| Throw (message : string).
Arguments Normal {A} a.
Arguments Throw {A} message.

Definition Act (A : Type) : Type :=
  World -> State -> Completion A * State * list Event.

#[global] Instance Act_ret : MRet Act :=
  fun A a _ s => (Normal a, s, []).

#[global] Instance Act_bind : MBind Act :=
  fun A B k m w s =>
    match m w s with
    | (Normal a, s1, l1) =>
        match k a w s1 with
        | (r, s2, l2) => (r, s2, l1 ++ l2)
        end
    | (Throw msg, s1, l1) => (Throw msg, s1, l1)
    end.

Definition throw {A} (msg : string) : Act A := fun _ s => (Throw msg, s, []).

(** [try { body } catch (err) { handler(err.message) }]. *)
Definition try_catch {A} (body : Act A) (handler : string -> Act A) : Act A :=
  fun w s =>
    match body w s with
    | (Normal a, s1, l1) => (Normal a, s1, l1)
    | (Throw msg, s1, l1) =>
        match handler msg w s1 with
        | (r, s2, l2) => (r, s2, l1 ++ l2)
        end
    end.

(** [try { body } finally { fin }], for a [fin] that does not throw. *)
Definition try_finally {A} (body : Act A) (fin : Act unit) : Act A :=
  fun w s =>
    match body w s with
    | (r, s1, l1) =>
        match fin w s1 with
        | (_, s2, l2) => (r, s2, l1 ++ l2)
        end
    end.

Definition emit (e : Event) : Act unit := fun _ s => (Normal tt, s, [e]).
Definition get_state : Act State := fun _ s => (Normal s, s, []).
Definition modify (f : State -> State) : Act unit := fun _ s => (Normal tt, f s, []).
Definition ask {A} (f : World -> A) : Act A := fun w s => (Normal (f w), s, []).

(** A call that returns or throws at once. *)
Definition call {A} (f : World -> Completion A) : Act A := fun w s => (f w, s, []).

(** [await p]: a rejected promise throws at the [await]. *)
Definition await {A} (e : Event) (f : World -> Reply A) : Act A :=
  fun w s =>
    match f w with
    | Resolved a => (Normal a, s, [e])
    | Rejected m => (Throw m, s, [e])
    end.

(** [await p] for a promise made from a value already at hand. *)
Definition settle {A} (p : Reply A) : Act A :=
  fun _ s =>
    match p with
    | Resolved a => (Normal a, s, [])
    | Rejected m => (Throw m, s, [])
    end.

Definition final_state {A} (r : Completion A * State * list Event) : State := snd (fst r).
Definition log {A} (r : Completion A * State * list Event) : list Event := snd r.
Definition completion {A} (r : Completion A * State * list Event) : Completion A :=
  fst (fst r).

(** ** Handlers of the page component *)

(** [createClient(supabaseUrl, supabaseKey)]: the handle, or the error the
    library throws. *)
Definition createClient (w : World) (supabaseUrl supabaseKey : string)
  : Completion SupabaseClient :=
  match createClient_error w supabaseUrl supabaseKey with
  | Some m => Throw m
  | None => Normal {| client_url := supabaseUrl; client_key := supabaseKey |}
  end.

(** [getSupabase()]: null when the URL or the key is empty; otherwise what
    [createClient] returns, or its exception. *)
Definition getSupabase (w : World) (st : AppSettings) : Completion (option SupabaseClient) :=
  if negb (Js.truthy (supabaseUrl st)) || negb (Js.truthy (supabaseKey st)) then Normal None
  else
    match createClient w (supabaseUrl st) (supabaseKey st) with
    | Normal c => Normal (Some c)
    | Throw m => Throw m
    end.

Definition showNotification (kind : NotificationType) (message : string) : Act unit :=
  emit (Toast kind message).

(** [confirm(message)]. *)
Definition confirm (message : string) : Act bool :=
  emit (ConfirmDialog message);; ask (fun w => confirm_answer w message).

Definition order_by_id_desc : OrderClause := {| column := "id"; ascending := false |}.

Definition database_error_message (m table : string) : string :=
  "Database error: " +:+ m +:+ ". Check table name " +:+ Js.dquote +:+ table
    +:+ Js.dquote +:+ " and RLS policies.".

(** [fetchVideos]; [getSupabase()] is called before the [try], so an
    exception of [createClient] leaves the function: the promise it
    returned is rejected and nothing handles it. *)
Definition fetchVideos : Act unit :=
  s ← get_state;
  supabase ← call (fun w => getSupabase w (settings s));
  match supabase with
  | None => showNotification error_toast "Please configure settings first"
  | Some supabase =>
      modify (setLoading true);;
      try_finally
        (try_catch
           (let q := {| q_table := tableName (settings s);
                        q_order := Some order_by_id_desc |} in
            r ← await (DbSelect supabase q) (fun w => run_select w supabase q);
            match error r with
            | Some m => throw (database_error_message m (tableName (settings s)))
            | None =>
                modify (setVideos (fun _ => default [] (data r)));;
                match data r with
                | Some d =>
                    if (0 <? length d)%nat
                    then showNotification success
                           ("Loaded " +:+ pretty (length d) +:+ " video(s)")
                    else mret tt
                | None => mret tt
                end
            end)
           (fun msg => showNotification error_toast msg))
        (modify (setLoading false))
  end.

Definition handlePostToSocials (video : VideoPost) : Act unit :=
  s ← get_state;
  let webhookUrl := Js.or (n8nPostWebhook (settings s)) (n8nGenerateWebhook (settings s)) in
  if negb (Js.truthy webhookUrl)
  then showNotification error_toast "Please configure at least one n8n webhook in Settings"
  else
    try_catch
      (response ← await (HttpPost webhookUrl (VideoBody video))
                        (fun w => post_reply w webhookUrl (VideoBody video));
       if negb (ok response) then throw "Failed to post to socials"
       else showNotification success "Posted to social media successfully!")
      (fun msg => showNotification error_toast msg).

(** [prev.map(v => v.id === videoId ? { ...v, [field]: value } : v)]. *)
Definition patch_videos (videoId : string) (field : Field) (value : string)
  (prev : list VideoPost) : list VideoPost :=
  List.map (fun v => if String.eqb (id v) videoId then set_field field value v else v) prev.

Definition updateVideoField (videoId : string) (field : Field) (value : string)
  : Act unit :=
  s ← get_state;
  supabase ← call (fun w => getSupabase w (settings s));
  match supabase with
  | None => mret tt
  | Some supabase =>
      let table := tableName (settings s) in
      try_catch
        (r ← await (DbUpdate supabase table field value videoId)
                   (fun w => update_reply w supabase table field value videoId);
         match error r with
         | Some m => throw m
         | None =>
             modify (setVideos (patch_videos videoId field value));;
             showNotification success "Updated successfully"
         end)
        (fun msg => showNotification error_toast msg)
  end.

(** [prev.filter(v => v.id !== videoId)]. *)
Definition remove_video (videoId : string) (prev : list VideoPost) : list VideoPost :=
  List.filter (fun v => negb (String.eqb (id v) videoId)) prev.

Definition delete_prompt : string :=
  "Are you sure you want to delete this post? This action cannot be undone.".

Definition deleteVideo (videoId : string) : Act unit :=
  s ← get_state;
  supabase ← call (fun w => getSupabase w (settings s));
  match supabase with
  | None => showNotification error_toast "Supabase not configured"
  | Some supabase =>
      answer ← confirm delete_prompt;
      if negb answer then mret tt
      else
        let table := tableName (settings s) in
        modify (setLoading true);;
        try_finally
          (try_catch
             (r ← await (DbDelete supabase table videoId)
                        (fun w => delete_reply w supabase table videoId);
              match error r with
              | Some m => throw m
              | None =>
                  modify (setVideos (remove_video videoId));;
                  showNotification success "Post deleted successfully"
              end)
             (fun msg => showNotification error_toast msg))
          (modify (setLoading false))
  end.

(** *** DashboardView *)

Definition handleFieldChange (videoId : string) (field : Field) (value : string)
  : Act unit :=
  modify (setEditingFields (fun prev =>
    <[videoId := Edit.set field value (default Edit.empty (prev !! videoId))]> prev)).

(** [editingFields[videoId]?.[field]]. *)
Definition edited_value (e : gmap string Edit.t) (videoId : string) (field : Field)
  : option string :=
  match e !! videoId with
  | Some b => Edit.get field b
  | None => None
  end.

(** [videos.find(v => v.id === videoId)]. *)
Definition find_video (videoId : string) (vs : list VideoPost) : option VideoPost :=
  List.find (fun v => String.eqb (id v) videoId) vs.

(** [handleFieldBlur]; the promise of [updateVideoField] is not awaited, the
    completion recorded here is the one of that promise. *)
Definition handleFieldBlur (videoId : string) (field : Field) : Act unit :=
  s ← get_state;
  let editedValue := edited_value (editingFields s) videoId field in
  let currentVideo := find_video videoId (videos s) in
  match editedValue, currentVideo with
  | Some e, Some cur =>
      if negb (String.eqb e (get_field field cur))
      then updateVideoField videoId field e
      else mret tt
  | _, _ => mret tt
  end.

(** *** CreateVideoView *)

Definition bucket_missing_message : string :=
  "Storage bucket " +:+ Js.dquote +:+ "ad-files" +:+ Js.dquote
    +:+ " not found. Please run the SQL in supabase-storage-setup.sql file in your Supabase SQL Editor.".

(** [`ads/${activeTab}_${timestamp}.${fileExt}`]. *)
Definition file_path (tab : TabType) (timestamp : N) (f : File.t) : string :=
  let fileExt := Js.split_pop "." (File.name f) in
  let fileName := tab_name tab +:+ "_" +:+ pretty timestamp +:+ "." +:+ fileExt in
  "ads/" +:+ fileName.

(** The body of the inner [try] of [handleSubmit]: pick or rebuild the file,
    upload it, and resolve its public URL. *)
Definition upload_to_storage (supabase : SupabaseClient) (s : State) : Act (option string) :=
  fileToUpload ←
    match file s with
    | Some f => mret f
    | None =>
        match filePreview s with
        | Some p =>
            if Js.truthy p
            then
              blob_type ← await (DataUrlFetch p) (fun w => dataurl_reply w p);
              mret {| File.name := "uploaded-file"; File.type := blob_type |}
            else throw "No file available"
        | None => throw "No file available"
        end
    end;
  timestamp ← ask now;
  let filePath := file_path (activeTab s) timestamp fileToUpload in
  r ← await (StorageUpload supabase "ad-files" filePath fileToUpload)
            (fun w => upload_reply w supabase "ad-files" filePath fileToUpload);
  match error r with
  | Some m =>
      (if Js.includes "Bucket not found" m
       then showNotification error_toast bucket_missing_message
       else mret tt);;
      mret None
  | None =>
      url ← ask (fun w => publicUrl w supabase "ad-files" filePath);
      mret (Some url)
  end.

(** [file || filePreview]. *)
Definition upload_wanted (s : State) : bool :=
  (match file s with Some _ => true | None => false end) || Js.truthy_opt (filePreview s).

(** The value of [fileUrl] when the payload is built.  [getSupabase()] is
    called outside the inner [try]: an exception of [createClient] is not
    caught here. *)
Definition resolve_file_url (s : State) : Act (option string) :=
  if upload_wanted s
  then
    supabase ← call (fun w => getSupabase w (settings s));
    match supabase with
    | None => mret None
    | Some supabase => try_catch (upload_to_storage supabase s) (fun _ => mret None)
    end
  else mret None.

Definition build_payload (s : State) (fileUrl : option string) (iso : string) : Payload.t :=
  {| Payload.type := tab_name (activeTab s);
     Payload.post_title :=
       match activeTab s with
       | reels => "Update Product Image"
       | _ => Js.or (productName s) "Ad Campaign"
       end;
     Payload.caption := prompt s;
     Payload.prompt_text := prompt s;
     Payload.product_name := Js.or_null (productName s);
     Payload.product_description := Js.or_null (productDescription s);
     Payload.aspect_ratio := ratio_name (aspectRatio s);
     Payload.file_url := fileUrl;
     Payload.file_base64 :=
       if negb (Js.truthy_opt fileUrl) && Js.truthy_opt (filePreview s)
       then filePreview s else None;
     Payload.file_name :=
       Js.or (match file s with Some f => File.name f | None => EmptyString end)
             "uploaded-file";
     Payload.file_type :=
       Js.or (match file s with Some f => File.type f | None => EmptyString end)
             (match filePreview s with
              | Some p =>
                  if Js.startsWith "data:image" p then "image/jpeg"
                  else "application/octet-stream"
              | None => "application/octet-stream"
              end);
     Payload.timestamp := iso;
     Payload.source := "adgen_studio" |}.

Definition webhook_failed_message (r : HttpResponse) : string :=
  "Webhook failed (" +:+ pretty (status r) +:+ "): " +:+ text r.

Definition submitted_message : string :=
  "Video request submitted! Check dashboard in a few moments.".

(** [fetch(webhookUrl, { method: 'POST', ... })] and the checks on its
    response, shared by both variants of [handleSubmit]. *)
Definition dispatch (webhookUrl : string) (body : Body) : Act unit :=
  response ← await (HttpPost webhookUrl body) (fun w => post_reply w webhookUrl body);
  if negb (ok response) then throw (webhook_failed_message response)
  else settle (json response).

(** [handleSubmit] of [src/pages/Index.tsx] (upload variant). *)
Definition handleSubmit : Act unit :=
  s ← get_state;
  let webhookUrl := Js.or (n8nGenerateWebhook (settings s)) (n8nPostWebhook (settings s)) in
  if negb (Js.truthy webhookUrl)
  then showNotification error_toast "Please configure at least one n8n webhook in Settings!"
  else
    modify (setLoading true);;
    try_finally
      (try_catch
         (fileUrl ← resolve_file_url s;
          iso ← ask now_iso;
          dispatch webhookUrl (AdBody (build_payload s fileUrl iso));;
          showNotification success submitted_message;;
          modify clearForm;;
          emit (SetTimeout 2000 SwitchToDashboardAndFetch))
         (fun msg => showNotification error_toast ("Error: " +:+ msg)))
      (modify (setLoading false)).

Definition build_url_payload (s : State) : UrlPayload.t :=
  match activeTab s with
  | reels =>
      {| UrlPayload.type := tab_name (activeTab s);
         UrlPayload.prompt := prompt s;
         UrlPayload.aspect_ratio := ratio_name (aspectRatio s);
         UrlPayload.image_url := Some (Js.trim (imageUrl s));
         UrlPayload.product_name := None;
         UrlPayload.product_description := None;
         UrlPayload.product_image_url := None |}
  | _ =>
      {| UrlPayload.type := tab_name (activeTab s);
         UrlPayload.prompt := prompt s;
         UrlPayload.aspect_ratio := ratio_name (aspectRatio s);
         UrlPayload.image_url := None;
         UrlPayload.product_name := Some (productName s);
         UrlPayload.product_description := Some (productDescription s);
         UrlPayload.product_image_url := Js.or_null (Js.trim (productImageUrl s)) |}
  end.

(** [handleSubmit] of the URL-only variant of the page. *)
Definition handleSubmitUrl : Act unit :=
  s ← get_state;
  let webhookUrl := Js.or (n8nGenerateWebhook (settings s)) (n8nPostWebhook (settings s)) in
  if negb (Js.truthy webhookUrl)
  then showNotification error_toast "Please configure at least one n8n webhook in Settings!"
  else if (match activeTab s with reels => true | _ => false end)
          && negb (Js.truthy (Js.trim (imageUrl s)))
  then showNotification error_toast "Please enter an image URL!"
  else
    modify (setLoading true);;
    try_finally
      (try_catch
         (dispatch webhookUrl (UrlAdBody (build_url_payload s));;
          showNotification success submitted_message;;
          modify clearFormUrl)
         (fun msg => showNotification error_toast ("Error: " +:+ msg)))
      (modify (setLoading false)).

(** *** SettingsView *)

Definition setSettings (st : AppSettings) (s : State) : State :=
  remount
    {| activeView := activeView s; videos := videos s; loading := loading s;
       settings := st; editingFields := editingFields s;
       activeTab := activeTab s; prompt := prompt s; file := file s;
       filePreview := filePreview s; productName := productName s;
       productDescription := productDescription s; aspectRatio := aspectRatio s;
       imageUrl := imageUrl s; productImageUrl := productImageUrl s;
       ls_appSettings := Some st;
       ls_createAdFormData := ls_createAdFormData s |}.

(** [handleSave]: [setSettings(tempSettings)] and the write to
    [localStorage], done by one state update here. *)
Definition handleSave (tempSettings : AppSettings) : Act unit :=
  modify (setSettings tempSettings);;
  showNotification success "Settings saved successfully!".

(** Run a handler. *)
Definition run {A} (m : Act A) (w : World) (s : State) : Completion A * State * list Event :=
  m w s.

(** Calls of one kind in a log. *)
Definition count (p : Event -> bool) (l : list Event) : nat := length (List.filter p l).

(** The endpoint selection policy as the specification words it: the
    preferred endpoint when it is set, else the other one, else none.  An
    endpoint is unset when it is the empty string. *)
Definition select_endpoint (preferred fallback : string) : option string :=
  if decide (preferred = EmptyString)
  then (if decide (fallback = EmptyString) then None else Some fallback)
  else Some preferred.

Definition webhook_posts (l : list Event) : list Event := List.filter is_webhook_post l.
Definition network_calls (l : list Event) : list Event := List.filter is_network_call l.

(** ** Vocabulary of the properties *)

(** How a dispatch ends, read off the reply of the webhook. *)
Definition dispatch_completion (w : World) (url : string) (body : Body) : Completion unit :=
  match post_reply w url body with
  | Rejected m => Throw m
  | Resolved response =>
      if ok response
      then match json response with
           | Resolved _ => Normal tt
           | Rejected m => Throw m
           end
      else Throw (webhook_failed_message response)
  end.

(** What the upload step may leave in the log. *)
Definition is_storage_event (e : Event) : bool :=
  match e with
  | StorageUpload _ _ _ _ | DataUrlFetch _ => true
  | Toast error_toast m => String.eqb m bucket_missing_message
  | _ => false
  end.

(** The message of the error a backend call ends with, if it fails: the
    promise is rejected, or the response holds an error. *)
Definition failure_message (r : Reply (Response unit)) : option string :=
  match r with
  | Rejected m => Some m
  | Resolved r => error r
  end.

Definition reply_failed (r : Reply (Response unit)) : bool :=
  match failure_message r with Some _ => true | None => false end.

(** The storage step of a submission fails: the saved preview cannot be
    read back, or the upload is refused or rejected. *)
Definition storage_step_fails (w : World) (s : State) (c : SupabaseClient) : bool :=
  let upload f :=
    reply_failed (upload_reply w c "ad-files" (file_path (activeTab s) (now w) f) f) in
  match file s with
  | Some f => upload f
  | None =>
      match filePreview s with
      | Some p =>
          Js.truthy p &&
          match dataurl_reply w p with
          | Rejected _ => true
          | Resolved t => upload {| File.name := "uploaded-file"; File.type := t |}
          end
      | None => false
      end
  end.

(** The submission cannot make its storage client: there is a file or a
    preview to upload and [createClient] throws; the message of the error. *)
Definition client_failure (w : World) (s : State) : option string :=
  if upload_wanted s
  then match getSupabase w (settings s) with
       | Throw m => Some m
       | Normal _ => None
       end
  else None.

(** The validation of the URL-only variant: the image tab needs a URL. *)
Definition image_url_missing (s : State) : bool :=
  match activeTab s with
  | reels => negb (Js.truthy (Js.trim (imageUrl s)))
  | _ => false
  end.

(** An error message carries the status and the body of a response. *)
Definition carries_status_and_body (response : HttpResponse) (message : string) : Prop :=
  occurs_in (pretty (status response)) message /\ occurs_in (text response) message.

(** The order of the [id] column is a total order. *)
Record id_order (w : World) : Prop := {
  id_leb_total : forall a b, id_leb w a b = true \/ id_leb w b a = true;
  id_leb_trans : forall a b c,
    id_leb w a b = true -> id_leb w b c = true -> id_leb w a c = true;
  id_leb_antisym : forall a b, id_leb w a b = true -> id_leb w b a = true -> a = b
}.

(** [a] is strictly greater than [b] in the order of the [id] column. *)
Definition id_gt (w : World) (a b : string) : Prop := id_leb w a b = false.

(** Every row has a strictly greater identifier than all rows after it. *)
Definition strictly_descending (w : World) (l : list VideoPost) : Prop :=
  StronglySorted (fun a b => id_gt w (id a) (id b)) l.


(** ** Sample data *)

Module Sample.

Definition post (i t c : string) : VideoPost :=
  {| id := i; video_url := None; post_title := t; caption := c; hashtag := None;
     youtube_post_status := "pending"; instagram_post_status := "pending";
     facebook_post_status := "pending" |}.

Definition first : VideoPost := post "1" "First" "a".

Definition rows : list VideoPost :=
  [post "2" "Second" "b"; post "3" "Third" "c"; post "1" "First" "a"].

Definition feed : list VideoPost :=
  [post "3" "Third" "c"; post "2" "Second" "b"; post "1" "First" "a"].

Definition configured : AppSettings :=
  {| supabaseUrl := "https://demo.supabase.co"; supabaseKey := "anon";
     n8nGenerateWebhook := "https://n8n.example/generate";
     n8nPostWebhook := "https://n8n.example/post";
     tableName := "social_media_videos" |}.

(** The settings of the specification's example, [{endpoint: '', key: 'x'}]. *)
Definition unconfigured : AppSettings :=
  {| supabaseUrl := EmptyString; supabaseKey := "x";
     n8nGenerateWebhook := "https://n8n.example/generate";
     n8nPostWebhook := "https://n8n.example/post";
     tableName := "social_media_videos" |}.

(** Settings whose backend URL was typed without its scheme. *)
Definition malformed : AppSettings :=
  {| supabaseUrl := "demo.supabase.co"; supabaseKey := "anon";
     n8nGenerateWebhook := "https://n8n.example/generate";
     n8nPostWebhook := "https://n8n.example/post";
     tableName := "social_media_videos" |}.

Definition client : SupabaseClient :=
  {| client_url := "https://demo.supabase.co"; client_key := "anon" |}.

Definition invalid_url_message : string :=
  "Invalid supabaseUrl: Must be a valid HTTP or HTTPS URL.".

(** A client library that refuses a URL without an HTTP or HTTPS scheme. *)
Definition http_only (supabaseUrl supabaseKey : string) : option string :=
  if Js.startsWith "http://" supabaseUrl || Js.startsWith "https://" supabaseUrl
  then None
  else Some invalid_url_message.

Definition state (st : AppSettings) : State :=
  {| activeView := dashboard; videos := feed; loading := false; settings := st;
     editingFields := ∅; activeTab := product; prompt := "A summer sale clip";
     file := Some {| File.name := "shoe.png"; File.type := "image/png" |};
     filePreview := Some "data:image/png;base64,AAAA";
     productName := "Shoe"; productDescription := EmptyString;
     aspectRatio := Portrait; imageUrl := EmptyString; productImageUrl := EmptyString;
     ls_appSettings := Some st; ls_createAdFormData := None |}.

Definition ok_response : HttpResponse :=
  {| status := 200; text := "{}"; json := Resolved tt |}.

Definition failed_response : HttpResponse :=
  {| status := 500; text := "boom"; json := Resolved tt |}.

(** A backend where everything succeeds. *)
Definition world : World :=
  {| createClient_error := http_only;
     table_rows := fun _ _ => rows;
     id_leb := String.leb;
     select_fault := fun _ _ => Resolved None;
     update_reply := fun _ _ _ _ _ => Resolved {| data := None; error := None |};
     delete_reply := fun _ _ _ => Resolved {| data := None; error := None |};
     upload_reply := fun _ _ _ _ => Resolved {| data := None; error := None |};
     publicUrl := fun c b p =>
       client_url c +:+ "/storage/v1/object/public/" +:+ b +:+ "/" +:+ p;
     dataurl_reply := fun _ => Resolved "image/png";
     post_reply := fun _ _ => Resolved ok_response;
     confirm_answer := fun _ => true;
     now := 1700000000000;
     now_iso := "2023-11-14T22:13:20.000Z" |}.

(** A backend whose data API, storage and webhooks all refuse. *)
Definition failing_world : World :=
  {| createClient_error := http_only;
     table_rows := fun _ _ => rows;
     id_leb := String.leb;
     select_fault := fun _ _ => Resolved (Some "permission denied");
     update_reply := fun _ _ _ _ _ =>
       Resolved {| data := None; error := Some "permission denied" |};
     delete_reply := fun _ _ _ =>
       Resolved {| data := None; error := Some "permission denied" |};
     upload_reply := fun _ _ _ _ =>
       Resolved {| data := None; error := Some "Bucket not found" |};
     publicUrl := fun c b p =>
       client_url c +:+ "/storage/v1/object/public/" +:+ b +:+ "/" +:+ p;
     dataurl_reply := fun _ => Resolved "image/png";
     post_reply := fun _ _ => Resolved failed_response;
     confirm_answer := fun _ => true;
     now := 1700000000000;
     now_iso := "2023-11-14T22:13:20.000Z" |}.

(** The storage refuses, everything else succeeds. *)
Definition storage_down_world : World :=
  {| createClient_error := http_only;
     table_rows := fun _ _ => rows;
     id_leb := String.leb;
     select_fault := fun _ _ => Resolved None;
     update_reply := fun _ _ _ _ _ => Resolved {| data := None; error := None |};
     delete_reply := fun _ _ _ => Resolved {| data := None; error := None |};
     upload_reply := fun _ _ _ _ =>
       Resolved {| data := None; error := Some "Bucket not found" |};
     publicUrl := fun c b p =>
       client_url c +:+ "/storage/v1/object/public/" +:+ b +:+ "/" +:+ p;
     dataurl_reply := fun _ => Resolved "image/png";
     post_reply := fun _ _ => Resolved ok_response;
     confirm_answer := fun _ => true;
     now := 1700000000000;
     now_iso := "2023-11-14T22:13:20.000Z" |}.

(** Everything succeeds, but the user declines every dialog. *)
Definition declining_world : World :=
  {| createClient_error := http_only;
     table_rows := fun _ _ => rows;
     id_leb := String.leb;
     select_fault := fun _ _ => Resolved None;
     update_reply := fun _ _ _ _ _ => Resolved {| data := None; error := None |};
     delete_reply := fun _ _ _ => Resolved {| data := None; error := None |};
     upload_reply := fun _ _ _ _ => Resolved {| data := None; error := None |};
     publicUrl := fun c b p =>
       client_url c +:+ "/storage/v1/object/public/" +:+ b +:+ "/" +:+ p;
     dataurl_reply := fun _ => Resolved "image/png";
     post_reply := fun _ _ => Resolved ok_response;
     confirm_answer := fun _ => false;
     now := 1700000000000;
     now_iso := "2023-11-14T22:13:20.000Z" |}.

(** The payload posted from [state configured] once the upload worked. *)
Definition uploaded_payload : Payload.t :=
  build_payload (state configured)
    (Some "https://demo.supabase.co/storage/v1/object/public/ad-files/ads/product_1700000000000.png")
    "2023-11-14T22:13:20.000Z".

(** The payload posted from [state configured] when the storage refused. *)
Definition fallback_payload : Payload.t :=
  build_payload (state configured) None "2023-11-14T22:13:20.000Z".

End Sample.

(** ** Effects, callbacks and rendering *)

(** *** Effects and callbacks of the page component *)

(** [setSettings(JSON.parse(savedSettings))]: the state cell alone. *)
Definition restoreSettings (st : AppSettings) (s : State) : State :=
  remount
    {| activeView := activeView s; videos := videos s; loading := loading s;
       settings := st; editingFields := editingFields s;
       activeTab := activeTab s; prompt := prompt s; file := file s;
       filePreview := filePreview s; productName := productName s;
       productDescription := productDescription s; aspectRatio := aspectRatio s;
       imageUrl := imageUrl s; productImageUrl := productImageUrl s;
       ls_appSettings := ls_appSettings s;
       ls_createAdFormData := ls_createAdFormData s |}.

(** The initial value of the [settings] cell. *)
Definition default_settings : AppSettings :=
  {| supabaseUrl := EmptyString; supabaseKey := EmptyString;
     n8nGenerateWebhook := EmptyString; n8nPostWebhook := EmptyString;
     tableName := "social_media_videos" |}.

(** The page right after it is loaded: every [useState] cell holds its
    initial value, localStorage holds what earlier visits left. *)
Definition page_load (saved : option AppSettings) (draft : option FormData) : State :=
  {| activeView := dashboard; videos := []; loading := false;
     settings := default_settings; editingFields := ∅;
     activeTab := reels; prompt := EmptyString; file := None;
     filePreview := None; productName := EmptyString;
     productDescription := EmptyString; aspectRatio := Portrait;
     imageUrl := EmptyString; productImageUrl := EmptyString;
     ls_appSettings := saved;
     ls_createAdFormData := draft |}.

(** The first effect of the page: load the saved settings, if any. *)
Definition loadSettingsEffect : Act unit :=
  s ← get_state;
  match ls_appSettings s with
  | Some st => modify (restoreSettings st)
  | None => mret tt
  end.

(** The second effect of the page: fetch the feed when the dashboard is
    shown and both the URL and the key are set.  The promise of
    [fetchVideos] is not awaited, the completion recorded here is the one
    of that promise. *)
Definition dashboardEffect : Act unit :=
  s ← get_state;
  if Js.truthy (supabaseUrl (settings s)) && Js.truthy (supabaseKey (settings s))
     && (match activeView s with dashboard => true | _ => false end)
  then fetchVideos
  else mret tt.

(** The callback that [handleSubmit] hands to [setTimeout]. *)
Definition timerCallback (cb : TimerCallback) : Act unit :=
  match cb with
  | SwitchToDashboardAndFetch => modify (setActiveView dashboard);; fetchVideos
  end.

(** *** The draft of CreateVideoView *)

Definition setFile (f : option File.t) (s : State) : State :=
  {| activeView := activeView s; videos := videos s; loading := loading s;
     settings := settings s; editingFields := editingFields s;
     activeTab := activeTab s; prompt := prompt s; file := f;
     filePreview := filePreview s; productName := productName s;
     productDescription := productDescription s; aspectRatio := aspectRatio s;
     imageUrl := imageUrl s; productImageUrl := productImageUrl s;
     ls_appSettings := ls_appSettings s;
     ls_createAdFormData := ls_createAdFormData s |}.

Definition setFilePreview (p : option string) (s : State) : State :=
  {| activeView := activeView s; videos := videos s; loading := loading s;
     settings := settings s; editingFields := editingFields s;
     activeTab := activeTab s; prompt := prompt s; file := file s;
     filePreview := p; productName := productName s;
     productDescription := productDescription s; aspectRatio := aspectRatio s;
     imageUrl := imageUrl s; productImageUrl := productImageUrl s;
     ls_appSettings := ls_appSettings s;
     ls_createAdFormData := ls_createAdFormData s |}.

(** [handleFileChange]: with a file, the preview arrives later through
    [reader.onloadend]; without one, the preview is cleared at once. *)
Definition handleFileChange (selectedFile : option File.t) : Act unit :=
  modify (setFile selectedFile);;
  match selectedFile with
  | Some _ => mret tt
  | None => modify (setFilePreview None)
  end.

(** [reader.onloadend], given [reader.result]. *)
Definition reader_onloadend (result : option string) : Act unit :=
  modify (setFilePreview result).

(** The object that the persist effect writes under ['createAdFormData']. *)
Definition draft_of (s : State) : FormData :=
  {| fd_prompt := prompt s; fd_productName := productName s;
     fd_productDescription := productDescription s;
     fd_aspectRatio := aspectRatio s; fd_filePreview := filePreview s |}.

Definition storeDraft (d : option FormData) (s : State) : State :=
  {| activeView := activeView s; videos := videos s; loading := loading s;
     settings := settings s; editingFields := editingFields s;
     activeTab := activeTab s; prompt := prompt s; file := file s;
     filePreview := filePreview s; productName := productName s;
     productDescription := productDescription s; aspectRatio := aspectRatio s;
     imageUrl := imageUrl s; productImageUrl := productImageUrl s;
     ls_appSettings := ls_appSettings s;
     ls_createAdFormData := d |}.

(** The persist effect of CreateVideoView. *)
Definition persistDraftEffect : Act unit :=
  s ← get_state; modify (storeDraft (Some (draft_of s))).

(** The load effect of CreateVideoView. *)
Definition loadDraftEffect : Act unit :=
  s ← get_state;
  match ls_createAdFormData s with
  | Some d => modify (restoreDraft d)
  | None => mret tt
  end.

(** Mounting CreateVideoView: fresh cells, then the load effect. *)
Definition mountCreateVideoView : Act unit :=
  modify resetCreateView;; loadDraftEffect.

(** *** What a row of the dashboard shows *)

(** [editingFields[video.id]?.[field] ?? video[field] ?? ''], the value of
    the title input and of the description box. *)
Definition display_value (e : gmap string Edit.t) (field : Field) (v : VideoPost) : string :=
  match edited_value e (id v) field with
  | Some edited => edited
  | None => get_field field v
  end.








(** *** More vocabulary *)

Definition is_storage_upload (e : Event) : bool :=
  match e with
  | StorageUpload _ _ _ _ => true
  | _ => false
  end.


Definition is_toast (e : Event) : bool :=
  match e with
  | Toast _ _ => true
  | _ => false
  end.

Definition is_success_toast (e : Event) : bool :=
  match e with
  | Toast success _ => true
  | _ => false
  end.

(** A call goes where the settings say: the data API and the storage
    through the client made from the URL and the key, to the configured
    table or to the bucket of the page; a webhook request to one of the two
    configured endpoints. *)
Definition targets_settings (w : World) (st : AppSettings) (e : Event) : Prop :=
  match e with
  | DbSelect c q => getSupabase w st = Normal (Some c) /\ q_table q = tableName st
  | DbUpdate c t _ _ _ => getSupabase w st = Normal (Some c) /\ t = tableName st
  | DbDelete c t _ => getSupabase w st = Normal (Some c) /\ t = tableName st
  | StorageUpload c b _ _ => getSupabase w st = Normal (Some c) /\ b = "ad-files"
  | HttpPost url _ =>
      url <> EmptyString /\ (url = n8nGenerateWebhook st \/ url = n8nPostWebhook st)
  | _ => True
  end.

(** The identifiers of the feed a run ends with, in order. *)
Definition feed_ids (r : Completion unit * State * list Event) : list string :=
  List.map id (videos (final_state r)).

Definition field_eqb (f g : Field) : bool :=
  match f, g with
  | f_post_title, f_post_title | f_caption, f_caption => true
  | _, _ => false
  end.

(** Every call in [l] goes where the settings say, and there are at most
    [bound] network calls. *)
Definition calls_within (w : World) (st : AppSettings) (bound : nat) (l : list Event)
  : Prop :=
  Forall (targets_settings w st) l /\ (length (network_calls l) <= bound)%nat.

(** What the upload step of [handleSubmit] may log, and the URL it may
    yield: at most one upload, of the chosen file (or of the file rebuilt
    from the preview) under the key made from the tab, the clock and the
    file name, through the configured client; a URL only after an upload,
    and then the public URL of that very key. *)
Definition storage_step_spec (w : World) (s : State) (fileUrl : option string)
  (l : list Event) : Prop :=
  (forall c b path f, In (StorageUpload c b path f) l ->
     getSupabase w (settings s) = Normal (Some c) /\ b = "ad-files"
     /\ path = file_path (activeTab s) (now w) f
     /\ match file s with
        | Some f0 => f = f0
        | None => File.name f = "uploaded-file"
        end
     /\ (forall u, fileUrl = Some u -> u = publicUrl w c b path))
  /\ (count is_storage_upload l <= 1)%nat
  /\ (forall u, fileUrl = Some u -> count is_storage_upload l = 1%nat)
  /\ ((file s = None /\ Js.truthy_opt (filePreview s) = false)
      \/ getSupabase w (settings s) = Normal None -> l = [] /\ fileUrl = None)
  /\ network_calls l = List.filter is_storage_upload l
  /\ forallb is_storage_event l = true.

(** No character of [s] is a dot. *)
Definition dot_free (s : string) : bool := negb (Js.includes "." s).

(** ** More sample data *)

Module Sample2.

(** A backend with an empty table. *)
Definition empty_world : World :=
  {| createClient_error := Sample.http_only;
     table_rows := fun _ _ => [];
     id_leb := String.leb;
     select_fault := fun _ _ => Resolved None;
     update_reply := fun _ _ _ _ _ => Resolved {| data := None; error := None |};
     delete_reply := fun _ _ _ => Resolved {| data := None; error := None |};
     upload_reply := fun _ _ _ _ => Resolved {| data := None; error := None |};
     publicUrl := fun c b p =>
       client_url c +:+ "/storage/v1/object/public/" +:+ b +:+ "/" +:+ p;
     dataurl_reply := fun _ => Resolved "image/png";
     post_reply := fun _ _ => Resolved Sample.ok_response;
     confirm_answer := fun _ => true;
     now := 1700000000000;
     now_iso := "2023-11-14T22:13:20.000Z" |}.

(** The state of [Sample.state] after the page was left and CreateVideoView
    mounted again: the file is gone, the preview is back. *)
Definition preview_only : State :=
  setFile None (Sample.state Sample.configured).

(** The URL-only form on its image tab, with only blanks typed as URL. *)
Definition blank_reels : State :=
  {| activeView := create; videos := []; loading := false;
     settings := Sample.configured; editingFields := ∅;
     activeTab := reels; prompt := "Brighten the picture";
     file := None; filePreview := None;
     productName := EmptyString; productDescription := EmptyString;
     aspectRatio := Landscape; imageUrl := "   "; productImageUrl := EmptyString;
     ls_appSettings := Some Sample.configured; ls_createAdFormData := None |}.

(** The same form with a URL typed between blanks. *)
Definition padded_reels : State :=
  {| activeView := create; videos := []; loading := false;
     settings := Sample.configured; editingFields := ∅;
     activeTab := reels; prompt := "Brighten the picture";
     file := None; filePreview := None;
     productName := EmptyString; productDescription := EmptyString;
     aspectRatio := Landscape; imageUrl := " https://cdn.example/a.jpg ";
     productImageUrl := EmptyString;
     ls_appSettings := Some Sample.configured; ls_createAdFormData := None |}.

(** U+00A0, U+2028, U+3000 and U+FEFF in UTF-8. *)
Definition nbsp : string :=
  String (ascii_of_nat 194) (String (ascii_of_nat 160) EmptyString).
Definition line_separator : string :=
  String (ascii_of_nat 226) (String (ascii_of_nat 128) (String (ascii_of_nat 168) EmptyString)).
Definition ideographic_space : string :=
  String (ascii_of_nat 227) (String (ascii_of_nat 128) (String (ascii_of_nat 128) EmptyString)).
Definition byte_order_mark : string :=
  String (ascii_of_nat 239) (String (ascii_of_nat 187) (String (ascii_of_nat 191) EmptyString)).

(** The image tab with a no-break space as URL. *)
Definition nbsp_reels : State :=
  {| activeView := create; videos := []; loading := false;
     settings := Sample.configured; editingFields := ∅;
     activeTab := reels; prompt := "Brighten the picture";
     file := None; filePreview := None;
     productName := EmptyString; productDescription := EmptyString;
     aspectRatio := Landscape; imageUrl := nbsp; productImageUrl := EmptyString;
     ls_appSettings := Some Sample.configured; ls_createAdFormData := None |}.

(** The image tab with a URL pasted between no-break spaces. *)
Definition nbsp_padded_reels : State :=
  {| activeView := create; videos := []; loading := false;
     settings := Sample.configured; editingFields := ∅;
     activeTab := reels; prompt := "Brighten the picture";
     file := None; filePreview := None;
     productName := EmptyString; productDescription := EmptyString;
     aspectRatio := Landscape;
     imageUrl := nbsp +:+ "https://cdn.example/a.jpg" +:+ nbsp +:+ line_separator;
     productImageUrl := EmptyString;
     ls_appSettings := Some Sample.configured; ls_createAdFormData := None |}.

Definition shoe : File.t := {| File.name := "shoe.png"; File.type := "image/png" |}.

Definition shoe_path : string := "ads/product_1700000000000.png".

End Sample2.

(** * Properties *)

(** ** Strings *)

Lemma truthy_false_iff (s : string) : Js.truthy s = false <-> s = EmptyString.
Proof. destruct s; simpl; split; congruence. Qed.

Lemma truthy_true_iff (s : string) : Js.truthy s = true <-> s <> EmptyString.
Proof. destruct s; simpl; split; congruence. Qed.

Lemma startsWith_spec (p s : string) :
  Js.startsWith p s = true <-> exists post, s = p +:+ post.
Proof.
  revert s. induction p as [|a p IH]; intros s; simpl.
  - split; [intros _; exists s; reflexivity | reflexivity].
  - destruct s as [|b s].
    + split; [discriminate | intros [post H]; discriminate].
    + destruct (Ascii.eqb a b) eqn:E.
      * apply Ascii.eqb_eq in E. subst b. rewrite IH. split.
        -- intros [post ->]. exists post. reflexivity.
        -- intros [post H]. injection H as ->. exists post. reflexivity.
      * apply Ascii.eqb_neq in E. split; [discriminate|].
        intros [post H]. injection H as -> _. congruence.
Qed.

Lemma includes_spec (p s : string) : Js.includes p s = true <-> occurs_in p s.
Proof.
  unfold occurs_in. induction s as [|c s IH].
  - simpl. rewrite orb_false_r, startsWith_spec. split.
    + intros [post H]. exists EmptyString, post. exact H.
    + intros [[|a pre] [post H]]; [exists post; exact H | discriminate].
  - change (Js.includes p (String c s))
      with (Js.startsWith p (String c s) || Js.includes p s).
    rewrite orb_true_iff, startsWith_spec, IH. split.
    + intros [[post H] | [pre [post H]]].
      * exists EmptyString, post. exact H.
      * exists (String c pre), post. simpl. rewrite H. reflexivity.
    + intros [[|a pre] [post H]].
      * left. exists post. exact H.
      * right. simpl in H. injection H as -> ->. exists pre, post. reflexivity.
Qed.

Lemma append_empty_r (a : string) : a +:+ EmptyString = a.
Proof.
  induction a as [|x a IH]; [reflexivity|].
  change (String x (a +:+ EmptyString) = String x a). rewrite IH. reflexivity.
Qed.

Lemma append_assoc (a b c : string) : (a +:+ b) +:+ c = a +:+ (b +:+ c).
Proof.
  induction a as [|x a IH]; [reflexivity|].
  change (String x ((a +:+ b) +:+ c) = String x (a +:+ (b +:+ c))).
  rewrite IH. reflexivity.
Qed.

Example split_pop_examples :
  Js.split_pop "." "shoe.final.png" = "png"
  /\ Js.split_pop "." "uploaded-file" = "uploaded-file"
  /\ Js.split_pop "." "archive." = EmptyString.
Proof. repeat split. Qed.

Example trim_examples :
  Js.trim "  https://cdn.example/a.jpg " = "https://cdn.example/a.jpg"
  /\ Js.trim "   " = EmptyString.
Proof. repeat split. Qed.

Example file_path_example :
  file_path product 1700000000000 {| File.name := "shoe.png"; File.type := "image/png" |}
    = "ads/product_1700000000000.png".
Proof. vm_compute. reflexivity. Qed.

(** ** Running handlers *)

Ltac act_unfold :=
  unfold run, log, final_state, completion, showNotification, confirm, await, settle,
    emit, modify, ask, call, throw, get_state, try_catch, try_finally,
    mbind, mret, Act_bind, Act_ret in *.

(** ** The data client factory *)

Lemma getSupabase_None_iff (w : World) (st : AppSettings) :
  getSupabase w st = Normal None
  <-> supabaseUrl st = EmptyString \/ supabaseKey st = EmptyString.
Proof.
  unfold getSupabase. rewrite <- !truthy_false_iff.
  destruct (Js.truthy (supabaseUrl st)), (Js.truthy (supabaseKey st)); simpl;
    try (split; intros; try tauto; try discriminate; destruct H; discriminate).
  destruct (createClient w _ _); split; intros H; try discriminate; destruct H; discriminate.
Qed.

(** The three ways [getSupabase()] ends. *)
Lemma getSupabase_cases (w : World) (st : AppSettings) :
  getSupabase w st = Normal None
  \/ getSupabase w st
     = Normal (Some {| client_url := supabaseUrl st; client_key := supabaseKey st |})
  \/ (exists m, getSupabase w st = Throw m
                /\ createClient_error w (supabaseUrl st) (supabaseKey st) = Some m
                /\ supabaseUrl st <> EmptyString /\ supabaseKey st <> EmptyString).
Proof.
  unfold getSupabase, createClient.
  destruct (supabaseUrl st) as [|a u]; [left; reflexivity|].
  destruct (supabaseKey st) as [|b k]; [left; reflexivity|]. simpl.
  destruct (createClient_error w _ _) as [m|]; [|right; left; reflexivity].
  right. right. exists m. repeat split; discriminate.
Qed.

(** A client that was returned is made from the URL and the key. *)
Lemma getSupabase_client (w : World) (st : AppSettings) (c : SupabaseClient) :
  getSupabase w st = Normal (Some c) ->
  c = {| client_url := supabaseUrl st; client_key := supabaseKey st |}
  /\ supabaseUrl st <> EmptyString /\ supabaseKey st <> EmptyString
  /\ createClient_error w (supabaseUrl st) (supabaseKey st) = None.
Proof.
  unfold getSupabase, createClient.
  destruct (supabaseUrl st) as [|a u]; [discriminate|].
  destruct (supabaseKey st) as [|b k]; [discriminate|]. simpl.
  destruct (createClient_error w _ _) as [m|]; [discriminate|].
  intros [= <-]. repeat split; discriminate.
Qed.

(** An unconfigured [fetchVideos] shows an error and stops. *)
Lemma fetchVideos_unconfigured (w : World) (s : State) :
  getSupabase w (settings s) = Normal None ->
  run fetchVideos w s = (Normal tt, s, [Toast error_toast "Please configure settings first"]).
Proof. intros H. unfold fetchVideos. act_unfold. simpl. rewrite H. reflexivity. Qed.

(** An unconfigured [deleteVideo] shows an error and stops, before asking
    for confirmation. *)
Lemma deleteVideo_unconfigured (w : World) (s : State) (videoId : string) :
  getSupabase w (settings s) = Normal None ->
  run (deleteVideo videoId) w s = (Normal tt, s, [Toast error_toast "Supabase not configured"]).
Proof. intros H. unfold deleteVideo. act_unfold. simpl. rewrite H. reflexivity. Qed.

(** An unconfigured [updateVideoField] stops without any interaction. *)
Lemma updateVideoField_unconfigured (w : World) (s : State) videoId field value :
  getSupabase w (settings s) = Normal None ->
  run (updateVideoField videoId field value) w s = (Normal tt, s, []).
Proof. intros H. unfold updateVideoField. act_unfold. simpl. rewrite H. reflexivity. Qed.

(** When [createClient] throws, the three data operations end at once with
    its exception: nothing is shown, sent or changed. *)
Lemma data_operations_throw (w : World) (s : State) (m : string) videoId field value :
  getSupabase w (settings s) = Throw m ->
  run fetchVideos w s = (Throw m, s, [])
  /\ run (updateVideoField videoId field value) w s = (Throw m, s, [])
  /\ run (deleteVideo videoId) w s = (Throw m, s, []).
Proof.
  intros H. unfold fetchVideos, updateVideoField, deleteVideo. act_unfold. simpl.
  rewrite H. repeat split.
Qed.

(** C1, evaluated on the settings [{endpoint: '', key: 'x'}]: no client is
    made and none of the three data operations issues a network call;
    [fetchVideos] and [deleteVideo] show an error toast, [updateVideoField]
    returns without showing any error. *)
Theorem unconfigured_update_shows_no_error :
  let s := Sample.state Sample.unconfigured in
  let list_run := run fetchVideos Sample.world s in
  let delete_run := run (deleteVideo "2") Sample.world s in
  let update_run := run (updateVideoField "2" f_post_title "Renamed") Sample.world s in
  getSupabase Sample.world Sample.unconfigured = Normal None
  /\ network_calls (log list_run) = [] /\ count is_error_toast (log list_run) = 1
  /\ network_calls (log delete_run) = [] /\ count is_error_toast (log delete_run) = 1
  /\ network_calls (log update_run) = [] /\ count is_error_toast (log update_run) = 0
  /\ log update_run = [] /\ final_state update_run = s.
Proof. repeat split; reflexivity. Qed.

(** ** The webhook dispatcher *)

Lemma select_endpoint_or (preferred fallback : string) :
  select_endpoint preferred fallback =
    if Js.truthy (Js.or preferred fallback) then Some (Js.or preferred fallback) else None.
Proof.
  unfold select_endpoint, Js.or.
  destruct preferred; simpl; [|reflexivity].
  destruct fallback; reflexivity.
Qed.

(** A dispatch is one POST; it leaves the state alone. *)
Lemma dispatch_run (w : World) (s : State) (url : string) (body : Body) :
  run (dispatch url body) w s = (dispatch_completion w url body, s, [HttpPost url body]).
Proof.
  unfold dispatch, dispatch_completion. act_unfold.
  destruct (post_reply w url body) as [response|m]; [|reflexivity].
  destruct (ok response); simpl; [|reflexivity].
  destruct (json response) as [[]|m]; reflexivity.
Qed.

Lemma storage_events_no_post (l : list Event) :
  forallb is_storage_event l = true -> webhook_posts l = [].
Proof.
  induction l as [|e l IH]; simpl; [reflexivity|].
  intros H. apply andb_true_iff in H as [He Hl].
  destruct e; simpl in *; try discriminate; auto.
Qed.

Lemma storage_events_no_success (l : list Event) (m : string) :
  forallb is_storage_event l = true -> ~ In (Toast success m) l.
Proof.
  induction l as [|e l IH]; simpl; [tauto|].
  intros H. apply andb_true_iff in H as [He Hl].
  intros [->|Hin]; [discriminate | exact (IH Hl Hin)].
Qed.

Lemma no_post_not_in (l : list Event) (url : string) (body : Body) :
  webhook_posts l = [] -> ~ In (HttpPost url body) l.
Proof.
  intros H Hin.
  assert (Hf : In (HttpPost url body) (webhook_posts l))
    by (apply List.filter_In; split; [exact Hin | reflexivity]).
  rewrite H in Hf. exact Hf.
Qed.

Ltac storage_cases :=
  repeat
    match goal with
    | |- context [match upload_reply ?w ?c ?b ?p ?f with _ => _ end] =>
        destruct (upload_reply w c b p f) as [[? [?|]]|?]; simpl
    | |- context [match dataurl_reply ?w ?p with _ => _ end] =>
        destruct (dataurl_reply w p) as [?|?]; simpl
    | |- context [if Js.includes ?a ?b then _ else _] =>
        destruct (Js.includes a b); simpl
    end.

Lemma upload_wanted_false (s : State) :
  upload_wanted s = false <-> file s = None /\ Js.truthy_opt (filePreview s) = false.
Proof.
  unfold upload_wanted. destruct (file s); simpl; split; try tauto; try discriminate.
  intros [H _]. discriminate.
Qed.

Lemma client_failure_Some (w : World) (s : State) (m : string) :
  client_failure w s = Some m <->
  upload_wanted s = true /\ getSupabase w (settings s) = Throw m.
Proof.
  unfold client_failure. destruct (upload_wanted s); [|split; [|intros [H _]]; discriminate].
  destruct (getSupabase w (settings s)) as [o|m']; split.
  - discriminate.
  - intros [_ H]. discriminate.
  - intros [= ->]. split; reflexivity.
  - intros [_ [= ->]]. reflexivity.
Qed.

Lemma client_failure_None (w : World) (s : State) :
  client_failure w s = None <->
  upload_wanted s = false \/ exists o, getSupabase w (settings s) = Normal o.
Proof.
  unfold client_failure. destruct (upload_wanted s); [|split; auto].
  destruct (getSupabase w (settings s)) as [o|m]; split.
  - intros _. right. exists o. reflexivity.
  - reflexivity.
  - discriminate.
  - intros [H|[o H]]; discriminate.
Qed.

(** When [createClient] throws, the upload step ends with its exception
    before anything is sent. *)
Lemma resolve_file_url_throws (w : World) (s s' : State) (m : string) :
  client_failure w s = Some m ->
  run (resolve_file_url s) w s' = (Throw m, s', []).
Proof.
  intros H. apply client_failure_Some in H as [Hw Hc].
  unfold resolve_file_url. act_unfold. rewrite Hw. simpl. rewrite Hc. reflexivity.
Qed.

(** Otherwise the upload step does not throw into [handleSubmit], never
    changes the state and logs storage events only; a URL it yields is a
    public URL of the bucket. *)
Lemma resolve_file_url_run (w : World) (s s' : State) :
  client_failure w s = None ->
  exists fileUrl l,
    run (resolve_file_url s) w s' = (Normal fileUrl, s', l)
    /\ forallb is_storage_event l = true
    /\ (forall url, fileUrl = Some url ->
          exists c path, getSupabase w (settings s) = Normal (Some c)
                         /\ url = publicUrl w c "ad-files" path).
Proof.
  unfold client_failure, resolve_file_url, upload_wanted, upload_to_storage. act_unfold.
  destruct (file s) as [f|], (filePreview s) as [[|a p]|]; simpl;
    destruct (getSupabase w (settings s)) as [[c|]|m] eqn:Hc; simpl;
    try discriminate; intros _;
    try (eexists _, _; repeat split; [reflexivity | discriminate]).
  all: storage_cases.
  all: eexists _, _; repeat split; try reflexivity; try discriminate.
  all: intros url [= <-]; eexists _, _; split; reflexivity.
Qed.

Lemma resolve_file_url_fails (w : World) (s s' : State) (c : SupabaseClient) :
  getSupabase w (settings s) = Normal (Some c) ->
  storage_step_fails w s c = true ->
  exists l,
    run (resolve_file_url s) w s' = (Normal None, s', l)
    /\ (forall f, file s = Some f ->
          In (StorageUpload c "ad-files" (file_path (activeTab s) (now w) f) f) l).
Proof.
  intros Hc.
  unfold storage_step_fails, reply_failed, failure_message, resolve_file_url,
    upload_wanted, upload_to_storage.
  act_unfold.
  destruct (file s) as [f|], (filePreview s) as [[|a p]|]; simpl; try discriminate;
    rewrite Hc; simpl.
  all: storage_cases; try discriminate; intros _; eexists;
    (split; [reflexivity|]); intros f0 Hf; try discriminate Hf;
    injection Hf as <-; simpl; auto.
Qed.

(** [handleSubmit] with an endpoint configured.  When the storage client
    cannot be made, the exception of [createClient] ends in the outer
    [catch]: one error toast, nothing sent.  Otherwise: the upload step,
    then one POST to the selected endpoint, whose reply alone decides how
    the submission ends. *)
Lemma handleSubmit_run (w : World) (s : State) :
  let url := Js.or (n8nGenerateWebhook (settings s)) (n8nPostWebhook (settings s)) in
  Js.truthy url = true ->
  match client_failure w s with
  | Some m =>
      run handleSubmit w s =
        (Normal tt, setLoading false (setLoading true s),
         [Toast error_toast ("Error: " +:+ m)])
  | None =>
      exists fileUrl l,
        run (resolve_file_url s) w (setLoading true s)
          = (Normal fileUrl, setLoading true s, l)
        /\ let body := AdBody (build_payload s fileUrl (now_iso w)) in
           run handleSubmit w s =
             match dispatch_completion w url body with
             | Normal _ =>
                 (Normal tt, setLoading false (clearForm (setLoading true s)),
                  l ++ [HttpPost url body; Toast success submitted_message;
                        SetTimeout 2000 SwitchToDashboardAndFetch])
             | Throw m =>
                 (Normal tt, setLoading false (setLoading true s),
                  l ++ [HttpPost url body; Toast error_toast ("Error: " +:+ m)])
             end
  end.
Proof.
  intros url Hurl. destruct (client_failure w s) as [m|] eqn:Hcf.
  - pose proof (resolve_file_url_throws w s (setLoading true s) m Hcf) as Hr.
    unfold run in Hr. unfold handleSubmit.
    unfold run, mbind, Act_bind, get_state, try_finally, try_catch, modify, ask,
      showNotification, emit.
    fold url. rewrite Hurl. change (negb true) with false. cbv beta iota.
    rewrite Hr. reflexivity.
  - destruct (resolve_file_url_run w s (setLoading true s) Hcf) as (fileUrl & l & Hr & _ & _).
    exists fileUrl, l. split; [exact Hr|].
    intros body. unfold handleSubmit.
    pose proof (dispatch_run w (setLoading true s) url body) as Hd.
    unfold run in Hr, Hd.
    unfold run, mbind, Act_bind, get_state, try_finally, try_catch, modify, ask,
      showNotification, emit.
    fold url. rewrite Hurl. change (negb true) with false. cbv beta iota.
    rewrite Hr. fold body. rewrite Hd.
    destruct (dispatch_completion w url body) as [[]|m]; simpl;
      rewrite ?app_nil_r, <- ?app_assoc; reflexivity.
Qed.

(** [handlePostToSocials] with an endpoint configured: one POST of the
    record, then a toast. *)
Lemma handlePostToSocials_run (w : World) (s : State) (video : VideoPost) :
  let url := Js.or (n8nPostWebhook (settings s)) (n8nGenerateWebhook (settings s)) in
  Js.truthy url = true ->
  run (handlePostToSocials video) w s =
    (Normal tt, s,
     [HttpPost url (VideoBody video);
      match post_reply w url (VideoBody video) with
      | Resolved response =>
          if ok response then Toast success "Posted to social media successfully!"
          else Toast error_toast "Failed to post to socials"
      | Rejected m => Toast error_toast m
      end]).
Proof.
  intros url Hurl. unfold handlePostToSocials. act_unfold. fold url.
  rewrite Hurl. change (negb true) with false. cbv beta iota.
  destruct (post_reply w url (VideoBody video)) as [response|m]; [|reflexivity].
  destruct (ok response); reflexivity.
Qed.

Lemma handleSubmitUrl_run (w : World) (s : State) :
  let url := Js.or (n8nGenerateWebhook (settings s)) (n8nPostWebhook (settings s)) in
  let body := UrlAdBody (build_url_payload s) in
  Js.truthy url = true ->
  run handleSubmitUrl w s =
    if image_url_missing s
    then (Normal tt, s, [Toast error_toast "Please enter an image URL!"])
    else
      match dispatch_completion w url body with
      | Normal _ =>
          (Normal tt, setLoading false (clearFormUrl (setLoading true s)),
           [HttpPost url body; Toast success submitted_message])
      | Throw m =>
          (Normal tt, setLoading false (setLoading true s),
           [HttpPost url body; Toast error_toast ("Error: " +:+ m)])
      end.
Proof.
  intros url body Hurl. unfold handleSubmitUrl.
  pose proof (dispatch_run w (setLoading true s) url body) as Hd.
  unfold run in Hd.
  assert (Hc : (match activeTab s with reels => true | _ => false end)
               && negb (Js.truthy (Js.trim (imageUrl s))) = image_url_missing s)
    by (unfold image_url_missing; destruct (activeTab s); reflexivity).
  unfold run, mbind, Act_bind, get_state, try_finally, try_catch, modify,
    showNotification, emit.
  fold url. rewrite Hurl. change (negb true) with false. cbv beta iota.
  rewrite Hc. destruct (image_url_missing s); [reflexivity|].
  fold body. rewrite Hd.
  destruct (dispatch_completion w url body) as [[]|m]; reflexivity.
Qed.

Lemma no_endpoint_runs (w : World) (s : State) (video : VideoPost) :
  Js.truthy (Js.or (n8nPostWebhook (settings s)) (n8nGenerateWebhook (settings s))) = false ->
  run (handlePostToSocials video) w s =
    (Normal tt, s,
     [Toast error_toast "Please configure at least one n8n webhook in Settings"]).
Proof. intros H. unfold handlePostToSocials. act_unfold. simpl. rewrite H. reflexivity. Qed.

Lemma no_endpoint_submit (w : World) (s : State) :
  Js.truthy (Js.or (n8nGenerateWebhook (settings s)) (n8nPostWebhook (settings s))) = false ->
  run handleSubmit w s =
    (Normal tt, s,
     [Toast error_toast "Please configure at least one n8n webhook in Settings!"])
  /\ run handleSubmitUrl w s =
    (Normal tt, s,
     [Toast error_toast "Please configure at least one n8n webhook in Settings!"]).
Proof.
  intros H. unfold handleSubmit, handleSubmitUrl. act_unfold. simpl.
  rewrite H. split; reflexivity.
Qed.

Lemma webhook_posts_app (l1 l2 : list Event) :
  webhook_posts (l1 ++ l2) = webhook_posts l1 ++ webhook_posts l2.
Proof. apply List.filter_app. Qed.

(** C2: a publish action posts to the post endpoint when it is set and to
    the generate endpoint otherwise; a creation action (in both variants of
    the form) posts to the generate endpoint when it is set and to the post
    endpoint otherwise, and to no other address: the upload variant posts
    there exactly once, unless a file is to be uploaded and [createClient]
    throws, which ends the submission before the dispatch.  With both
    endpoints empty each action only shows the error toast, issues no
    network call and leaves the state as it was. *)
Theorem endpoint_selection (w : World) (s : State) (video : VideoPost) :
  let st := settings s in
  let publish := run (handlePostToSocials video) w s in
  let creation := run handleSubmit w s in
  let creation_url := run handleSubmitUrl w s in
  match select_endpoint (n8nPostWebhook st) (n8nGenerateWebhook st) with
  | Some url => webhook_posts (log publish) = [HttpPost url (VideoBody video)]
  | None =>
      log publish =
        [Toast error_toast "Please configure at least one n8n webhook in Settings"]
      /\ network_calls (log publish) = [] /\ final_state publish = s
  end
  /\
  match select_endpoint (n8nGenerateWebhook st) (n8nPostWebhook st) with
  | Some url =>
      match client_failure w s with
      | None => exists p, webhook_posts (log creation) = [HttpPost url (AdBody p)]
      | Some m => log creation = [Toast error_toast ("Error: " +:+ m)]
      end
      /\ (forall u b, In (HttpPost u b) (log creation) -> u = url)
      /\ webhook_posts (log creation_url) =
           if image_url_missing s then []
           else [HttpPost url (UrlAdBody (build_url_payload s))]
  | None =>
      log creation =
        [Toast error_toast "Please configure at least one n8n webhook in Settings!"]
      /\ network_calls (log creation) = [] /\ final_state creation = s
      /\ log creation_url = log creation
      /\ final_state creation_url = s
  end.
Proof.
  intros st publish creation creation_url. rewrite !select_endpoint_or. split.
  - destruct (Js.truthy (Js.or (n8nPostWebhook st) (n8nGenerateWebhook st))) eqn:E.
    + subst publish. rewrite (handlePostToSocials_run w s video E). unfold log. simpl.
      destruct (post_reply w _ (VideoBody video)) as [response|m]; [|reflexivity].
      destruct (ok response); reflexivity.
    + subst publish. rewrite (no_endpoint_runs w s video E). repeat split.
  - destruct (Js.truthy (Js.or (n8nGenerateWebhook st) (n8nPostWebhook st))) eqn:E.
    + assert (Hposts :
        match client_failure w s with
        | None =>
            exists p, webhook_posts (log creation)
                      = [HttpPost (Js.or (n8nGenerateWebhook st) (n8nPostWebhook st))
                           (AdBody p)]
        | Some m => log creation = [Toast error_toast ("Error: " +:+ m)]
        end).
      { pose proof (handleSubmit_run w s E) as Hrun. cbv zeta in Hrun.
        destruct (client_failure w s) as [m|] eqn:Hcf.
        - subst creation. rewrite Hrun. reflexivity.
        - destruct Hrun as (fileUrl & l & Hr & Hrun).
          destruct (resolve_file_url_run w s (setLoading true s) Hcf)
            as (o & l' & Hr' & Hl' & _).
          rewrite Hr in Hr'. injection Hr' as <- <-. apply storage_events_no_post in Hl'.
          exists (build_payload s fileUrl (now_iso w)).
          subst creation. rewrite Hrun.
          destruct (dispatch_completion w _ _) as [[]|m]; unfold log; simpl;
            rewrite webhook_posts_app, Hl'; reflexivity. }
      split; [exact Hposts|]. split.
      * intros u b Hin. destruct (client_failure w s) as [m|].
        -- rewrite Hposts in Hin. destruct Hin as [Hin|[]]. discriminate Hin.
        -- destruct Hposts as (p & Hp).
           assert (Hf : In (HttpPost u b) (webhook_posts (log creation)))
             by (apply List.filter_In; split; [exact Hin | reflexivity]).
           rewrite Hp in Hf. destruct Hf as [Hf|[]]. injection Hf as <- _. reflexivity.
      * subst creation_url. rewrite (handleSubmitUrl_run w s E).
        destruct (image_url_missing s); [reflexivity|].
        destruct (dispatch_completion w _ _) as [[]|m]; reflexivity.
    + destruct (no_endpoint_submit w s E) as [H1 H2].
      subst creation creation_url. rewrite H1, H2. repeat split.
Qed.

(** ** Creation requests and the storage *)

(** A storage step that fails once the client is made (the bucket is
    missing, the upload is refused or rejected, or the preview cannot be
    read back) is passed over: the chosen file was sent to the storage, and
    [handleSubmit] still posts to the selected webhook, exactly once, with
    [file_url] null and [file_base64] holding the preview if there is one;
    the submission then succeeds whenever the webhook accepts it. *)
Lemma storage_failure_is_passed_over (w : World) (s : State) (c : SupabaseClient) :
  let url := Js.or (n8nGenerateWebhook (settings s)) (n8nPostWebhook (settings s)) in
  let payload := build_payload s None (now_iso w) in
  let r := run handleSubmit w s in
  Js.truthy url = true ->
  getSupabase w (settings s) = Normal (Some c) ->
  storage_step_fails w s c = true ->
  webhook_posts (log r) = [HttpPost url (AdBody payload)]
  /\ (forall f, file s = Some f ->
        In (StorageUpload c "ad-files" (file_path (activeTab s) (now w) f) f) (log r))
  /\ Payload.file_url payload = None
  /\ Payload.file_base64 payload =
       (if Js.truthy_opt (filePreview s) then filePreview s else None)
  /\ (dispatch_completion w url (AdBody payload) = Normal tt ->
      In (Toast success submitted_message) (log r)).
Proof.
  intros url payload r Hurl Hc Hfail.
  assert (Hcf : client_failure w s = None)
    by (apply client_failure_None; right; eexists; exact Hc).
  pose proof (handleSubmit_run w s Hurl) as Hrun. cbv zeta in Hrun. rewrite Hcf in Hrun.
  destruct Hrun as (fileUrl & l & Hr & Hrun).
  destruct (resolve_file_url_fails w s (setLoading true s) c Hc Hfail) as (l0 & Hr0 & Hup).
  destruct (resolve_file_url_run w s (setLoading true s) Hcf) as (o & l' & Hr' & Hl' & _).
  rewrite Hr in Hr0, Hr'. injection Hr0 as -> <-. injection Hr' as <- <-.
  apply storage_events_no_post in Hl'.
  fold url payload r in Hrun.
  split; [|split; [|split; [reflexivity|split; [reflexivity|]]]].
  - rewrite Hrun. destruct (dispatch_completion w url (AdBody payload)) as [[]|m];
      unfold log; simpl; rewrite webhook_posts_app, Hl'; reflexivity.
  - intros f Hf. rewrite Hrun.
    destruct (dispatch_completion w url (AdBody payload)) as [[]|m];
      unfold log; simpl; apply in_or_app; left; exact (Hup f Hf).
  - intros Hdone. rewrite Hrun, Hdone.
    unfold log. simpl. apply in_or_app. right. simpl. auto.
Qed.

(** C3, evaluated where it fails: the backend URL was saved without its
    scheme, a file is chosen and both webhooks are set.  [createClient]
    throws; [handleSubmit] calls [getSupabase()] inside its outer [try] but
    outside the inner [try] that guards the storage step, so the submission
    ends in the outer [catch]: the only interaction is the error toast,
    nothing is uploaded and nothing is posted.  A failure inside the inner
    [try] (here the bucket is missing) is passed over as the claim says:
    the request is posted with [file_url] null and the preview as
    [file_base64], and the submission succeeds. *)
Theorem client_failure_aborts_submission :
  let s := Sample.state Sample.malformed in
  let aborted := run handleSubmit Sample.world s in
  let degraded :=
    run handleSubmit Sample.storage_down_world (Sample.state Sample.configured) in
  upload_wanted s = true
  /\ Js.truthy (Js.or (n8nGenerateWebhook (settings s)) (n8nPostWebhook (settings s))) = true
  /\ getSupabase Sample.world (settings s) = Throw Sample.invalid_url_message
  /\ log aborted = [Toast error_toast ("Error: " +:+ Sample.invalid_url_message)]
  /\ webhook_posts (log aborted) = []
  /\ network_calls (log aborted) = []
  /\ log degraded =
       [StorageUpload Sample.client "ad-files" "ads/product_1700000000000.png"
          {| File.name := "shoe.png"; File.type := "image/png" |};
        Toast error_toast bucket_missing_message;
        HttpPost "https://n8n.example/generate" (AdBody Sample.fallback_payload);
        Toast success submitted_message;
        SetTimeout 2000 SwitchToDashboardAndFetch]
  /\ Payload.file_url Sample.fallback_payload = None
  /\ Payload.file_base64 Sample.fallback_payload = Some "data:image/png;base64,AAAA".
Proof. repeat split; vm_compute; reflexivity. Qed.

(** C10: in every payload that [handleSubmit] posts, [file_url] and
    [file_base64] are not both set, provided the storage never resolves the
    empty string as a public URL: [file_base64] is set only when no URL was
    resolved and a preview exists, and then it is that preview. *)
Theorem file_url_excludes_base64 (w : World) (s : State) (url : string) (p : Payload.t) :
  (forall c bucket path, publicUrl w c bucket path <> EmptyString) ->
  In (HttpPost url (AdBody p)) (log (run handleSubmit w s)) ->
  (Payload.file_url p = None \/ Payload.file_base64 p = None)
  /\ (Payload.file_url p <> None -> Payload.file_base64 p = None)
  /\ (Payload.file_base64 p <> None ->
      Payload.file_url p = None
      /\ Js.truthy_opt (filePreview s) = true
      /\ Payload.file_base64 p = filePreview s).
Proof.
  intros Hpub Hin.
  destruct (Js.truthy (Js.or (n8nGenerateWebhook (settings s))
                             (n8nPostWebhook (settings s)))) eqn:Hurl.
  - pose proof (handleSubmit_run w s Hurl) as Hrun. cbv zeta in Hrun.
    destruct (client_failure w s) as [m|] eqn:Hcf.
    { rewrite Hrun in Hin. unfold log in Hin. simpl in Hin.
      destruct Hin as [Hin|[]]. discriminate Hin. }
    destruct Hrun as (fileUrl & l & Hr & Hrun).
    destruct (resolve_file_url_run w s (setLoading true s) Hcf)
      as (o & l' & Hr' & Hl' & Ho).
    rewrite Hr in Hr'. injection Hr' as <- <-.
    apply storage_events_no_post in Hl'.
    rewrite Hrun in Hin.
    assert (Hp : p = build_payload s fileUrl (now_iso w)).
    { destruct (dispatch_completion w _ _) as [[]|m]; unfold log in Hin; simpl in Hin;
        apply in_app_or in Hin as [Hin|Hin];
        try (exfalso; exact (no_post_not_in _ _ _ Hl' Hin));
        simpl in Hin; intuition congruence. }
    subst p. simpl.
    destruct fileUrl as [u|].
    + destruct (Ho u eq_refl) as (c & path & _ & ->).
      assert (Ht : Js.truthy (publicUrl w c "ad-files" path) = true)
        by (apply truthy_true_iff, Hpub).
      simpl. rewrite Ht. simpl. repeat split; auto; congruence.
    + simpl. destruct (Js.truthy_opt (filePreview s)); repeat split; auto; congruence.
  - destruct (no_endpoint_submit w s Hurl) as [H1 _]. rewrite H1 in Hin.
    unfold log in Hin. simpl in Hin. destruct Hin as [Hin|[]]. discriminate.
Qed.

(** On the sample data, after a successful upload. *)
Lemma file_url_excludes_base64_witness :
  Payload.file_url Sample.uploaded_payload = None
  \/ Payload.file_base64 Sample.uploaded_payload = None.
Proof.
  refine (proj1 (file_url_excludes_base64 Sample.world (Sample.state Sample.configured)
                   "https://n8n.example/generate" _ _ _)).
  - intros c bucket path. simpl. destruct (client_url c); discriminate.
  - vm_compute. right. left. reflexivity.
Defined.

(** ** Webhook failures *)

Lemma webhook_failed_message_carries (response : HttpResponse) (pre : string) :
  carries_status_and_body response (pre +:+ webhook_failed_message response).
Proof.
  unfold carries_status_and_body, webhook_failed_message. split.
  - exists (pre +:+ "Webhook failed ("), ("): " +:+ text response).
    rewrite !append_assoc. reflexivity.
  - exists (pre +:+ "Webhook failed (" +:+ pretty (status response) +:+ "): "), EmptyString.
    rewrite !append_assoc, append_empty_r. reflexivity.
Qed.

(** C8, evaluated where it fails: a publish action whose webhook answers
    500 with the body "boom".  [handlePostToSocials] throws the fixed text
    "Failed to post to socials" on [!response.ok]: the one error shown
    carries neither the status nor the body of the response.  The creation
    action does what the claim says on the same answer: [handleSubmit]
    reads [response.status] and [response.text()], and its error carries
    both. *)
Theorem publish_error_drops_status_and_body :
  let publish :=
    run (handlePostToSocials Sample.first) Sample.failing_world
      (Sample.state Sample.configured) in
  let creation := run handleSubmit Sample.failing_world (Sample.state Sample.configured) in
  post_reply Sample.failing_world "https://n8n.example/post" (VideoBody Sample.first)
    = Resolved Sample.failed_response
  /\ ok Sample.failed_response = false
  /\ log publish
     = [HttpPost "https://n8n.example/post" (VideoBody Sample.first);
        Toast error_toast "Failed to post to socials"]
  /\ ~ (exists message,
          In (Toast error_toast message) (log publish)
          /\ carries_status_and_body Sample.failed_response message)
  /\ post_reply Sample.failing_world "https://n8n.example/generate"
       (AdBody Sample.fallback_payload)
     = Resolved Sample.failed_response
  /\ In (Toast error_toast "Error: Webhook failed (500): boom") (log creation)
  /\ carries_status_and_body Sample.failed_response "Error: Webhook failed (500): boom".
Proof.
  split; [reflexivity|]. split; [reflexivity|]. split; [reflexivity|]. split.
  - intros (message & Hin & Hstatus & _).
    destruct Hin as [Hin|[Hin|[]]]; [discriminate|].
    injection Hin as <-.
    apply includes_spec in Hstatus. vm_compute in Hstatus. discriminate.
  - split; [reflexivity|]. split.
    + vm_compute. right. right. right. left. reflexivity.
    + exact (webhook_failed_message_carries Sample.failed_response "Error: ").
Qed.

(** A non-success status of the webhook always ends the action with an
    error toast after the one POST, with no success toast.  For a creation
    request (both variants) the toast carries the status and the body of
    the response; for a publish action it is the fixed text "Failed to post
    to socials". *)
Lemma webhook_failure_surfaced (w : World) (s : State) (video : VideoPost)
    (body : Body) (response : HttpResponse) :
  let publish_url := Js.or (n8nPostWebhook (settings s)) (n8nGenerateWebhook (settings s)) in
  let create_url := Js.or (n8nGenerateWebhook (settings s)) (n8nPostWebhook (settings s)) in
  let failed := "Error: " +:+ webhook_failed_message response in
  ok response = false ->
  (Js.truthy publish_url = true ->
   post_reply w publish_url (VideoBody video) = Resolved response ->
   log (run (handlePostToSocials video) w s) =
     [HttpPost publish_url (VideoBody video);
      Toast error_toast "Failed to post to socials"])
  /\ (forall r, r = run handleSubmit w s \/ r = run handleSubmitUrl w s ->
      In (HttpPost create_url body) (log r) ->
      post_reply w create_url body = Resolved response ->
      In (Toast error_toast failed) (log r)
      /\ ~ In (Toast success submitted_message) (log r)
      /\ carries_status_and_body response failed).
Proof.
  intros publish_url create_url failed Hok. split.
  - intros Hurl Hreply. rewrite (handlePostToSocials_run w s video Hurl).
    fold publish_url. rewrite Hreply, Hok. reflexivity.
  - intros r Hr Hin Hreply.
    assert (Hd : dispatch_completion w create_url body
                 = Throw (webhook_failed_message response))
      by (unfold dispatch_completion; rewrite Hreply, Hok; reflexivity).
    assert (Hurl : Js.truthy create_url = true).
    { destruct (Js.truthy create_url) eqn:E; [reflexivity|].
      destruct (no_endpoint_submit w s E) as [H1 H2].
      destruct Hr as [-> | ->]; [rewrite H1 in Hin | rewrite H2 in Hin];
        unfold log in Hin; simpl in Hin; destruct Hin as [Hin|[]]; discriminate. }
    destruct Hr as [-> | ->].
    + pose proof (handleSubmit_run w s Hurl) as Hrun. cbv zeta in Hrun.
      destruct (client_failure w s) as [m0|] eqn:Hcf.
      { rewrite Hrun in Hin. unfold log in Hin. simpl in Hin.
        destruct Hin as [Hin|[]]. discriminate Hin. }
      destruct Hrun as (fileUrl & l & Hres & Hrun).
      destruct (resolve_file_url_run w s (setLoading true s) Hcf)
        as (o & l' & Hr' & Hl' & _).
      rewrite Hres in Hr'. injection Hr' as <- <-.
      fold create_url in Hrun. rewrite Hrun in Hin |- *.
      assert (Hb : body = AdBody (build_payload s fileUrl (now_iso w))).
      { pose proof (storage_events_no_post _ Hl') as Hn.
        destruct (dispatch_completion w create_url (AdBody _)) as [[]|m];
          unfold log in Hin; simpl in Hin; apply in_app_or in Hin as [Hin|Hin];
          try (exfalso; exact (no_post_not_in _ _ _ Hn Hin));
          simpl in Hin; intuition congruence. }
      rewrite <- Hb, Hd. unfold log. simpl. split; [|split].
      * apply in_or_app. right. simpl. auto.
      * intros Hs. apply in_app_or in Hs as [Hs|Hs].
        -- exact (storage_events_no_success _ _ Hl' Hs).
        -- simpl in Hs. intuition discriminate.
      * apply (webhook_failed_message_carries response "Error: ").
    + rewrite (handleSubmitUrl_run w s Hurl) in Hin |- *. fold create_url in Hin |- *.
      destruct (image_url_missing s).
      { unfold log in Hin. simpl in Hin. destruct Hin as [Hin|[]]. discriminate. }
      assert (Hb : body = UrlAdBody (build_url_payload s)).
      { destruct (dispatch_completion w create_url (UrlAdBody _)) as [[]|m];
          unfold log in Hin; simpl in Hin; intuition congruence. }
      rewrite <- Hb, Hd. unfold log. simpl. split; [|split].
      * auto.
      * intuition discriminate.
      * apply (webhook_failed_message_carries response "Error: ").
Qed.

(** ** The video feed *)

Lemma fetchVideos_run (w : World) (s : State) (c : SupabaseClient) :
  getSupabase w (settings s) = Normal (Some c) ->
  let table := tableName (settings s) in
  let q := {| q_table := table; q_order := Some order_by_id_desc |} in
  run fetchVideos w s =
    match select_fault w c table with
    | Rejected m =>
        (Normal tt, setLoading false (setLoading true s),
         [DbSelect c q; Toast error_toast m])
    | Resolved (Some m) =>
        (Normal tt, setLoading false (setLoading true s),
         [DbSelect c q; Toast error_toast (database_error_message m table)])
    | Resolved None =>
        let d := merge_sort (row_le w false) (table_rows w c table) in
        (Normal tt,
         setLoading false (setVideos (fun _ => d) (setLoading true s)),
         DbSelect c q ::
           (if (0 <? length d)%nat
            then [Toast success ("Loaded " +:+ pretty (length d) +:+ " video(s)")]
            else []))
    end.
Proof.
  intros Hc table q. unfold fetchVideos, run_select. act_unfold. simpl.
  rewrite Hc. simpl. fold table.
  destruct (select_fault w c table) as [[m|]|m]; simpl; try reflexivity.
  destruct (0 <? length _)%nat; reflexivity.
Qed.

(** C7: when the backend answers a list request with an error, the toast
    shown is the database error message, which contains the configured table
    name, the hint to check the RLS policies and the backend's own message;
    the feed is left as it was. *)
Theorem list_error_names_table (w : World) (s : State) (c : SupabaseClient) (m : string) :
  let table := tableName (settings s) in
  let r := run fetchVideos w s in
  getSupabase w (settings s) = Normal (Some c) ->
  select_fault w c table = Resolved (Some m) ->
  log r = [DbSelect c {| q_table := table; q_order := Some order_by_id_desc |};
           Toast error_toast (database_error_message m table)]
  /\ occurs_in table (database_error_message m table)
  /\ occurs_in "RLS policies" (database_error_message m table)
  /\ occurs_in m (database_error_message m table)
  /\ videos (final_state r) = videos s.
Proof.
  intros table r Hc Hfault. subst r. rewrite (fetchVideos_run w s c Hc).
  fold table. rewrite Hfault. repeat split.
  - exists ("Database error: " +:+ m +:+ ". Check table name " +:+ Js.dquote),
           (Js.dquote +:+ " and RLS policies.").
    unfold database_error_message. rewrite !append_assoc. reflexivity.
  - exists ("Database error: " +:+ m +:+ ". Check table name " +:+ Js.dquote
              +:+ table +:+ Js.dquote +:+ " and "), ".".
    unfold database_error_message. rewrite !append_assoc. reflexivity.
  - exists "Database error: ",
           (". Check table name " +:+ Js.dquote +:+ table +:+ Js.dquote
              +:+ " and RLS policies.").
    reflexivity.
Qed.

(** On the sample data, with the backend refusing the select. *)
Lemma list_error_names_table_witness :
  occurs_in "social_media_videos"
    (database_error_message "permission denied" "social_media_videos").
Proof.
  exact (proj1 (proj2 (list_error_names_table Sample.failing_world
                         (Sample.state Sample.configured) Sample.client
                         "permission denied" eq_refl eq_refl))).
Defined.

Section Ordering.
Variable w : World.
Hypothesis order : id_order w.

#[local] Instance row_le_desc_total : Total (row_le w false).
Proof.
  intros a b. unfold row_le.
  destruct (id_leb_total w order (id a) (id b)) as [H|H]; rewrite H; simpl; auto.
Qed.

#[local] Instance row_le_desc_trans : Transitive (row_le w false).
Proof.
  intros a b c. unfold row_le. rewrite !Is_true_true. intros Hab Hbc.
  exact (id_leb_trans w order _ _ _ Hbc Hab).
Qed.

Lemma row_le_desc_strict (a b : VideoPost) :
  row_le w false a b -> id a <> id b -> id_gt w (id a) (id b).
Proof.
  unfold row_le, id_gt. rewrite Is_true_true. intros Hba Hne.
  destruct (id_leb w (id a) (id b)) eqn:Hab; [|reflexivity].
  exfalso. apply Hne. exact (id_leb_antisym w order _ _ Hab Hba).
Qed.

Lemma sorted_unique_strict (l : list VideoPost) :
  StronglySorted (row_le w false) l -> NoDup (List.map id l) ->
  strictly_descending w l.
Proof.
  unfold strictly_descending.
  induction 1 as [|a l Hl IH Ha]; intros Hnd; [constructor|].
  simpl in Hnd. apply NoDup_cons in Hnd as [Hnotin Hnd]. constructor.
  - exact (IH Hnd).
  - rewrite List.Forall_forall in Ha |- *. intros b Hb.
    apply row_le_desc_strict; [exact (Ha b Hb)|].
    intros Heq. apply Hnotin. rewrite Heq.
    apply list_elem_of_In, in_map, Hb.
Qed.

(** The backend's answer to [.order('id', { ascending: false })] on a
    table with unique identifiers. *)
Lemma ordered_rows_descending (rows : list VideoPost) :
  NoDup (List.map id rows) ->
  strictly_descending w (apply_order w (Some order_by_id_desc) rows)
  /\ apply_order w (Some order_by_id_desc) rows ≡ₚ rows.
Proof.
  intros Hnd. unfold apply_order. simpl.
  pose proof (merge_sort_Permutation (row_le w false) rows) as Hperm.
  split; [|exact Hperm].
  apply sorted_unique_strict.
  - apply StronglySorted_merge_sort; apply _.
  - assert (Hm : List.map id (merge_sort (row_le w false) rows) ≡ₚ List.map id rows)
      by (apply Permutation_map; exact Hperm).
    rewrite Hm. exact Hnd.
Qed.
End Ordering.

(** C6: after a successful [fetchVideos] on a table whose identifiers are
    unique, the feed holds exactly the rows of the table, ordered strictly
    descending by identifier (for the order of the backend's [id] column,
    assumed total). *)
Theorem list_strictly_descending (w : World) (s : State) (c : SupabaseClient) :
  let table := tableName (settings s) in
  let r := run fetchVideos w s in
  id_order w ->
  NoDup (List.map id (table_rows w c table)) ->
  getSupabase w (settings s) = Normal (Some c) ->
  select_fault w c table = Resolved None ->
  strictly_descending w (videos (final_state r))
  /\ videos (final_state r) ≡ₚ table_rows w c table
  /\ count is_error_toast (log r) = 0.
Proof.
  intros table r Horder Hnd Hc Hok. subst r.
  rewrite (fetchVideos_run w s c Hc). fold table. rewrite Hok.
  destruct (ordered_rows_descending w Horder (table_rows w c table) Hnd) as [Hs Hp].
  unfold final_state, log. simpl. repeat split; [exact Hs | exact Hp |].
  destruct (0 <? length _)%nat; reflexivity.
Qed.

(** The byte-wise order of strings is a total order. *)
Lemma sample_id_order : id_order Sample.world.
Proof.
  split; simpl.
  - apply String.leb_total.
  - intros a b c Hab Hbc. apply Is_true_true.
    apply Is_true_true in Hab, Hbc.
    exact (transitivity (R := String.le) Hab Hbc).
  - apply String.leb_antisym.
Qed.

(** On the sample data: the rows 2, 3, 1 come back as 3, 2, 1. *)
Lemma list_strictly_descending_witness :
  strictly_descending Sample.world
    (videos (final_state (run fetchVideos Sample.world (Sample.state Sample.configured)))).
Proof.
  refine (proj1 (list_strictly_descending Sample.world (Sample.state Sample.configured)
                   Sample.client sample_id_order _ eq_refl eq_refl)).
  apply (bool_decide_unpack _). vm_compute. reflexivity.
Defined.

Example sample_feed_order :
  List.map id (videos (final_state (run fetchVideos Sample.world
                                      (Sample.state Sample.configured))))
    = ["3"; "2"; "1"].
Proof. reflexivity. Qed.

(** ** Editing and deleting rows *)



Lemma updateVideoField_run (w : World) (s : State) (c : SupabaseClient)
    (videoId : string) (field : Field) (value : string) :
  getSupabase w (settings s) = Normal (Some c) ->
  let call := DbUpdate c (tableName (settings s)) field value videoId in
  run (updateVideoField videoId field value) w s =
    match failure_message
            (update_reply w c (tableName (settings s)) field value videoId) with
    | None =>
        (Normal tt, setVideos (patch_videos videoId field value) s,
         [call; Toast success "Updated successfully"])
    | Some m => (Normal tt, s, [call; Toast error_toast m])
    end.
Proof.
  intros Hc call. unfold updateVideoField. act_unfold. simpl. rewrite Hc. simpl.
  destruct (update_reply w c _ field value videoId) as [[d [m|]]|m]; reflexivity.
Qed.



Example sample_rename :
  List.map post_title
    (videos (final_state (run (updateVideoField "2" f_post_title "Renamed") Sample.world
                            (Sample.state Sample.configured))))
    = ["Third"; "Renamed"; "First"]
  /\ videos (final_state (run (updateVideoField "2" f_post_title "Renamed")
                            Sample.failing_world (Sample.state Sample.configured)))
     = Sample.feed.
Proof. split; reflexivity. Qed.

Lemma remove_video_spec (videoId : string) (vs : list VideoPost) (v : VideoPost) :
  In v (remove_video videoId vs) <-> In v vs /\ id v <> videoId.
Proof.
  unfold remove_video. rewrite List.filter_In, negb_true_iff, String.eqb_neq. tauto.
Qed.

Lemma deleteVideo_run (w : World) (s : State) (c : SupabaseClient) (videoId : string) :
  getSupabase w (settings s) = Normal (Some c) ->
  let call := DbDelete c (tableName (settings s)) videoId in
  run (deleteVideo videoId) w s =
    if confirm_answer w delete_prompt
    then
      match failure_message (delete_reply w c (tableName (settings s)) videoId) with
      | None =>
          (Normal tt,
           setLoading false (setVideos (remove_video videoId) (setLoading true s)),
           [ConfirmDialog delete_prompt; call; Toast success "Post deleted successfully"])
      | Some m =>
          (Normal tt, setLoading false (setLoading true s),
           [ConfirmDialog delete_prompt; call; Toast error_toast m])
      end
    else (Normal tt, s, [ConfirmDialog delete_prompt]).
Proof.
  intros Hc call. unfold deleteVideo. act_unfold. simpl. rewrite Hc. simpl.
  destruct (confirm_answer w delete_prompt); simpl; [|reflexivity].
  destruct (delete_reply w c _ videoId) as [[d [m|]]|m]; reflexivity.
Qed.

(** C5: [deleteVideo] issues a backend call only after the user has been
    asked and has confirmed.  Declined, it issues no call and changes
    nothing; confirmed (with a client configured), it issues exactly one
    call, the delete of that id, and the feed loses the rows with that id
    when the call succeeds and is unchanged when it fails. *)
Theorem delete_requires_confirmation (w : World) (s : State) (videoId : string) :
  let r := run (deleteVideo videoId) w s in
  let table := tableName (settings s) in
  (confirm_answer w delete_prompt = false ->
   network_calls (log r) = [] /\ final_state r = s)
  /\ (network_calls (log r) <> [] ->
      confirm_answer w delete_prompt = true /\ In (ConfirmDialog delete_prompt) (log r))
  /\ (forall c, getSupabase w (settings s) = Normal (Some c) ->
      confirm_answer w delete_prompt = true ->
      network_calls (log r) = [DbDelete c table videoId]
      /\ count is_delete_call (log r) = 1
      /\ match failure_message (delete_reply w c table videoId) with
         | None =>
             videos (final_state r) = remove_video videoId (videos s)
             /\ (forall v, In v (videos (final_state r)) <-> In v (videos s) /\ id v <> videoId)
         | Some m =>
             videos (final_state r) = videos s /\ In (Toast error_toast m) (log r)
         end).
Proof.
  intros r table. subst r.
  destruct (getSupabase w (settings s)) as [[c|]|m0] eqn:Hc.
  - rewrite (deleteVideo_run w s c videoId Hc). fold table.
    destruct (confirm_answer w delete_prompt).
    + split; [discriminate|]. split.
      * intros _. split; [reflexivity|].
        destruct (failure_message _); unfold log; simpl; auto.
      * intros c' [= <-] _.
        destruct (failure_message (delete_reply w c table videoId)) as [m|];
          unfold log, final_state; simpl.
        -- repeat split; auto.
        -- split; [reflexivity|]. split; [reflexivity|]. split; [reflexivity|].
           intros v. apply remove_video_spec.
    + split; [intros _; split; reflexivity|]. split.
      * intros H. exfalso. apply H. reflexivity.
      * intros c' _ H. discriminate.
  - rewrite (deleteVideo_unconfigured w s videoId Hc). split; [split; reflexivity|]. split.
    + intros H. exfalso. apply H. reflexivity.
    + intros c' H. discriminate.
  - destruct (data_operations_throw w s m0 videoId f_caption EmptyString Hc) as (_ & _ & ->).
    split; [split; reflexivity|]. split.
    + intros H. exfalso. apply H. reflexivity.
    + intros c' H. discriminate.
Qed.

(** On the sample data, with a user who confirms and one who declines. *)
Lemma delete_requires_confirmation_witness :
  network_calls (log (run (deleteVideo "2") Sample.world (Sample.state Sample.configured)))
    = [DbDelete Sample.client "social_media_videos" "2"]
  /\ network_calls (log (run (deleteVideo "2") Sample.declining_world
                           (Sample.state Sample.configured))) = []
  /\ In (ConfirmDialog delete_prompt)
        (log (run (deleteVideo "2") Sample.world (Sample.state Sample.configured))).
Proof.
  pose proof (delete_requires_confirmation Sample.world
                (Sample.state Sample.configured) "2") as (_ & Hasked & Hyes).
  pose proof (delete_requires_confirmation Sample.declining_world
                (Sample.state Sample.configured) "2") as (Hno & _ & _).
  split; [exact (proj1 (Hyes Sample.client eq_refl eq_refl))|].
  split; [exact (proj1 (Hno eq_refl))|].
  refine (proj2 (Hasked _)). vm_compute. discriminate.
Defined.

Example sample_delete :
  List.map id (videos (final_state (run (deleteVideo "2") Sample.world
                                      (Sample.state Sample.configured))))
    = ["3"; "1"]
  /\ videos (final_state (run (deleteVideo "2") Sample.failing_world
                            (Sample.state Sample.configured)))
     = Sample.feed.
Proof. split; reflexivity. Qed.

Lemma edited_value_after_change (w : World) (s : State) (videoId : string)
    (field : Field) (value : string) :
  let s1 := final_state (run (handleFieldChange videoId field value) w s) in
  edited_value (editingFields s1) videoId field = Some value
  /\ videos s1 = videos s /\ settings s1 = settings s.
Proof.
  unfold handleFieldChange, edited_value. act_unfold. simpl.
  rewrite lookup_insert_eq. destruct field; repeat split.
Qed.

Lemma handleFieldBlur_run (w : World) (s : State) (videoId : string) (field : Field) :
  run (handleFieldBlur videoId field) w s =
    match edited_value (editingFields s) videoId field, find_video videoId (videos s) with
    | Some e, Some cur =>
        if String.eqb e (get_field field cur) then (Normal tt, s, [])
        else run (updateVideoField videoId field e) w s
    | _, _ => (Normal tt, s, [])
    end.
Proof.
  unfold handleFieldBlur, run, mbind, Act_bind, get_state.
  lazy beta iota zeta.
  destruct (edited_value (editingFields s) videoId field) as [e|];
    destruct (find_video videoId (videos s)) as [cur|]; try reflexivity.
  destruct (String.eqb e (get_field field cur)); simpl; [reflexivity|].
  destruct (updateVideoField videoId field e w s) as [[r s'] l]. reflexivity.
Qed.

(** C9: [handleFieldBlur] issues an update call only when there is a
    buffered edit for the field, the row is in the feed, and the edit
    differs from the row's current value; the call then carries that edit,
    and with a client configured it is the only call.  Without a buffered
    edit, without the row, or with an edit equal to the current value (for
    instance after typing the current value back), the handler does nothing
    at all. *)
Theorem blur_updates_only_on_change (w : World) (s : State) (videoId : string)
    (field : Field) :
  let r := run (handleFieldBlur videoId field) w s in
  let edit := edited_value (editingFields s) videoId field in
  let row := find_video videoId (videos s) in
  (forall e, In e (log r) -> is_network_call e = true ->
     exists edited cur c,
       edit = Some edited /\ row = Some cur /\ edited <> get_field field cur
       /\ e = DbUpdate c (tableName (settings s)) field edited videoId)
  /\ (forall edited cur c,
        edit = Some edited -> row = Some cur -> edited <> get_field field cur ->
        getSupabase w (settings s) = Normal (Some c) ->
        network_calls (log r) = [DbUpdate c (tableName (settings s)) field edited videoId])
  /\ (edit = None -> log r = [] /\ final_state r = s)
  /\ (row = None -> log r = [] /\ final_state r = s)
  /\ (forall cur,
        row = Some cur -> edit = Some (get_field field cur) ->
        log r = [] /\ final_state r = s)
  /\ (forall cur,
        row = Some cur ->
        let s1 := final_state (run (handleFieldChange videoId field (get_field field cur)) w s) in
        log (run (handleFieldBlur videoId field) w s1) = []).
Proof.
  intros r edit row. subst r. rewrite handleFieldBlur_run. fold edit row.
  split; [|split; [|split; [|split; [|split]]]].
  - intros e Hin Hnet.
    destruct edit as [edited|]; [|destruct Hin].
    destruct row as [cur|]; [|destruct Hin].
    destruct (String.eqb edited (get_field field cur)) eqn:E; [destruct Hin|].
    apply String.eqb_neq in E.
    destruct (getSupabase w (settings s)) as [[c|]|m0] eqn:Hc.
    + rewrite (updateVideoField_run w s c videoId field edited Hc) in Hin.
      exists edited, cur, c. repeat split; [exact E|].
      destruct (failure_message _); unfold log in Hin; simpl in Hin;
        destruct Hin as [<-|[<-|[]]]; try reflexivity; discriminate.
    + rewrite (updateVideoField_unconfigured w s videoId field edited Hc) in Hin.
      destruct Hin.
    + destruct (data_operations_throw w s m0 videoId field edited Hc) as (_ & Hu & _).
      rewrite Hu in Hin. destruct Hin.
  - intros edited cur c -> -> Hne Hc.
    apply String.eqb_neq in Hne. rewrite Hne.
    rewrite (updateVideoField_run w s c videoId field edited Hc).
    destruct (failure_message _); reflexivity.
  - intros ->. split; reflexivity.
  - intros ->. destruct edit; split; reflexivity.
  - intros cur -> ->. rewrite String.eqb_refl. split; reflexivity.
  - intros cur Hrow. cbv zeta. rewrite handleFieldBlur_run.
    destruct (edited_value_after_change w s videoId field (get_field field cur))
      as (He & Hv & _).
    cbv zeta in He, Hv. rewrite He, Hv. fold row. rewrite Hrow, String.eqb_refl.
    reflexivity.
Qed.

(** On the sample data: no edit, the current title typed back, and a new title. *)
Lemma blur_updates_only_on_change_witness :
  log (run (handleFieldBlur "2" f_post_title) Sample.world
         (Sample.state Sample.configured)) = []
  /\ log (run (handleFieldBlur "2" f_post_title) Sample.world
            (final_state (run (handleFieldChange "2" f_post_title "Second") Sample.world
                            (Sample.state Sample.configured)))) = []
  /\ network_calls
       (log (run (handleFieldBlur "2" f_post_title) Sample.world
               (final_state (run (handleFieldChange "2" f_post_title "Renamed")
                               Sample.world (Sample.state Sample.configured)))))
     = [DbUpdate Sample.client "social_media_videos" f_post_title "Renamed" "2"]
  /\ exists edited cur c,
       edited_value
         (editingFields (final_state (run (handleFieldChange "2" f_post_title "Renamed")
                                        Sample.world (Sample.state Sample.configured))))
         "2" f_post_title = Some edited
       /\ find_video "2" Sample.feed = Some cur
       /\ edited <> get_field f_post_title cur
       /\ DbUpdate Sample.client "social_media_videos" f_post_title "Renamed" "2"
          = DbUpdate c "social_media_videos" f_post_title edited "2".
Proof.
  pose proof (blur_updates_only_on_change Sample.world
                (Sample.state Sample.configured) "2" f_post_title)
    as (_ & _ & Hnone & _ & _ & Hback).
  pose proof (blur_updates_only_on_change Sample.world
                (final_state (run (handleFieldChange "2" f_post_title "Renamed")
                                Sample.world (Sample.state Sample.configured)))
                "2" f_post_title) as (Honly & Hone & _).
  split; [exact (proj1 (Hnone eq_refl))|].
  split; [exact (Hback (Sample.post "2" "Second" "b") eq_refl)|].
  split.
  - refine (Hone "Renamed" (Sample.post "2" "Second" "b") Sample.client
              eq_refl eq_refl _ eq_refl).
    discriminate.
  - refine (Honly (DbUpdate Sample.client "social_media_videos" f_post_title "Renamed" "2")
              _ eq_refl).
    vm_compute. left. reflexivity.
Defined.

Example sample_edit_then_blur :
  log (run (handleFieldBlur "2" f_post_title) Sample.world
         (final_state (run (handleFieldChange "2" f_post_title "Renamed") Sample.world
                         (Sample.state Sample.configured))))
    = [DbUpdate Sample.client "social_media_videos" f_post_title "Renamed" "2";
       Toast success "Updated successfully"].
Proof. vm_compute. reflexivity. Qed.

(** ** What escapes a handler *)

(** X1: the only error that escapes a handler is the one [createClient]
    throws.  [handlePostToSocials] and both variants of [handleSubmit] end
    normally whatever the storage, the webhooks and [createClient] do:
    every rejected promise and every exception ends in their [catch].
    [fetchVideos], [updateVideoField] and [deleteVideo] call
    [getSupabase()] before their [try]: when [createClient] throws, its
    exception leaves the handler before anything is shown, sent or changed
    (and so, through [updateVideoField], a blur that has something to
    save); in every other case they end normally. *)
Theorem only_client_creation_escapes (w : World) (s : State) (video : VideoPost)
    (videoId : string) (field : Field) (value : string) :
  let fetch := run fetchVideos w s in
  let update := run (updateVideoField videoId field value) w s in
  let delete := run (deleteVideo videoId) w s in
  let blur := run (handleFieldBlur videoId field) w s in
  completion (run (handlePostToSocials video) w s) = Normal tt
  /\ completion (run handleSubmit w s) = Normal tt
  /\ completion (run handleSubmitUrl w s) = Normal tt
  /\ match getSupabase w (settings s) with
     | Normal _ =>
         completion fetch = Normal tt /\ completion update = Normal tt
         /\ completion delete = Normal tt /\ completion blur = Normal tt
     | Throw m =>
         fetch = (Throw m, s, []) /\ update = (Throw m, s, []) /\ delete = (Throw m, s, [])
         /\ (blur = (Throw m, s, []) \/ blur = (Normal tt, s, []))
         /\ (forall e cur,
               edited_value (editingFields s) videoId field = Some e ->
               find_video videoId (videos s) = Some cur ->
               e <> get_field field cur ->
               blur = (Throw m, s, []))
     end.
Proof.
  intros fetch update delete blur.
  split; [|split; [|split]].
  - destruct (Js.truthy (Js.or (n8nPostWebhook (settings s))
                               (n8nGenerateWebhook (settings s)))) eqn:E.
    + rewrite (handlePostToSocials_run w s video E). reflexivity.
    + rewrite (no_endpoint_runs w s video E). reflexivity.
  - destruct (Js.truthy (Js.or (n8nGenerateWebhook (settings s))
                               (n8nPostWebhook (settings s)))) eqn:E.
    + pose proof (handleSubmit_run w s E) as Hrun. cbv zeta in Hrun.
      destruct (client_failure w s) as [m|]; [rewrite Hrun; reflexivity|].
      destruct Hrun as (fileUrl & l & _ & Hrun). rewrite Hrun.
      destruct (dispatch_completion w _ _) as [[]|m]; reflexivity.
    + destruct (no_endpoint_submit w s E) as [H1 _]. rewrite H1. reflexivity.
  - destruct (Js.truthy (Js.or (n8nGenerateWebhook (settings s))
                               (n8nPostWebhook (settings s)))) eqn:E.
    + rewrite (handleSubmitUrl_run w s E).
      destruct (image_url_missing s); [reflexivity|].
      destruct (dispatch_completion w _ _) as [[]|m]; reflexivity.
    + destruct (no_endpoint_submit w s E) as [_ H2]. rewrite H2. reflexivity.
  - subst fetch update delete blur. rewrite handleFieldBlur_run.
    destruct (getSupabase w (settings s)) as [[c|]|m] eqn:Hc.
    + rewrite (fetchVideos_run w s c Hc), (deleteVideo_run w s c videoId Hc),
        (updateVideoField_run w s c videoId field value Hc).
      split; [destruct (select_fault w c _) as [[m|]|m]; reflexivity|].
      split; [destruct (failure_message _); reflexivity|].
      split; [destruct (confirm_answer w delete_prompt);
              [destruct (failure_message _)|]; reflexivity|].
      destruct (edited_value _ _ _) as [e|]; [|reflexivity].
      destruct (find_video _ _) as [cur|]; [|reflexivity].
      destruct (String.eqb e _); [reflexivity|].
      rewrite (updateVideoField_run w s c videoId field e Hc).
      destruct (failure_message _); reflexivity.
    + rewrite (fetchVideos_unconfigured w s Hc), (deleteVideo_unconfigured w s videoId Hc),
        (updateVideoField_unconfigured w s videoId field value Hc).
      repeat split.
      destruct (edited_value _ _ _) as [e|]; [|reflexivity].
      destruct (find_video _ _) as [cur|]; [|reflexivity].
      destruct (String.eqb e _); [reflexivity|].
      rewrite (updateVideoField_unconfigured w s videoId field e Hc). reflexivity.
    + destruct (data_operations_throw w s m videoId field value Hc) as (-> & -> & ->).
      split; [reflexivity|]. split; [reflexivity|]. split; [reflexivity|]. split.
      * destruct (edited_value _ _ _) as [e|]; [|right; reflexivity].
        destruct (find_video _ _) as [cur|]; [|right; reflexivity].
        destruct (String.eqb e _); [right; reflexivity|]. left.
        exact (proj1 (proj2 (data_operations_throw w s m videoId field e Hc))).
      * intros e cur -> -> Hne. apply String.eqb_neq in Hne. rewrite Hne.
        exact (proj1 (proj2 (data_operations_throw w s m videoId field e Hc))).
Qed.

(** On the sample data, with the settings whose URL lacks its scheme: the
    fetch ends with the exception of [createClient], the submission ends
    normally. *)
Lemma only_client_creation_escapes_witness :
  run fetchVideos Sample.world (Sample.state Sample.malformed)
    = (Throw Sample.invalid_url_message, Sample.state Sample.malformed, [])
  /\ completion (run handleSubmit Sample.world (Sample.state Sample.malformed)) = Normal tt.
Proof.
  pose proof (only_client_creation_escapes Sample.world (Sample.state Sample.malformed)
                Sample.first "2" f_post_title "Renamed") as (_ & Hsubmit & _ & Hdata).
  split; [|exact Hsubmit].
  change (getSupabase Sample.world (settings (Sample.state Sample.malformed)))
    with (@Throw (option SupabaseClient) Sample.invalid_url_message) in Hdata.
  exact (proj1 Hdata).
Defined.

(** X2: the loading flag never sticks: a handler that raises it lowers it again
    on every path; a handler stopped by one of its guards leaves the whole
    state as it was. *)
Theorem loading_is_lowered (w : World) (s : State) (videoId : string) :
  (final_state (run fetchVideos w s) = s
   \/ loading (final_state (run fetchVideos w s)) = false)
  /\ (final_state (run (deleteVideo videoId) w s) = s
      \/ loading (final_state (run (deleteVideo videoId) w s)) = false)
  /\ (final_state (run handleSubmit w s) = s
      \/ loading (final_state (run handleSubmit w s)) = false)
  /\ (final_state (run handleSubmitUrl w s) = s
      \/ loading (final_state (run handleSubmitUrl w s)) = false).
Proof.
  split; [|split; [|split]].
  - destruct (getSupabase w (settings s)) as [[c|]|m0] eqn:Hc.
    + right. rewrite (fetchVideos_run w s c Hc).
      destruct (select_fault w c _) as [[m|]|m]; reflexivity.
    + left. rewrite (fetchVideos_unconfigured w s Hc). reflexivity.
    + left. destruct (data_operations_throw w s m0 videoId f_caption EmptyString Hc)
        as (-> & _ & _). reflexivity.
  - destruct (getSupabase w (settings s)) as [[c|]|m0] eqn:Hc.
    + rewrite (deleteVideo_run w s c videoId Hc).
      destruct (confirm_answer w delete_prompt); [right|left; reflexivity].
      destruct (failure_message _); reflexivity.
    + left. rewrite (deleteVideo_unconfigured w s videoId Hc). reflexivity.
    + left. destruct (data_operations_throw w s m0 videoId f_caption EmptyString Hc)
        as (_ & _ & ->). reflexivity.
  - destruct (Js.truthy (Js.or (n8nGenerateWebhook (settings s))
                               (n8nPostWebhook (settings s)))) eqn:E.
    + right. pose proof (handleSubmit_run w s E) as Hrun. cbv zeta in Hrun.
      destruct (client_failure w s) as [m0|]; [rewrite Hrun; reflexivity|].
      destruct Hrun as (fileUrl & l & _ & Hrun). rewrite Hrun.
      destruct (dispatch_completion w _ _) as [[]|m]; reflexivity.
    + left. destruct (no_endpoint_submit w s E) as [H1 _]. rewrite H1. reflexivity.
  - destruct (Js.truthy (Js.or (n8nGenerateWebhook (settings s))
                               (n8nPostWebhook (settings s)))) eqn:E.
    + rewrite (handleSubmitUrl_run w s E).
      destruct (image_url_missing s); [left; reflexivity|right].
      destruct (dispatch_completion w _ _) as [[]|m]; reflexivity.
    + left. destruct (no_endpoint_submit w s E) as [_ H2]. rewrite H2. reflexivity.
Qed.

(** X3: publishing never touches the local state, and always ends with exactly
    one toast: the success toast when the webhook answers with a success
    status, an error toast in every other case (no endpoint, rejected
    request, other status). *)
Theorem publish_leaves_state (w : World) (s : State) (video : VideoPost) :
  let r := run (handlePostToSocials video) w s in
  let url := Js.or (n8nPostWebhook (settings s)) (n8nGenerateWebhook (settings s)) in
  final_state r = s
  /\ count is_toast (log r) = 1
  /\ count is_success_toast (log r) =
       match post_reply w url (VideoBody video) with
       | Resolved response => if Js.truthy url && ok response then 1 else 0
       | Rejected _ => 0
       end.
Proof.
  intros r url. subst r.
  destruct (Js.truthy url) eqn:E.
  - rewrite (handlePostToSocials_run w s video E). fold url.
    destruct (post_reply w url (VideoBody video)) as [response|m]; [|repeat split].
    destruct (ok response); repeat split.
  - rewrite (no_endpoint_runs w s video E).
    destruct (post_reply w url (VideoBody video)); repeat split.
Qed.

(** ** The upload step in detail *)

Ltac log_facts :=
  repeat
    match goal with
    | H : False |- _ => destruct H
    | H : _ \/ _ |- _ => destruct H
    | H : _ /\ _ |- _ => destruct H
    | H : StorageUpload _ _ _ _ = StorageUpload _ _ _ _ |- _ =>
        injection H as <- <- <- <-
    | H : Some _ = Some _ |- _ => injection H as <-
    | H : @eq Event _ _ |- _ => discriminate H
    | H : @eq (option _) _ _ |- _ => discriminate H
    | H : @eq (Completion _) _ _ |- _ => discriminate H
    | H : @eq bool _ _ |- _ => discriminate H
    end.

Lemma resolve_file_url_log (w : World) (s s' : State) :
  client_failure w s = None ->
  exists fileUrl l,
    run (resolve_file_url s) w s' = (Normal fileUrl, s', l)
    /\ storage_step_spec w s fileUrl l.
Proof.
  unfold client_failure, storage_step_spec, resolve_file_url, upload_wanted,
    upload_to_storage.
  act_unfold.
  destruct (file s) as [f|] eqn:Hf, (filePreview s) as [[|a p]|] eqn:Hp; simpl;
    destruct (getSupabase w (settings s)) as [[c|]|m] eqn:Hc; simpl;
    try discriminate; intros _.
  all: storage_cases.
  all: eexists _, _; split; [reflexivity|].
  all: split; [intros c' b' path' f' Hin; simpl in Hin; log_facts;
                repeat split; auto; intros u Hu; log_facts; reflexivity|].
  all: split; [simpl; unfold count; simpl; lia|].
  all: split; [intros u Hu; log_facts; reflexivity|].
  all: split; [intros Hskip; log_facts; split; reflexivity|].
  all: split; reflexivity.
Qed.

(** The log of [handleSubmit] once an endpoint is configured: the upload
    step, the POST, and the outcome of the dispatch; or, when the storage
    client cannot be made, the error toast alone. *)
Lemma handleSubmit_shape (w : World) (s : State) :
  let url := Js.or (n8nGenerateWebhook (settings s)) (n8nPostWebhook (settings s)) in
  Js.truthy url = true ->
  (exists fileUrl l tail,
    storage_step_spec w s fileUrl l
    /\ log (run handleSubmit w s)
       = l ++ HttpPost url (AdBody (build_payload s fileUrl (now_iso w))) :: tail
    /\ ((tail = [Toast success submitted_message;
                 SetTimeout 2000 SwitchToDashboardAndFetch]
         /\ final_state (run handleSubmit w s)
            = setLoading false (clearForm (setLoading true s)))
        \/ (exists m, tail = [Toast error_toast ("Error: " +:+ m)]
            /\ final_state (run handleSubmit w s)
               = setLoading false (setLoading true s))))
  \/ (exists m,
        upload_wanted s = true /\ getSupabase w (settings s) = Throw m
        /\ run handleSubmit w s =
             (Normal tt, setLoading false (setLoading true s),
              [Toast error_toast ("Error: " +:+ m)])).
Proof.
  intros url Hurl.
  pose proof (handleSubmit_run w s Hurl) as Hrun. cbv zeta in Hrun.
  destruct (client_failure w s) as [m0|] eqn:Hcf.
  { right. exists m0. apply client_failure_Some in Hcf as [Hw Hc]. auto. }
  left. destruct Hrun as (fileUrl & l & Hr & Hrun).
  destruct (resolve_file_url_log w s (setLoading true s) Hcf) as (o & l' & Hr' & Hspec).
  rewrite Hr in Hr'. injection Hr' as <- <-.
  fold url in Hrun.
  destruct (dispatch_completion w url _) as [[]|m] eqn:Hd.
  - exists fileUrl, l, [Toast success submitted_message;
                        SetTimeout 2000 SwitchToDashboardAndFetch].
    rewrite Hrun. split; [exact Hspec|]. split; [reflexivity|]. left. split; reflexivity.
  - exists fileUrl, l, [Toast error_toast ("Error: " +:+ m)].
    rewrite Hrun. split; [exact Hspec|]. split; [reflexivity|]. right.
    exists m. split; reflexivity.
Qed.

(** The payload of the one POST of [handleSubmit]. *)
Lemma posted_payload (w : World) (s : State) (url : string) (p : Payload.t) :
  In (HttpPost url (AdBody p)) (log (run handleSubmit w s)) ->
  exists fileUrl l tail,
    p = build_payload s fileUrl (now_iso w)
    /\ url = Js.or (n8nGenerateWebhook (settings s)) (n8nPostWebhook (settings s))
    /\ Js.truthy url = true
    /\ storage_step_spec w s fileUrl l
    /\ log (run handleSubmit w s) = l ++ HttpPost url (AdBody p) :: tail.
Proof.
  intros Hin.
  destruct (Js.truthy (Js.or (n8nGenerateWebhook (settings s))
                             (n8nPostWebhook (settings s)))) eqn:Hurl.
  - destruct (handleSubmit_shape w s Hurl)
      as [(fileUrl & l & tail & Hspec & Hlog & Htail)|(m0 & _ & _ & Hthrow)];
      [|rewrite Hthrow in Hin; unfold log in Hin; simpl in Hin; log_facts].
    rewrite Hlog in Hin. apply in_app_or in Hin as [Hin|Hin].
    + exfalso. destruct Hspec as (_ & _ & _ & _ & _ & Hev).
      exact (no_post_not_in _ _ _ (storage_events_no_post _ Hev) Hin).
    + assert (Hhead : HttpPost (Js.or (n8nGenerateWebhook (settings s))
                                      (n8nPostWebhook (settings s)))
                        (AdBody (build_payload s fileUrl (now_iso w)))
                      = HttpPost url (AdBody p)).
      { destruct Hin as [Hin|Hin]; [exact Hin|].
        destruct Htail as [[-> _]|(m & -> & _)]; simpl in Hin; log_facts. }
      injection Hhead as <- <-.
      exists fileUrl, l, tail.
      split; [reflexivity|]. split; [reflexivity|]. split; [exact Hurl|].
      split; [exact Hspec | exact Hlog].
  - destruct (no_endpoint_submit w s Hurl) as [H1 _]. rewrite H1 in Hin.
    unfold log in Hin. simpl in Hin. log_facts.
Qed.



Lemma in_submit_log_upload (l tail : list Event) (url : string) (body : Body)
    c b path f :
  tail = [Toast success submitted_message; SetTimeout 2000 SwitchToDashboardAndFetch]
  \/ (exists msg, tail = [Toast error_toast msg]) ->
  In (StorageUpload c b path f) (l ++ HttpPost url body :: tail) ->
  In (StorageUpload c b path f) l.
Proof.
  intros Htail Hin. apply in_app_or in Hin as [Hin|Hin]; [exact Hin|].
  destruct Htail as [->|(msg & ->)]; simpl in Hin; log_facts.
Qed.

Lemma in_submit_log_post (l tail : list Event) (url0 url : string) (body0 body : Body) :
  forallb is_storage_event l = true ->
  tail = [Toast success submitted_message; SetTimeout 2000 SwitchToDashboardAndFetch]
  \/ (exists msg, tail = [Toast error_toast msg]) ->
  In (HttpPost url body) (l ++ HttpPost url0 body0 :: tail) ->
  url = url0 /\ body = body0.
Proof.
  intros Hev Htail Hin. apply in_app_or in Hin as [Hin|Hin].
  - exfalso. exact (no_post_not_in _ _ _ (storage_events_no_post _ Hev) Hin).
  - destruct Hin as [Hin|Hin]; [injection Hin as <- <-; split; reflexivity|].
    destruct Htail as [->|(msg & ->)]; simpl in Hin; log_facts.
Qed.

Lemma submit_tail_cases (s : State) (r : Completion unit * State * list Event)
    (tail : list Event) :
  (tail = [Toast success submitted_message; SetTimeout 2000 SwitchToDashboardAndFetch]
   /\ final_state r = setLoading false (clearForm (setLoading true s)))
  \/ (exists m, tail = [Toast error_toast ("Error: " +:+ m)]
      /\ final_state r = setLoading false (setLoading true s)) ->
  tail = [Toast success submitted_message; SetTimeout 2000 SwitchToDashboardAndFetch]
  \/ (exists msg, tail = [Toast error_toast msg]).
Proof. intros [[-> _]|(m & -> & _)]; [left; reflexivity | right; eauto]. Qed.

(** X5: whatever [handleSubmit] uploads goes to the bucket of the page through
    the configured client, under the key made from the tab, the clock and
    the name of the uploaded file; the file is the chosen one, or, when only
    a preview is left, a file named "uploaded-file", whose key then ends in
    ".uploaded-file".  A [file_url] in the posted payload is the public URL
    of that very key. *)
Theorem uploaded_key_and_url (w : World) (s : State) (c : SupabaseClient)
    (b path : string) (f : File.t) :
  In (StorageUpload c b path f) (log (run handleSubmit w s)) ->
  getSupabase w (settings s) = Normal (Some c)
  /\ b = "ad-files"
  /\ path = file_path (activeTab s) (now w) f
  /\ match file s with
     | Some f0 => f = f0
     | None =>
         File.name f = "uploaded-file"
         /\ path = "ads/" +:+ tab_name (activeTab s) +:+ "_" +:+ pretty (now w)
                     +:+ ".uploaded-file"
     end
  /\ (forall url p u,
        In (HttpPost url (AdBody p)) (log (run handleSubmit w s)) ->
        Payload.file_url p = Some u -> u = publicUrl w c b path).
Proof.
  intros Hin.
  destruct (Js.truthy (Js.or (n8nGenerateWebhook (settings s))
                             (n8nPostWebhook (settings s)))) eqn:Hurl.
  - destruct (handleSubmit_shape w s Hurl)
      as [(fileUrl & l & tail & Hspec & Hlog & Htail)|(m0 & _ & _ & Hthrow)];
      [|rewrite Hthrow in Hin; unfold log in Hin; simpl in Hin; log_facts].
    apply submit_tail_cases in Htail. rewrite Hlog in Hin |- *.
    apply (in_submit_log_upload l tail _ _ c b path f Htail) in Hin.
    destruct Hspec as (Hup & _ & _ & _ & _ & Hev).
    destruct (Hup c b path f Hin) as (Hc & Hb & Hpath & Hfile & Hu).
    split; [exact Hc|]. split; [exact Hb|]. split; [exact Hpath|]. split.
    + destruct (file s) as [f0|]; [exact Hfile|]. split; [exact Hfile|].
      rewrite Hpath. unfold file_path. rewrite Hfile. reflexivity.
    + intros url p u Hpost Hfu.
      destruct (in_submit_log_post l tail _ url _ (AdBody p) Hev Htail Hpost) as [_ Hbody].
      injection Hbody as ->. simpl in Hfu. exact (Hu u Hfu).
  - destruct (no_endpoint_submit w s Hurl) as [H1 _]. rewrite H1 in Hin.
    unfold log in Hin. simpl in Hin. log_facts.
Qed.

(** On the sample data: the chosen file under its own extension, and after
    a remount the rebuilt file under the extension "uploaded-file". *)
Lemma uploaded_key_and_url_witness :
  Sample2.shoe_path = file_path product 1700000000000 Sample2.shoe
  /\ "ads/product_1700000000000.uploaded-file"
     = "ads/" +:+ tab_name (activeTab Sample2.preview_only) +:+ "_"
         +:+ pretty (now Sample.world) +:+ ".uploaded-file".
Proof.
  split.
  - refine (proj1 (proj2 (proj2 (uploaded_key_and_url Sample.world
                                   (Sample.state Sample.configured) Sample.client
                                   "ad-files" Sample2.shoe_path Sample2.shoe _)))).
    vm_compute. left. reflexivity.
  - refine (proj2 (proj1 (proj2 (proj2 (proj2
              (uploaded_key_and_url Sample.world Sample2.preview_only Sample.client
                 "ad-files" "ads/product_1700000000000.uploaded-file"
                 {| File.name := "uploaded-file"; File.type := "image/png" |} _)))))).
    vm_compute. right. left. reflexivity.
Defined.

(** X6: the upload is skipped when there is neither a file nor a preview, and
    when no client is configured: [handleSubmit] then logs no upload, and
    the payload it posts has no [file_url] and carries the preview, if any,
    as [file_base64]. *)
Theorem upload_skipped (w : World) (s : State) :
  (file s = None /\ Js.truthy_opt (filePreview s) = false)
  \/ getSupabase w (settings s) = Normal None ->
  count is_storage_upload (log (run handleSubmit w s)) = 0%nat
  /\ (forall e, In e (log (run handleSubmit w s)) -> is_network_call e = true ->
        is_webhook_post e = true)
  /\ (forall url p,
        In (HttpPost url (AdBody p)) (log (run handleSubmit w s)) ->
        Payload.file_url p = None
        /\ Payload.file_base64 p =
             (if Js.truthy_opt (filePreview s) then filePreview s else None)).
Proof.
  intros Hskip.
  destruct (Js.truthy (Js.or (n8nGenerateWebhook (settings s))
                             (n8nPostWebhook (settings s)))) eqn:Hurl.
  - destruct (handleSubmit_shape w s Hurl)
      as [(fileUrl & l & tail & Hspec & Hlog & Htail)|(m0 & Hw & Hc & _)].
    2:{ exfalso. destruct Hskip as [Hskip|Hskip].
        - apply upload_wanted_false in Hskip. congruence.
        - congruence. }
    apply submit_tail_cases in Htail. rewrite Hlog.
    destruct Hspec as (_ & _ & _ & Hnone & _ & Hev).
    destruct (Hnone Hskip) as [-> ->]. simpl. split; [|split].
    + destruct Htail as [->|(msg & ->)]; reflexivity.
    + intros e Hin Hnet. destruct Htail as [->|(msg & ->)]; simpl in Hin;
        repeat (destruct Hin as [<-|Hin]);
        first [reflexivity | discriminate Hnet | contradiction].
    + intros url p Hpost.
      destruct (in_submit_log_post [] tail _ url _ (AdBody p) eq_refl Htail Hpost)
        as [_ Hbody].
      injection Hbody as ->. split; reflexivity.
  - destruct (no_endpoint_submit w s Hurl) as [H1 _]. rewrite H1.
    split; [reflexivity|]. split.
    + intros e Hin Hnet. unfold log in Hin. simpl in Hin.
      destruct Hin as [<-|[]]. discriminate Hnet.
    + intros url p Hin. unfold log in Hin. simpl in Hin. log_facts.
Qed.

(** On the sample data, with the settings that lack the backend URL. *)
Lemma upload_skipped_witness :
  count is_storage_upload
    (log (run handleSubmit Sample.world (Sample.state Sample.unconfigured))) = 0%nat
  /\ Payload.file_url Sample.fallback_payload = None.
Proof.
  pose proof (upload_skipped Sample.world (Sample.state Sample.unconfigured)
                (or_intror eq_refl)) as (Hcount & _ & Hpay).
  split; [exact Hcount|].
  refine (proj1 (Hpay "https://n8n.example/generate" Sample.fallback_payload _)).
  vm_compute. left. reflexivity.
Defined.

Lemma or_nonempty (a b : string) : b <> EmptyString -> Js.or a b <> EmptyString.
Proof. unfold Js.or. destruct a; simpl; [auto | discriminate]. Qed.

Lemma or_choice (a b : string) : Js.or a b = a \/ Js.or a b = b.
Proof. unfold Js.or. destruct (Js.truthy a); auto. Qed.

Lemma or_null_nonempty (a : string) : Js.or_null a <> Some EmptyString.
Proof. unfold Js.or_null. destruct a; simpl; discriminate. Qed.

(** X7: every payload that [handleSubmit] posts is filled in: the title, the
    file name and the file type are never empty (defaults step in), an
    empty product name or description is sent as null and never as the
    empty string, and so is an empty preview; the caption and the prompt
    text are both the prompt, and the type is the active tab. *)
Theorem payload_well_formed (w : World) (s : State) (url : string) (p : Payload.t) :
  In (HttpPost url (AdBody p)) (log (run handleSubmit w s)) ->
  Payload.post_title p <> EmptyString
  /\ Payload.file_name p <> EmptyString
  /\ Payload.file_type p <> EmptyString
  /\ Payload.product_name p <> Some EmptyString
  /\ Payload.product_description p <> Some EmptyString
  /\ Payload.file_base64 p <> Some EmptyString
  /\ Payload.caption p = prompt s
  /\ Payload.prompt_text p = prompt s
  /\ Payload.type p = tab_name (activeTab s)
  /\ Payload.aspect_ratio p = ratio_name (aspectRatio s)
  /\ Payload.timestamp p = now_iso w
  /\ Payload.source p = "adgen_studio".
Proof.
  intros Hin. destruct (posted_payload w s url p Hin) as (fileUrl & l & tail & -> & _).
  simpl. repeat split.
  - destruct (activeTab s); [discriminate | |]; apply or_nonempty; discriminate.
  - apply or_nonempty. discriminate.
  - apply or_nonempty. destruct (filePreview s) as [pv|]; simpl; [|discriminate].
    match goal with
    | |- (if ?b then _ else _) <> _ => destruct b; discriminate
    end.
  - apply or_null_nonempty.
  - apply or_null_nonempty.
  - destruct (negb _ && Js.truthy_opt (filePreview s)) eqn:E; [|discriminate].
    apply andb_true_iff in E as [_ E]. intros Hp. rewrite Hp in E. discriminate.
Qed.

(** On the sample data, where the description is empty. *)
Lemma payload_well_formed_witness :
  Payload.product_description Sample.uploaded_payload <> Some EmptyString
  /\ Payload.post_title Sample.uploaded_payload <> EmptyString.
Proof.
  assert (Hin : In (HttpPost "https://n8n.example/generate" (AdBody Sample.uploaded_payload))
                   (log (run handleSubmit Sample.world (Sample.state Sample.configured))))
    by (vm_compute; right; left; reflexivity).
  pose proof (payload_well_formed Sample.world (Sample.state Sample.configured)
                "https://n8n.example/generate" Sample.uploaded_payload Hin)
    as (Htitle & _ & _ & _ & Hdesc & _).
  split; [exact Hdesc | exact Htitle].
Defined.


(** ** Where the calls go *)

Lemma endpoint_target (w : World) (st : AppSettings) (a b : string) (body : Body) :
  (a = n8nGenerateWebhook st /\ b = n8nPostWebhook st)
  \/ (a = n8nPostWebhook st /\ b = n8nGenerateWebhook st) ->
  Js.truthy (Js.or a b) = true ->
  targets_settings w st (HttpPost (Js.or a b) body).
Proof.
  intros Hab Ht. simpl. split; [apply truthy_true_iff, Ht|].
  destruct (or_choice a b) as [-> | ->]; destruct Hab as [[-> ->]|[-> ->]]; auto.
Qed.

Lemma updateVideoField_calls (w : World) (s : State) videoId field value :
  calls_within w (settings s) 1 (log (run (updateVideoField videoId field value) w s)).
Proof.
  destruct (getSupabase w (settings s)) as [[c|]|m0] eqn:Hc.
  - rewrite (updateVideoField_run w s c videoId field value Hc).
    destruct (failure_message _); split; simpl; try lia;
      repeat constructor; simpl; auto.
  - rewrite (updateVideoField_unconfigured w s videoId field value Hc).
    split; [constructor | simpl; lia].
  - destruct (data_operations_throw w s m0 videoId field value Hc) as (_ & -> & _).
    split; [constructor | simpl; lia].
Qed.

(** X4: no handler retries and none talks to anything but what the settings
    name: every data call and every upload goes through the client made
    from the configured URL and key, to the configured table or to the
    bucket "ad-files"; every webhook request goes to one of the two
    configured endpoints, never to an empty one; each handler issues at most
    one network call, [handleSubmit] at most two (one upload, one POST). *)
Theorem calls_follow_settings (w : World) (s : State) (video : VideoPost)
    (videoId : string) (field : Field) (value : string) :
  calls_within w (settings s) 1 (log (run fetchVideos w s))
  /\ calls_within w (settings s) 1 (log (run (handlePostToSocials video) w s))
  /\ calls_within w (settings s) 1 (log (run (updateVideoField videoId field value) w s))
  /\ calls_within w (settings s) 1 (log (run (deleteVideo videoId) w s))
  /\ calls_within w (settings s) 1 (log (run (handleFieldBlur videoId field) w s))
  /\ calls_within w (settings s) 2 (log (run handleSubmit w s))
  /\ calls_within w (settings s) 1 (log (run handleSubmitUrl w s)).
Proof.
  split; [|split; [|split; [|split; [|split; [|split]]]]].
  - destruct (getSupabase w (settings s)) as [[c|]|m0] eqn:Hc.
    + rewrite (fetchVideos_run w s c Hc).
      destruct (select_fault w c _) as [[m|]|m]; simpl;
        try destruct (0 <? length _)%nat;
        split; simpl; try lia; repeat constructor; simpl; auto.
    + rewrite (fetchVideos_unconfigured w s Hc).
      split; simpl; try lia; repeat constructor.
    + destruct (data_operations_throw w s m0 videoId field value Hc) as (-> & _ & _).
      split; [constructor | simpl; lia].
  - destruct (Js.truthy (Js.or (n8nPostWebhook (settings s))
                               (n8nGenerateWebhook (settings s)))) eqn:E.
    + rewrite (handlePostToSocials_run w s video E). split.
      * constructor; [apply endpoint_target; auto|].
        constructor; [|constructor].
        destruct (post_reply w _ _) as [r|m]; [destruct (ok r)|]; exact I.
      * unfold log. simpl.
        destruct (post_reply w _ _) as [r|m]; [destruct (ok r)|]; simpl; lia.
    + rewrite (no_endpoint_runs w s video E).
      split; simpl; try lia; repeat constructor.
  - apply updateVideoField_calls.
  - destruct (getSupabase w (settings s)) as [[c|]|m0] eqn:Hc.
    + rewrite (deleteVideo_run w s c videoId Hc).
      destruct (confirm_answer w delete_prompt); [destruct (failure_message _)|];
        split; simpl; try lia; repeat constructor; simpl; auto.
    + rewrite (deleteVideo_unconfigured w s videoId Hc).
      split; simpl; try lia; repeat constructor.
    + destruct (data_operations_throw w s m0 videoId field value Hc) as (_ & _ & ->).
      split; [constructor | simpl; lia].
  - rewrite handleFieldBlur_run.
    destruct (edited_value _ _ _) as [e|]; [|split; [constructor | simpl; lia]].
    destruct (find_video _ _) as [cur|]; [|split; [constructor | simpl; lia]].
    destruct (String.eqb e _); [split; [constructor | simpl; lia]|].
    apply updateVideoField_calls.
  - destruct (Js.truthy (Js.or (n8nGenerateWebhook (settings s))
                               (n8nPostWebhook (settings s)))) eqn:E.
    + destruct (handleSubmit_shape w s E)
        as [(fileUrl & l & tail & Hspec & Hlog & Htail)|(m0 & _ & _ & Hthrow)];
        [|rewrite Hthrow; split; simpl; try lia; repeat constructor].
      apply submit_tail_cases in Htail. rewrite Hlog.
      destruct Hspec as (Hup & Hle & _ & _ & Hnet & Hev). split.
      * apply Forall_app. split.
        -- apply List.Forall_forall. intros e Hin.
           pose proof (proj1 (forallb_forall _ _) Hev e Hin) as He.
           destruct e; simpl in He; try discriminate He; try exact I.
           destruct (Hup _ _ _ _ Hin) as (Hc & Hb & _). simpl. auto.
        -- constructor; [apply endpoint_target; auto|].
           destruct Htail as [->|(msg & ->)]; repeat constructor.
      * unfold network_calls in *. rewrite List.filter_app, length_app, Hnet.
        unfold count in Hle.
        destruct Htail as [->|(msg & ->)]; simpl; lia.
    + destruct (no_endpoint_submit w s E) as [H1 _]. rewrite H1.
      split; simpl; try lia; repeat constructor.
  - destruct (Js.truthy (Js.or (n8nGenerateWebhook (settings s))
                               (n8nPostWebhook (settings s)))) eqn:E.
    + rewrite (handleSubmitUrl_run w s E).
      destruct (image_url_missing s);
        [split; simpl; try lia; repeat constructor|].
      destruct (dispatch_completion w _ _) as [[]|m]; split; simpl; try lia.
      all: constructor; [apply endpoint_target; auto | repeat constructor].
    + destruct (no_endpoint_submit w s E) as [_ H2]. rewrite H2.
      split; simpl; try lia; repeat constructor.
Qed.

(** ** More on the feed *)

(** X10: a successful [fetchVideos] replaces the feed by the rows of the table,
    whatever it held before, and reports their number in one success toast;
    on an empty table the feed becomes empty and no toast is shown at all.
    When the select fails in any way the old feed stays and one error toast
    is shown. *)
Theorem fetch_replaces_feed (w : World) (s : State) (c : SupabaseClient) :
  let table := tableName (settings s) in
  let rows := table_rows w c table in
  let r := run fetchVideos w s in
  getSupabase w (settings s) = Normal (Some c) ->
  match select_fault w c table with
  | Resolved None =>
      length (videos (final_state r)) = length rows
      /\ (forall v, In v (videos (final_state r)) <-> In v rows)
      /\ filter is_toast (log r) =
           match rows with
           | [] => []
           | _ => [Toast success ("Loaded " +:+ pretty (length rows) +:+ " video(s)")]
           end
  | _ =>
      videos (final_state r) = videos s
      /\ count is_error_toast (log r) = 1%nat /\ count is_toast (log r) = 1%nat
  end.
Proof.
  intros table rows r Hc. subst r. rewrite (fetchVideos_run w s c Hc). fold table.
  destruct (select_fault w c table) as [[m|]|m]; [repeat split| |repeat split].
  fold rows.
  pose proof (merge_sort_Permutation (row_le w false) rows) as Hperm.
  assert (Hlen : length (merge_sort (row_le w false) rows) = length rows)
    by (apply Permutation_length, Hperm).
  unfold final_state, log. simpl. split; [exact Hlen|]. split.
  - intros v. split; intros Hin.
    + apply (Permutation_in v Hperm Hin).
    + apply (Permutation_in v (Permutation_sym Hperm) Hin).
  - rewrite Hlen. destruct rows; reflexivity.
Qed.

(** On the sample data: three rows, and a backend with an empty table. *)
Lemma fetch_replaces_feed_witness :
  length (videos (final_state (run fetchVideos Sample.world
                                 (Sample.state Sample.configured)))) = 3%nat
  /\ filter is_toast (log (run fetchVideos Sample2.empty_world
                             (Sample.state Sample.configured))) = []
  /\ videos (final_state (run fetchVideos Sample.failing_world
                            (Sample.state Sample.configured))) = Sample.feed.
Proof.
  split; [|split].
  - exact (proj1 (fetch_replaces_feed Sample.world (Sample.state Sample.configured)
                    Sample.client eq_refl)).
  - exact (proj2 (proj2 (fetch_replaces_feed Sample2.empty_world
                           (Sample.state Sample.configured) Sample.client eq_refl))).
  - exact (proj1 (fetch_replaces_feed Sample.failing_world
                    (Sample.state Sample.configured) Sample.client eq_refl)).
Defined.

Lemma patch_videos_ids (videoId : string) (field : Field) (value : string)
    (l : list VideoPost) :
  List.map id (patch_videos videoId field value l) = List.map id l.
Proof.
  unfold patch_videos. rewrite List.map_map. apply List.map_ext.
  intros v. destruct (String.eqb (id v) videoId); [destruct field|]; reflexivity.
Qed.

Lemma remove_video_ids (videoId : string) (l : list VideoPost) :
  List.map id (remove_video videoId l)
  = List.filter (fun i => negb (String.eqb i videoId)) (List.map id l).
Proof.
  unfold remove_video. induction l as [|v l IH]; [reflexivity|].
  simpl. destruct (String.eqb (id v) videoId); simpl; rewrite IH; reflexivity.
Qed.

Lemma NoDup_filter_ids (p : string -> bool) (l : list string) :
  NoDup l -> NoDup (List.filter p l).
Proof.
  rewrite !NoDup_ListNoDup. apply List.NoDup_filter.
Qed.

(** X11: identifiers are never edited locally: [updateVideoField] and
    [handleFieldBlur] leave the sequence of identifiers of the feed as it
    was, whatever the backend answers, and [deleteVideo] only drops the
    identifier it was given.  In particular a feed without duplicate
    identifiers stays so. *)
Theorem identifiers_are_kept (w : World) (s : State) (videoId : string)
    (field : Field) (value : string) :
  feed_ids (run (updateVideoField videoId field value) w s) = List.map id (videos s)
  /\ feed_ids (run (handleFieldBlur videoId field) w s) = List.map id (videos s)
  /\ (feed_ids (run (deleteVideo videoId) w s) = List.map id (videos s)
      \/ feed_ids (run (deleteVideo videoId) w s)
         = List.filter (fun i => negb (String.eqb i videoId)) (List.map id (videos s)))
  /\ (NoDup (List.map id (videos s)) ->
      NoDup (feed_ids (run (updateVideoField videoId field value) w s))
      /\ NoDup (feed_ids (run (handleFieldBlur videoId field) w s))
      /\ NoDup (feed_ids (run (deleteVideo videoId) w s))).
Proof.
  assert (Hupd : forall value', feed_ids (run (updateVideoField videoId field value') w s)
                                = List.map id (videos s)).
  { intros value'. unfold feed_ids.
    destruct (getSupabase w (settings s)) as [[c|]|m0] eqn:Hc.
    - rewrite (updateVideoField_run w s c videoId field value' Hc).
      destruct (failure_message _); [reflexivity|].
      unfold final_state. simpl. apply patch_videos_ids.
    - rewrite (updateVideoField_unconfigured w s videoId field value' Hc). reflexivity.
    - destruct (data_operations_throw w s m0 videoId field value' Hc) as (_ & -> & _).
      reflexivity. }
  assert (Hblur : feed_ids (run (handleFieldBlur videoId field) w s)
                  = List.map id (videos s)).
  { unfold feed_ids. rewrite handleFieldBlur_run.
    destruct (edited_value _ _ _) as [e|]; [|reflexivity].
    destruct (find_video _ _) as [cur|]; [|reflexivity].
    destruct (String.eqb e _); [reflexivity|]. apply Hupd. }
  assert (Hdel : feed_ids (run (deleteVideo videoId) w s) = List.map id (videos s)
                 \/ feed_ids (run (deleteVideo videoId) w s)
                    = List.filter (fun i => negb (String.eqb i videoId))
                        (List.map id (videos s))).
  { unfold feed_ids. destruct (getSupabase w (settings s)) as [[c|]|m0] eqn:Hc.
    - rewrite (deleteVideo_run w s c videoId Hc).
      destruct (confirm_answer w delete_prompt); [|left; reflexivity].
      destruct (failure_message _); [left; reflexivity|right].
      unfold final_state. simpl. apply remove_video_ids.
    - left. rewrite (deleteVideo_unconfigured w s videoId Hc). reflexivity.
    - left. destruct (data_operations_throw w s m0 videoId field value Hc) as (_ & _ & ->).
      reflexivity. }
  split; [apply Hupd|]. split; [exact Hblur|]. split; [exact Hdel|].
  intros Hnd. rewrite Hupd, Hblur. split; [exact Hnd|]. split; [exact Hnd|].
  destruct Hdel as [-> | ->]; [exact Hnd | apply NoDup_filter_ids, Hnd].
Qed.

(** On the sample feed 3, 2, 1. *)
Lemma identifiers_are_kept_witness :
  NoDup (feed_ids (run (deleteVideo "2") Sample.world (Sample.state Sample.configured))).
Proof.
  refine (proj2 (proj2 (proj2 (proj2 (proj2 (identifiers_are_kept Sample.world
            (Sample.state Sample.configured) "2" f_post_title "Renamed"))) _))).
  apply (bool_decide_unpack _). vm_compute. reflexivity.
Defined.

(** X12: looking a row up after a local patch or removal: the patch of [videoId]
    changes what is found under that identifier only, and finds a row
    exactly where one was found before; the removal makes [videoId]
    unfindable and leaves every other lookup as it was. *)
Theorem find_after_patch_and_removal (l : list VideoPost) (videoId : string)
    (field : Field) (value : string) (i : string) :
  find_video i (patch_videos videoId field value l)
    = (if String.eqb i videoId then set_field field value <$> find_video i l
       else find_video i l)
  /\ find_video i (remove_video videoId l)
     = (if String.eqb i videoId then None else find_video i l).
Proof.
  unfold find_video, patch_videos, remove_video. split.
  - induction l as [|v l IH]; simpl; [destruct (String.eqb i videoId); reflexivity|].
    destruct (String.eqb (id v) videoId) eqn:Ev.
    + assert (Hid : id (set_field field value v) = id v) by (destruct field; reflexivity).
      rewrite Hid. destruct (String.eqb (id v) i) eqn:Ei.
      * apply String.eqb_eq in Ev, Ei. subst. rewrite String.eqb_refl. reflexivity.
      * exact IH.
    + destruct (String.eqb (id v) i) eqn:Ei; [|exact IH].
      apply String.eqb_eq in Ei. subst i. rewrite Ev. reflexivity.
  - induction l as [|v l IH]; simpl; [destruct (String.eqb i videoId); reflexivity|].
    destruct (String.eqb (id v) videoId) eqn:Ev; simpl.
    + rewrite IH. destruct (String.eqb i videoId) eqn:Ei; [reflexivity|].
      destruct (String.eqb (id v) i) eqn:Evi; [|reflexivity].
      apply String.eqb_eq in Ev, Evi. subst. rewrite String.eqb_refl in Ei. discriminate.
    + destruct (String.eqb (id v) i) eqn:Evi.
      * apply String.eqb_eq in Evi. subst i. rewrite Ev. reflexivity.
      * exact IH.
Qed.

(** ** The edit buffer *)

(** X13: typing into a field of a row buffers exactly that edit: afterwards the
    buffer holds the typed value for that field of that row and, for every
    other field and row, what it held before (an edit of the title keeps a
    pending edit of the caption); the input shows the typed value; nothing
    is sent and the feed is untouched. *)
Theorem typing_buffers_one_field (w : World) (s : State) (videoId : string)
    (field : Field) (value : string) :
  let r := run (handleFieldChange videoId field value) w s in
  let s1 := final_state r in
  (forall i f,
     edited_value (editingFields s1) i f
     = if String.eqb i videoId && field_eqb f field then Some value
       else edited_value (editingFields s) i f)
  /\ (forall v f,
        display_value (editingFields s1) f v
        = if String.eqb (id v) videoId && field_eqb f field then value
          else display_value (editingFields s) f v)
  /\ log r = [] /\ videos s1 = videos s /\ settings s1 = settings s.
Proof.
  intros r s1.
  assert (He : forall i f,
     edited_value (editingFields s1) i f
     = if String.eqb i videoId && field_eqb f field then Some value
       else edited_value (editingFields s) i f).
  { intros i f. subst s1 r. unfold handleFieldChange, edited_value. act_unfold. simpl.
    destruct (String.eqb i videoId) eqn:Ei.
    - apply String.eqb_eq in Ei. subst i. rewrite lookup_insert_eq.
      destruct (editingFields s !! videoId) as [b|]; destruct f, field; reflexivity.
    - apply String.eqb_neq in Ei. rewrite lookup_insert_ne by congruence. reflexivity. }
  split; [exact He|]. split; [|repeat split].
  intros v f. unfold display_value. rewrite He.
  destruct (String.eqb (id v) videoId && field_eqb f field); reflexivity.
Qed.

(** ** Files and drafts *)

(** A render of [Index] leaves the views as their mount does: an empty
    edit buffer, and the form as [mountCreateVideoView] leaves it. *)
Lemma remount_mounts (w : World) (s : State) :
  remount s = setEditingFields (fun _ => ∅) (final_state (run mountCreateVideoView w s)).
Proof.
  unfold mountCreateVideoView, loadDraftEffect, remount. act_unfold. simpl.
  destruct (ls_createAdFormData s) eqn:E;
    unfold setEditingFields, restoreDraft, resetCreateView; simpl; rewrite E; reflexivity.
Qed.

(** A second render in a row changes nothing, and the cells of [Index] and
    localStorage are not touched by a render. *)
Lemma remount_idem (s : State) :
  remount (remount s) = remount s
  /\ activeView (remount s) = activeView s /\ videos (remount s) = videos s
  /\ loading (remount s) = loading s /\ settings (remount s) = settings s
  /\ ls_appSettings (remount s) = ls_appSettings s
  /\ ls_createAdFormData (remount s) = ls_createAdFormData s.
Proof. repeat split. Qed.

Lemma or_empty_r (a : string) : Js.or a EmptyString = a.
Proof. destruct a; reflexivity. Qed.

(** X14: clearing the file input clears the preview with it, at once; a
    submission made next skips the upload and posts a payload with neither
    [file_url] nor [file_base64], under the default file name and type. *)
Theorem clearing_file_skips_upload (w : World) (s : State) :
  let s1 := final_state (run (handleFileChange None) w s) in
  file s1 = None /\ filePreview s1 = None
  /\ log (run (handleFileChange None) w s) = []
  /\ count is_storage_upload (log (run handleSubmit w s1)) = 0%nat
  /\ (forall url p,
        In (HttpPost url (AdBody p)) (log (run handleSubmit w s1)) ->
        Payload.file_url p = None /\ Payload.file_base64 p = None
        /\ Payload.file_name p = "uploaded-file"
        /\ Payload.file_type p = "application/octet-stream").
Proof.
  intros s1.
  assert (Hf : file s1 = None) by reflexivity.
  assert (Hp : filePreview s1 = None) by reflexivity.
  split; [exact Hf|]. split; [exact Hp|]. split; [reflexivity|].
  assert (Hskip : (file s1 = None /\ Js.truthy_opt (filePreview s1) = false)
                  \/ getSupabase w (settings s1) = Normal None)
    by (left; split; [exact Hf | rewrite Hp; reflexivity]).
  destruct (Js.truthy (Js.or (n8nGenerateWebhook (settings s1))
                             (n8nPostWebhook (settings s1)))) eqn:Hurl.
  - destruct (handleSubmit_shape w s1 Hurl)
      as [(fileUrl & l & tail & Hspec & Hlog & Htail)|(m0 & Hw & _ & _)];
      [|discriminate Hw].
    apply submit_tail_cases in Htail. rewrite Hlog.
    destruct Hspec as (_ & _ & _ & Hnone & _ & _).
    destruct (Hnone Hskip) as [-> ->]. simpl. split.
    + destruct Htail as [->|(msg & ->)]; reflexivity.
    + intros url p Hpost.
      destruct (in_submit_log_post [] tail _ url _ (AdBody p) eq_refl Htail Hpost)
        as [_ Hbody].
      injection Hbody as ->. repeat split.
  - destruct (no_endpoint_submit w s1 Hurl) as [H1 _]. rewrite H1.
    split; [reflexivity|].
    intros url p Hin. unfold log in Hin. simpl in Hin. log_facts.
Qed.

(** On the sample data, after the file was cleared. *)
Lemma clearing_file_skips_upload_witness :
  Payload.file_url
    (build_payload (setFilePreview None (setFile None (Sample.state Sample.configured)))
       None "2023-11-14T22:13:20.000Z") = None.
Proof.
  refine (proj1 ((proj2 (proj2 (proj2 (proj2
            (clearing_file_skips_upload Sample.world (Sample.state Sample.configured))))))
            "https://n8n.example/generate" _ _)).
  vm_compute. left. reflexivity.
Defined.

(** On the sample data: after a submission the form on screen is a fresh
    one, on its first tab and without the [File]; blank after a success,
    and holding the stored draft after a failure. *)
Example sample_form_after_submission :
  let drafted := final_state (run persistDraftEffect Sample.world
                                (Sample.state Sample.configured)) in
  let done := final_state (run handleSubmit Sample.world drafted) in
  let failed := final_state (run handleSubmit Sample.failing_world drafted) in
  (activeTab done, file done, prompt done, productName done, filePreview done)
    = (reels, None, EmptyString, EmptyString, None)
  /\ (activeTab failed, file failed, prompt failed, productName failed, filePreview failed)
     = (reels, None, "A summer sale clip", "Shoe", Some "data:image/png;base64,AAAA").
Proof. split; reflexivity. Qed.

(** X15: the draft survives a remount of the form through localStorage: after
    the persist effect, a freshly mounted form shows the prompt, the product
    name and description, the aspect ratio and the preview again.  The
    chosen [File] does not survive, and the tab is back on the first one;
    a form mounted with nothing stored is blank. *)
Theorem draft_survives_remount (w : World) (s : State) :
  let s1 := final_state (run persistDraftEffect w s) in
  let s2 := final_state (run mountCreateVideoView w s1) in
  let s0 := final_state (run mountCreateVideoView w (storeDraft None s)) in
  prompt s2 = prompt s
  /\ productName s2 = productName s
  /\ productDescription s2 = productDescription s
  /\ aspectRatio s2 = aspectRatio s
  /\ filePreview s2 = (if Js.truthy_opt (filePreview s) then filePreview s else None)
  /\ file s2 = None
  /\ activeTab s2 = reels
  /\ videos s2 = videos s /\ settings s2 = settings s
  /\ prompt s0 = EmptyString /\ productName s0 = EmptyString
  /\ productDescription s0 = EmptyString /\ aspectRatio s0 = Portrait
  /\ file s0 = None /\ filePreview s0 = None.
Proof.
  intros s1 s2 s0. subst s0 s2 s1.
  unfold mountCreateVideoView, loadDraftEffect, persistDraftEffect. act_unfold. simpl.
  rewrite !or_empty_r. repeat split.
Qed.

(** ** Settings and effects *)

(** Saved settings survive a reload: [handleSave] puts them in the state and
    in localStorage without any validation and confirms with a toast; on a
    freshly loaded page the first effect brings them back.  With nothing
    saved the page starts from the defaults, for which no client is made. *)
Lemma settings_survive_reload (w : World) (s : State) (st : AppSettings)
    (draft : option FormData) :
  let saved := run (handleSave st) w s in
  let reloaded :=
    run loadSettingsEffect w
      (page_load (ls_appSettings (final_state saved))
                 (ls_createAdFormData (final_state saved))) in
  let fresh := run loadSettingsEffect w (page_load None draft) in
  settings (final_state saved) = st
  /\ log saved = [Toast success "Settings saved successfully!"]
  /\ settings (final_state reloaded) = st
  /\ log reloaded = []
  /\ settings (final_state fresh) = default_settings
  /\ getSupabase w (settings (final_state fresh)) = Normal None.
Proof. repeat split. Qed.

(** The guard of the dashboard effect is the guard of [getSupabase]. *)
Lemma getSupabase_guard (w : World) (st : AppSettings) :
  Js.truthy (supabaseUrl st) && Js.truthy (supabaseKey st)
  = match getSupabase w st with Normal None => false | _ => true end.
Proof.
  unfold getSupabase.
  destruct (Js.truthy (supabaseUrl st)), (Js.truthy (supabaseKey st)); try reflexivity.
  simpl. destruct (createClient w _ _); reflexivity.
Qed.

Lemma fetchVideos_view (w : World) (s : State) (v : View) :
  log (run fetchVideos w (setActiveView v s)) = log (run fetchVideos w s)
  /\ videos (final_state (run fetchVideos w (setActiveView v s)))
     = videos (final_state (run fetchVideos w s))
  /\ activeView (final_state (run fetchVideos w (setActiveView v s))) = v.
Proof.
  destruct (getSupabase w (settings s)) as [[c|]|m0] eqn:Hc.
  - rewrite (fetchVideos_run w s c Hc), (fetchVideos_run w (setActiveView v s) c Hc).
    simpl. destruct (select_fault w c _) as [[m|]|m]; repeat split.
  - rewrite (fetchVideos_unconfigured w s Hc),
      (fetchVideos_unconfigured w (setActiveView v s) Hc). repeat split.
  - destruct (data_operations_throw w s m0 EmptyString f_caption EmptyString Hc)
      as (-> & _ & _).
    destruct (data_operations_throw w (setActiveView v s) m0 EmptyString f_caption
                EmptyString Hc) as (-> & _ & _).
    repeat split.
Qed.

(** X16: the effect of the dashboard and [fetchVideos] agree on what
    "configured" means: the effect calls [fetchVideos] exactly when the
    dashboard is shown and both the URL and the key are set, so the fetch
    it starts never takes the "not configured" branch; otherwise the effect
    does nothing.  When the URL and the key are set but [createClient]
    throws, the fetch started by the effect ends with that exception,
    unhandled: nothing is shown, sent or changed.  The timer set by a
    successful submission ends on the dashboard and runs the same fetch. *)
Theorem dashboard_effect_guard (w : World) (s : State) (cb : TimerCallback) :
  run dashboardEffect w s =
    match getSupabase w (settings s), activeView s with
    | Normal None, _ => (Normal tt, s, [])
    | _, dashboard => run fetchVideos w s
    | _, _ => (Normal tt, s, [])
    end
  /\ (getSupabase w (settings s) = Normal None -> log (run dashboardEffect w s) = [])
  /\ (forall m, getSupabase w (settings s) = Throw m -> activeView s = dashboard ->
        run dashboardEffect w s = (Throw m, s, []))
  /\ activeView (final_state (run (timerCallback cb) w s)) = dashboard
  /\ log (run (timerCallback cb) w s) = log (run fetchVideos w s)
  /\ videos (final_state (run (timerCallback cb) w s))
     = videos (final_state (run fetchVideos w s)).
Proof.
  assert (Hrun : run dashboardEffect w s =
    match getSupabase w (settings s), activeView s with
    | Normal None, _ => (Normal tt, s, [])
    | _, dashboard => run fetchVideos w s
    | _, _ => (Normal tt, s, [])
    end).
  { unfold dashboardEffect, run, mbind, Act_bind, get_state.
    lazy beta iota zeta. rewrite (getSupabase_guard w).
    destruct (getSupabase w (settings s)) as [[c|]|m0]; [| reflexivity |];
      (destruct (activeView s); simpl; try reflexivity;
       destruct (fetchVideos w s) as [[r s'] l]; reflexivity). }
  split; [exact Hrun|]. split; [intros Hc; rewrite Hrun, Hc; reflexivity|]. split.
  { intros m Hc Hv. rewrite Hrun, Hc, Hv.
    exact (proj1 (data_operations_throw w s m EmptyString f_caption EmptyString Hc)). }
  destruct cb. destruct (fetchVideos_view w s dashboard) as (Hl & Hv & Ha).
  unfold timerCallback, run, mbind, Act_bind, modify in *. lazy beta iota zeta.
  destruct (fetchVideos w (setActiveView dashboard s)) as [[[[]|m0] s'] l];
    unfold final_state, log in *; simpl in *; auto.
Qed.

(** On the sample data, with the settings that lack the backend URL and
    with those whose URL lacks its scheme. *)
Lemma dashboard_effect_guard_witness :
  log (run dashboardEffect Sample.world (Sample.state Sample.unconfigured)) = []
  /\ run dashboardEffect Sample.world (Sample.state Sample.malformed)
     = (Throw Sample.invalid_url_message, Sample.state Sample.malformed, []).
Proof.
  split.
  - exact (proj1 (proj2 (dashboard_effect_guard Sample.world
                           (Sample.state Sample.unconfigured)
                           SwitchToDashboardAndFetch)) eq_refl).
  - exact (proj1 (proj2 (proj2 (dashboard_effect_guard Sample.world
                                  (Sample.state Sample.malformed)
                                  SwitchToDashboardAndFetch)))
             Sample.invalid_url_message eq_refl eq_refl).
Defined.

(** ** Storage keys *)

Lemma includes_dot_cons (c : ascii) (s : string) :
  Js.includes "." (String c s) = Ascii.eqb "." c || Js.includes "." s.
Proof.
  change (Js.includes "." (String c s))
    with ((if Ascii.eqb "." c then Js.startsWith EmptyString s else false)
          || Js.includes "." s).
  destruct (Ascii.eqb "." c); [destruct s|]; reflexivity.
Qed.

Lemma includes_dot_app (a b : string) : Js.includes "." (a +:+ "." +:+ b) = true.
Proof. apply includes_spec. exists a, b. reflexivity. Qed.

Lemma split_pop_dot_free (name : string) :
  dot_free name = true -> Js.split_pop "." name = name.
Proof.
  unfold dot_free. destruct name as [|c s]; [reflexivity|].
  rewrite includes_dot_cons, negb_true_iff, orb_false_iff. intros [Hc Hs].
  change (Js.split_pop "." (String c s))
    with (if Ascii.eqb c "." then Js.split_pop "." s
          else if Js.includes "." s then Js.split_pop "." s else String c s).
  rewrite Ascii.eqb_sym, Hc, Hs. reflexivity.
Qed.

Lemma split_pop_last (stem ext : string) :
  dot_free ext = true -> Js.split_pop "." (stem +:+ "." +:+ ext) = ext.
Proof.
  intros Hext. induction stem as [|c stem IH].
  - change (Js.split_pop "." ext = ext). apply split_pop_dot_free, Hext.
  - change ((if Ascii.eqb c "." then Js.split_pop "." (stem +:+ "." +:+ ext)
             else if Js.includes "." (stem +:+ "." +:+ ext)
                  then Js.split_pop "." (stem +:+ "." +:+ ext)
                  else String c (stem +:+ "." +:+ ext)) = ext).
    rewrite includes_dot_app. destruct (Ascii.eqb c "."); exact IH.
Qed.

Lemma split_pop_no_dot (name : string) : dot_free (Js.split_pop "." name) = true.
Proof.
  induction name as [|c s IH]; [reflexivity|].
  change (Js.split_pop "." (String c s))
    with (if Ascii.eqb c "." then Js.split_pop "." s
          else if Js.includes "." s then Js.split_pop "." s else String c s).
  destruct (Ascii.eqb c ".") eqn:Ec; [exact IH|].
  destruct (Js.includes "." s) eqn:Hs; [exact IH|].
  unfold dot_free. rewrite includes_dot_cons, Ascii.eqb_sym, Ec, Hs. reflexivity.
Qed.

(** X17: the storage key of an upload is "ads/", the tab, the clock and, after
    one more dot, the text after the last dot of the file name, so the key
    keeps the extension of the file; that last part never holds a dot, and
    for a file name without any dot it is the whole name. *)
Theorem storage_key_extension (tab : TabType) (timestamp : N) (f : File.t) :
  let key ext := "ads/" +:+ tab_name tab +:+ "_" +:+ pretty timestamp +:+ "." +:+ ext in
  (exists ext, file_path tab timestamp f = key ext /\ dot_free ext = true)
  /\ (forall base ext,
        File.name f = base +:+ "." +:+ ext -> dot_free ext = true ->
        file_path tab timestamp f = key ext)
  /\ (dot_free (File.name f) = true -> file_path tab timestamp f = key (File.name f)).
Proof.
  intros key. subst key. unfold file_path. split; [|split].
  - exists (Js.split_pop "." (File.name f)). split; [reflexivity|apply split_pop_no_dot].
  - intros base ext -> Hext. rewrite (split_pop_last base ext Hext). reflexivity.
  - intros Hname. rewrite (split_pop_dot_free _ Hname). reflexivity.
Qed.

(** On the file "shoe.png", and on a file named "README". *)
Lemma storage_key_extension_witness :
  file_path product 1700000000000 Sample2.shoe
    = "ads/" +:+ tab_name product +:+ "_" +:+ pretty 1700000000000%N +:+ "." +:+ "png"
  /\ file_path ugc 5 {| File.name := "README"; File.type := EmptyString |}
     = "ads/" +:+ tab_name ugc +:+ "_" +:+ pretty 5%N +:+ "." +:+ "README".
Proof.
  split.
  - exact (proj1 (proj2 (storage_key_extension product 1700000000000 Sample2.shoe))
             "shoe" "png" eq_refl eq_refl).
  - exact (proj2 (proj2 (storage_key_extension ugc 5
                           {| File.name := "README"; File.type := EmptyString |}))
             eq_refl).
Defined.

(** ** The URL-only form *)


Lemma append_cons (c : ascii) (a b : string) : String c a +:+ b = String c (a +:+ b).
Proof. reflexivity. Qed.

Lemma trimStart_skip (s : string) :
  Js.trimStart s = match Js.skip_space s with Some r => Js.trimStart r | None => s end.
Proof.
  destruct s as [|c [|d [|e r]]]; cbn -[Js.is_space Js.is_space2 Js.is_space3];
    try reflexivity.
  - destruct (Js.is_space c); reflexivity.
  - destruct (Js.is_space c); [reflexivity|]. destruct (Js.is_space2 c d); reflexivity.
  - destruct (Js.is_space c); [reflexivity|]. destruct (Js.is_space2 c d); [reflexivity|].
    destruct (Js.is_space3 c d e); reflexivity.
Qed.

Lemma all_space_skip (s : string) :
  Js.all_space s =
    match s with
    | EmptyString => true
    | String _ _ =>
        match Js.skip_space s with Some r => Js.all_space r | None => false end
    end.
Proof.
  destruct s as [|c [|d [|e r]]]; cbn -[Js.is_space Js.is_space2 Js.is_space3];
    try reflexivity.
  - destruct (Js.is_space c); reflexivity.
  - destruct (Js.is_space c); [reflexivity|]. destruct (Js.is_space2 c d); reflexivity.
  - destruct (Js.is_space c); [reflexivity|]. destruct (Js.is_space2 c d); [reflexivity|].
    destruct (Js.is_space3 c d e); reflexivity.
Qed.

Lemma skip_space_shorter (s r : string) :
  Js.skip_space s = Some r -> (String.length r < String.length s)%nat.
Proof.
  destruct s as [|c [|d [|e r']]]; cbn -[Js.is_space Js.is_space2 Js.is_space3];
    try discriminate.
  - destruct (Js.is_space c); [intros [= <-]; simpl; lia | discriminate].
  - destruct (Js.is_space c); [intros [= <-]; simpl; lia|].
    destruct (Js.is_space2 c d); [intros [= <-]; simpl; lia | discriminate].
  - destruct (Js.is_space c); [intros [= <-]; simpl; lia|].
    destruct (Js.is_space2 c d); [intros [= <-]; simpl; lia|].
    destruct (Js.is_space3 c d e); [intros [= <-]; simpl; lia | discriminate].
Qed.

(** White space at the front of a string stays so when text is appended. *)
Lemma skip_space_app (a x w : string) :
  Js.skip_space a = Some x -> Js.skip_space (a +:+ w) = Some (x +:+ w).
Proof.
  destruct a as [|c [|d [|e r']]]; rewrite ?append_cons;
    cbn -[Js.is_space Js.is_space2 Js.is_space3 String.append]; try discriminate.
  - destruct (Js.is_space c); [intros [= <-]; reflexivity | discriminate].
  - destruct (Js.is_space c); [intros [= <-]; reflexivity|].
    change (EmptyString +:+ w) with w.
    destruct (Js.is_space2 c d); [intros [= <-]; reflexivity | discriminate].
  - destruct (Js.is_space c); [intros [= <-]; reflexivity|].
    destruct (Js.is_space2 c d); [intros [= <-]; reflexivity|].
    destruct (Js.is_space3 c d e); [intros [= <-]; reflexivity | discriminate].
Qed.

(** Induction along the white space at the front of a string. *)
Lemma space_ind (P : string -> Prop) :
  (forall s, Js.skip_space s = None -> P s) ->
  (forall s r, Js.skip_space s = Some r -> P r -> P s) ->
  forall s, P s.
Proof.
  intros Hnone Hsome s.
  remember (String.length s) as n eqn:Hn. revert s Hn.
  induction n as [n IH] using lt_wf_ind. intros s ->.
  destruct (Js.skip_space s) as [r|] eqn:Hs; [|exact (Hnone s Hs)].
  apply (Hsome s r Hs). apply (IH (String.length r)); [|reflexivity].
  exact (skip_space_shorter s r Hs).
Qed.

Lemma trimStart_all_space (s : string) :
  Js.all_space s = true -> Js.trimStart s = EmptyString.
Proof.
  induction s as [s Hs|s r Hs IH] using space_ind;
    rewrite all_space_skip, trimStart_skip, Hs.
  - destruct s; [reflexivity | discriminate].
  - destruct s; [discriminate Hs | exact IH].
Qed.

(** What [trimStart] leaves does not start with white space. *)
Lemma trimStart_fixed (s : string) : Js.skip_space (Js.trimStart s) = None.
Proof.
  induction s as [s Hs|s r Hs IH] using space_ind; rewrite trimStart_skip, Hs; assumption.
Qed.

Lemma trimStart_not_all_space (s : string) :
  Js.all_space s = false -> Js.all_space (Js.trimStart s) = false.
Proof.
  induction s as [s Hs|s r Hs IH] using space_ind;
    rewrite trimStart_skip, Hs; [auto|].
  rewrite (all_space_skip s), Hs. destruct s; [discriminate Hs | exact IH].
Qed.

Lemma all_space_app (a w : string) :
  Js.all_space a = true -> Js.all_space w = true -> Js.all_space (a +:+ w) = true.
Proof.
  intros Ha Hw. induction a as [a Hs|a r Hs IH] using space_ind.
  - rewrite all_space_skip, Hs in Ha. destruct a; [exact Hw | discriminate].
  - rewrite all_space_skip, Hs in Ha. destruct a as [|c a]; [discriminate Hs|].
    rewrite all_space_skip. change (String c a +:+ w) with (String c (a +:+ w)).
    change (String c (a +:+ w)) with (String c a +:+ w).
    rewrite (skip_space_app _ _ w Hs). exact (IH Ha).
Qed.

(** [trimEnd] cuts off white space only. *)
Lemma trimEnd_cut (s : string) :
  exists w, s = Js.trimEnd s +:+ w /\ Js.all_space w = true.
Proof.
  induction s as [|c s (w & Hw & Hs)]; [exists EmptyString; split; reflexivity|].
  cbn -[Js.all_space]. destruct (Js.all_space (String c s)) eqn:Ha.
  - exists (String c s). split; [reflexivity | exact Ha].
  - exists w. split; [|exact Hs].
    change (String c s = String c (Js.trimEnd s +:+ w)). rewrite <- Hw. reflexivity.
Qed.

Lemma trimEnd_not_all_space (s : string) :
  Js.all_space s = false -> Js.all_space (Js.trimEnd s) = false.
Proof.
  intros Ha. destruct (Js.all_space (Js.trimEnd s)) eqn:Ht; [|reflexivity].
  destruct (trimEnd_cut s) as (w & Hw & Hs).
  rewrite Hw, (all_space_app _ _ Ht Hs) in Ha. discriminate.
Qed.

Lemma trimEnd_idem (s : string) : Js.trimEnd (Js.trimEnd s) = Js.trimEnd s.
Proof.
  induction s as [|c s IH]; [reflexivity|].
  destruct (Js.all_space (String c s)) eqn:Ha.
  - cbn -[Js.all_space]. rewrite Ha. reflexivity.
  - pose proof (trimEnd_not_all_space _ Ha) as Ht.
    cbn -[Js.all_space] in Ht |- *. rewrite Ha in Ht |- *.
    cbn -[Js.all_space]. rewrite Ht, IH. reflexivity.
Qed.

(** [trimEnd] leaves the front of the string as it is. *)
Lemma trimEnd_front (s : string) :
  Js.skip_space s = None -> Js.skip_space (Js.trimEnd s) = None.
Proof.
  intros Hs. destruct (Js.skip_space (Js.trimEnd s)) as [x|] eqn:Ht; [|reflexivity].
  destruct (trimEnd_cut s) as (w & Hw & _).
  rewrite Hw, (skip_space_app _ _ w Ht) in Hs. discriminate.
Qed.

Lemma trim_truthy (s : string) : Js.truthy (Js.trim s) = negb (Js.all_space s).
Proof.
  unfold Js.trim. destruct (Js.all_space s) eqn:Ha.
  - rewrite (trimStart_all_space s Ha). reflexivity.
  - pose proof (trimEnd_not_all_space _ (trimStart_not_all_space s Ha)) as Ht.
    destruct (Js.trimEnd (Js.trimStart s)); [discriminate Ht | reflexivity].
Qed.

Lemma trim_idem (s : string) : Js.trim (Js.trim s) = Js.trim s.
Proof.
  unfold Js.trim.
  pose proof (trimEnd_front _ (trimStart_fixed s)) as Hf.
  rewrite (trimStart_skip (Js.trimEnd _)), Hf. apply trimEnd_idem.
Qed.

(** The white space that [skip_space] passes. *)
Lemma skip_space_cut (s r : string) :
  Js.skip_space s = Some r -> exists sp, s = sp +:+ r /\ Js.all_space sp = true.
Proof.
  destruct s as [|c [|d [|e r']]]; cbn -[Js.is_space Js.is_space2 Js.is_space3];
    try discriminate.
  - destruct (Js.is_space c) eqn:Ec; [intros [= <-] | discriminate].
    exists (String c EmptyString). split; [reflexivity|].
    cbn -[Js.is_space]. rewrite Ec. reflexivity.
  - destruct (Js.is_space c) eqn:Ec.
    { intros [= <-]. exists (String c EmptyString). split; [reflexivity|].
      cbn -[Js.is_space]. rewrite Ec. reflexivity. }
    destruct (Js.is_space2 c d) eqn:Ed; [intros [= <-] | discriminate].
    exists (String c (String d EmptyString)). split; [reflexivity|].
    cbn -[Js.is_space Js.is_space2]. rewrite Ec, Ed. reflexivity.
  - destruct (Js.is_space c) eqn:Ec.
    { intros [= <-]. exists (String c EmptyString). split; [reflexivity|].
      cbn -[Js.is_space]. rewrite Ec. reflexivity. }
    destruct (Js.is_space2 c d) eqn:Ed.
    { intros [= <-]. exists (String c (String d EmptyString)). split; [reflexivity|].
      cbn -[Js.is_space Js.is_space2]. rewrite Ec, Ed. reflexivity. }
    destruct (Js.is_space3 c d e) eqn:Ee; [intros [= <-] | discriminate].
    exists (String c (String d (String e EmptyString))). split; [reflexivity|].
    cbn -[Js.is_space Js.is_space2 Js.is_space3]. rewrite Ec, Ed, Ee. reflexivity.
Qed.

(** [trimStart] cuts off white space only. *)
Lemma trimStart_cut (s : string) :
  exists pre, s = pre +:+ Js.trimStart s /\ Js.all_space pre = true.
Proof.
  induction s as [s Hs|s r Hs (pre & Hpre & Ha)] using space_ind;
    rewrite trimStart_skip, Hs.
  - exists EmptyString. split; reflexivity.
  - destruct (skip_space_cut s r Hs) as (sp & -> & Hsp).
    exists (sp +:+ pre). split; [|exact (all_space_app _ _ Hsp Ha)].
    rewrite append_assoc, <- Hpre. reflexivity.
Qed.

(** [trim] removes white space around the text and nothing else: what it
    returns neither starts nor ends with white space, and the string is
    that text between two runs of white space. *)
Lemma trim_spec (s : string) :
  Js.skip_space (Js.trim s) = None
  /\ Js.trimEnd (Js.trim s) = Js.trim s
  /\ exists pre post, s = pre +:+ Js.trim s +:+ post
                      /\ Js.all_space pre = true /\ Js.all_space post = true.
Proof.
  unfold Js.trim. split; [exact (trimEnd_front _ (trimStart_fixed s))|].
  split; [apply trimEnd_idem|].
  destruct (trimStart_cut s) as (pre & Hpre & Ha).
  destruct (trimEnd_cut (Js.trimStart s)) as (post & Hpost & Hb).
  exists pre, post. split; [|split; assumption].
  rewrite <- Hpost. exact Hpre.
Qed.

(** X18: what the URL-only form posts: on the image tab the image URL with the
    surrounding white space removed (all the white space and line
    terminators that [trim] knows, and nothing but white space), which is
    then never empty, and no product fields; on the other tabs the product
    name and description as typed (also when empty) and the product image
    URL, trimmed, only when it is not blank. *)
Theorem url_payload_trimmed (w : World) (s : State) (url : string) (p : UrlPayload.t) :
  In (HttpPost url (UrlAdBody p)) (log (run handleSubmitUrl w s)) ->
  UrlPayload.prompt p = prompt s
  /\ UrlPayload.type p = tab_name (activeTab s)
  /\ UrlPayload.aspect_ratio p = ratio_name (aspectRatio s)
  /\ match activeTab s with
     | reels =>
         UrlPayload.image_url p = Some (Js.trim (imageUrl s))
         /\ Js.trim (imageUrl s) <> EmptyString
         /\ Js.skip_space (Js.trim (imageUrl s)) = None
         /\ Js.trimEnd (Js.trim (imageUrl s)) = Js.trim (imageUrl s)
         /\ (exists pre post,
               imageUrl s = pre +:+ Js.trim (imageUrl s) +:+ post
               /\ Js.all_space pre = true /\ Js.all_space post = true)
         /\ UrlPayload.product_name p = None
         /\ UrlPayload.product_description p = None
         /\ UrlPayload.product_image_url p = None
     | _ =>
         UrlPayload.image_url p = None
         /\ UrlPayload.product_name p = Some (productName s)
         /\ UrlPayload.product_description p = Some (productDescription s)
         /\ UrlPayload.product_image_url p =
              (if Js.all_space (productImageUrl s) then None
               else Some (Js.trim (productImageUrl s)))
     end.
Proof.
  intros Hin.
  destruct (Js.truthy (Js.or (n8nGenerateWebhook (settings s))
                             (n8nPostWebhook (settings s)))) eqn:Hurl.
  - rewrite (handleSubmitUrl_run w s Hurl) in Hin.
    destruct (image_url_missing s) eqn:Hmiss.
    { unfold log in Hin. simpl in Hin. log_facts. }
    assert (Hp : p = build_url_payload s).
    { destruct (dispatch_completion w _ _) as [[]|m]; unfold log in Hin; simpl in Hin;
        destruct Hin as [Hin|Hin]; log_facts; injection Hin as _ <-; reflexivity. }
    subst p. unfold image_url_missing in Hmiss. unfold build_url_payload.
    split; [destruct (activeTab s); reflexivity|].
    split; [destruct (activeTab s); reflexivity|].
    split; [destruct (activeTab s); reflexivity|].
    destruct (activeTab s); simpl.
    + apply negb_false_iff in Hmiss.
      destruct (trim_spec (imageUrl s)) as (Hfront & Hend & Hcut).
      split; [reflexivity|]. split; [apply truthy_true_iff, Hmiss|].
      split; [exact Hfront|]. split; [exact Hend|]. split; [exact Hcut|].
      split; [reflexivity|]. split; reflexivity.
    + split; [reflexivity|]. split; [reflexivity|]. split; [reflexivity|].
      unfold Js.or_null. rewrite trim_truthy.
      destruct (Js.all_space (productImageUrl s)); reflexivity.
    + split; [reflexivity|]. split; [reflexivity|]. split; [reflexivity|].
      unfold Js.or_null. rewrite trim_truthy.
      destruct (Js.all_space (productImageUrl s)); reflexivity.
  - destruct (no_endpoint_submit w s Hurl) as [_ H2]. rewrite H2 in Hin.
    unfold log in Hin. simpl in Hin. log_facts.
Qed.

(** On the sample form whose URL is typed between blanks, and on the one
    whose URL is pasted between no-break spaces. *)
Lemma url_payload_trimmed_witness :
  UrlPayload.image_url (build_url_payload Sample2.padded_reels)
    = Some (Js.trim (imageUrl Sample2.padded_reels))
  /\ UrlPayload.image_url (build_url_payload Sample2.nbsp_padded_reels)
     = Some (Js.trim (imageUrl Sample2.nbsp_padded_reels)).
Proof.
  split.
  - refine (proj1 (proj2 (proj2 (proj2
              (url_payload_trimmed Sample.world Sample2.padded_reels
                 "https://n8n.example/generate"
                 (build_url_payload Sample2.padded_reels) _))))).
    vm_compute. left. reflexivity.
  - refine (proj1 (proj2 (proj2 (proj2
              (url_payload_trimmed Sample.world Sample2.nbsp_padded_reels
                 "https://n8n.example/generate"
                 (build_url_payload Sample2.nbsp_padded_reels) _))))).
    vm_compute. left. reflexivity.
Defined.

Example sample_trimmed_urls :
  Js.trim (imageUrl Sample2.padded_reels) = "https://cdn.example/a.jpg"
  /\ Js.trim (imageUrl Sample2.nbsp_padded_reels) = "https://cdn.example/a.jpg"
  /\ Js.trim Sample2.nbsp = EmptyString
  /\ Js.trim Sample2.line_separator = EmptyString
  /\ Js.trim Sample2.byte_order_mark = EmptyString
  /\ Js.all_space (" " +:+ Sample2.nbsp +:+ Sample2.ideographic_space) = true.
Proof. repeat split. Qed.

(** X19: on the image tab of the URL-only form a blank URL (empty, or white
    space only, of any kind that [trim] removes) stops the submission
    before anything is sent: one error toast, no network call, the state
    as it was.  A missing endpoint is reported first. *)
Theorem blank_image_url_rejected (w : World) (s : State) :
  activeTab s = reels ->
  Js.all_space (imageUrl s) = true ->
  network_calls (log (run handleSubmitUrl w s)) = []
  /\ final_state (run handleSubmitUrl w s) = s
  /\ log (run handleSubmitUrl w s) =
       [Toast error_toast
          (if Js.truthy (Js.or (n8nGenerateWebhook (settings s))
                               (n8nPostWebhook (settings s)))
           then "Please enter an image URL!"
           else "Please configure at least one n8n webhook in Settings!")].
Proof.
  intros Htab Hblank.
  destruct (Js.truthy (Js.or (n8nGenerateWebhook (settings s))
                             (n8nPostWebhook (settings s)))) eqn:Hurl.
  - rewrite (handleSubmitUrl_run w s Hurl).
    assert (Hmiss : image_url_missing s = true)
      by (unfold image_url_missing; rewrite Htab, trim_truthy, Hblank; reflexivity).
    rewrite Hmiss. repeat split.
  - destruct (no_endpoint_submit w s Hurl) as [_ H2]. rewrite H2. repeat split.
Qed.

(** On the sample form with three blanks typed as URL, and on the one with
    a no-break space. *)
Lemma blank_image_url_rejected_witness :
  network_calls (log (run handleSubmitUrl Sample.world Sample2.blank_reels)) = []
  /\ log (run handleSubmitUrl Sample.world Sample2.nbsp_reels)
     = [Toast error_toast "Please enter an image URL!"].
Proof.
  split.
  - exact (proj1 (blank_image_url_rejected Sample.world Sample2.blank_reels
                    eq_refl eq_refl)).
  - exact (proj2 (proj2 (blank_image_url_rejected Sample.world Sample2.nbsp_reels
                           eq_refl eq_refl))).
Defined.

(** ** Media of a row *)










(** ** The hint about the missing bucket *)

Lemma resolve_file_url_hint (w : World) (s s' : State) :
  In (Toast error_toast bucket_missing_message) (log (run (resolve_file_url s) w s')) ->
  exists c path f r m,
    In (StorageUpload c "ad-files" path f) (log (run (resolve_file_url s) w s'))
    /\ upload_reply w c "ad-files" path f = Resolved r
    /\ error r = Some m
    /\ Js.includes "Bucket not found" m = true
    /\ completion (run (resolve_file_url s) w s') = Normal None.
Proof.
  unfold resolve_file_url, upload_wanted, upload_to_storage. act_unfold.
  destruct (file s) as [f|] eqn:Hf, (filePreview s) as [[|a p]|] eqn:Hp; simpl;
    destruct (getSupabase w (settings s)) as [[c|]|m0] eqn:Hc; simpl;
    try (intros []).
  all: repeat
    match goal with
    | |- context [match dataurl_reply ?w ?p with _ => _ end] =>
        destruct (dataurl_reply w p) as [?|?]; simpl
    | |- context [match upload_reply ?w ?c ?b ?p ?f with _ => _ end] =>
        destruct (upload_reply w c b p f) as [[? [?|]]|?] eqn:Hup; simpl
    | |- context [if Js.includes ?a ?b then _ else _] =>
        destruct (Js.includes a b) eqn:Hinc; simpl
    end.
  all: intros Hin; log_facts.
  all: eexists _, _, _, _, _; split; [simpl; eauto|];
    split; [exact Hup|]; split; [reflexivity|]; split; [exact Hinc | reflexivity].
Qed.

(** X9: the toast that tells the user to create the storage bucket is shown
    only after an upload to "ad-files" came back with an error response
    whose message contains "Bucket not found" (a rejected upload never
    shows it); the request that follows is posted without a [file_url]. *)
Theorem bucket_hint_only_on_bucket_error (w : World) (s : State) :
  In (Toast error_toast bucket_missing_message) (log (run handleSubmit w s)) ->
  exists c path f r m,
    In (StorageUpload c "ad-files" path f) (log (run handleSubmit w s))
    /\ upload_reply w c "ad-files" path f = Resolved r
    /\ error r = Some m
    /\ occurs_in "Bucket not found" m
    /\ (forall url p, In (HttpPost url (AdBody p)) (log (run handleSubmit w s)) ->
          Payload.file_url p = None).
Proof.
  intros Hin.
  destruct (Js.truthy (Js.or (n8nGenerateWebhook (settings s))
                             (n8nPostWebhook (settings s)))) eqn:Hurl.
  - pose proof (handleSubmit_run w s Hurl) as Hrun. cbv zeta in Hrun.
    destruct (client_failure w s) as [m0|] eqn:Hcf.
    { rewrite Hrun in Hin. unfold log in Hin. simpl in Hin. destruct Hin as [Hin|[]].
      exfalso. injection Hin as Hin. discriminate Hin. }
    destruct Hrun as (fileUrl & l & Hr & Hrun).
    destruct (resolve_file_url_run w s (setLoading true s) Hcf)
      as (o & l' & Hr' & Hev & _).
    rewrite Hr in Hr'. injection Hr' as <- <-.
    assert (Hlog : exists tail,
               log (run handleSubmit w s)
               = l ++ HttpPost (Js.or (n8nGenerateWebhook (settings s))
                                      (n8nPostWebhook (settings s)))
                        (AdBody (build_payload s fileUrl (now_iso w))) :: tail
               /\ (tail = [Toast success submitted_message;
                           SetTimeout 2000 SwitchToDashboardAndFetch]
                   \/ exists m, tail = [Toast error_toast ("Error: " +:+ m)])).
    { rewrite Hrun. destruct (dispatch_completion w _ _) as [[]|m];
        eexists; (split; [reflexivity|]); [left; reflexivity | right; eauto]. }
    destruct Hlog as (tail & Hlog & Htail). rewrite Hlog in Hin |- *.
    assert (Hinl : In (Toast error_toast bucket_missing_message) l).
    { apply in_app_or in Hin as [Hin|Hin]; [exact Hin|]. exfalso.
      destruct Hin as [Hin|Hin]; [discriminate Hin|].
      destruct Htail as [->|(m & ->)]; simpl in Hin.
      - destruct Hin as [Hin|[Hin|[]]]; discriminate Hin.
      - destruct Hin as [Hin|[]]. vm_compute in Hin. discriminate Hin. }
    assert (Hl : log (run (resolve_file_url s) w (setLoading true s)) = l)
      by (rewrite Hr; reflexivity).
    assert (Hc : completion (run (resolve_file_url s) w (setLoading true s))
                 = Normal fileUrl) by (rewrite Hr; reflexivity).
    rewrite <- Hl in Hinl.
    destruct (resolve_file_url_hint w s (setLoading true s) Hinl)
      as (c & path & f & r & m & Hup & Hreply & Herr & Hinc & Hnone).
    rewrite Hc in Hnone. injection Hnone as ->. rewrite Hl in Hup.
    exists c, path, f, r, m.
    split; [apply in_or_app; left; exact Hup|].
    split; [exact Hreply|]. split; [exact Herr|].
    split; [apply includes_spec, Hinc|].
    intros url p Hpost.
    assert (Htail' : tail = [Toast success submitted_message;
                             SetTimeout 2000 SwitchToDashboardAndFetch]
                     \/ exists msg, tail = [Toast error_toast msg])
      by (destruct Htail as [->|(m' & ->)]; [left; reflexivity | right; eauto]).
    destruct (in_submit_log_post l tail _ url _ (AdBody p) Hev Htail' Hpost) as [_ Hbody].
    injection Hbody as ->. reflexivity.
  - destruct (no_endpoint_submit w s Hurl) as [H1 _]. rewrite H1 in Hin.
    unfold log in Hin. simpl in Hin. destruct Hin as [Hin|[]].
    vm_compute in Hin. discriminate Hin.
Qed.

(** On the sample data, with the bucket missing. *)
Lemma bucket_hint_only_on_bucket_error_witness :
  exists c path f r m,
    In (StorageUpload c "ad-files" path f)
       (log (run handleSubmit Sample.storage_down_world (Sample.state Sample.configured)))
    /\ upload_reply Sample.storage_down_world c "ad-files" path f = Resolved r
    /\ error r = Some m
    /\ occurs_in "Bucket not found" m
    /\ (forall url p,
          In (HttpPost url (AdBody p))
             (log (run handleSubmit Sample.storage_down_world
                     (Sample.state Sample.configured))) ->
          Payload.file_url p = None).
Proof.
  refine (bucket_hint_only_on_bucket_error Sample.storage_down_world
            (Sample.state Sample.configured) _).
  vm_compute. right. left. reflexivity.
Defined.
